(** * Asset generators of the Mini App manifest: screenshots and Flux icon

    A shallow embedding of the two command-line scripts of the repository,
    [scripts/generate-screenshots.js] and [scripts/generate-flux-icon.js],
    and the properties their specification states about them.

    The scripts are straight-line JavaScript over the environment, the
    local file system, two HTTP services and the console.  They are
    embedded as computations of a state-and-exception monad over a
    [world] record; a computation ends by returning, by throwing a
    JavaScript error, or by [process.exit]. *)

From Stdlib Require Import Bool Arith Lia List ZArith.
From Stdlib Require Import Ascii String DecimalString.
From Stdlib Require Import Floats.SpecFloat.
Import ListNotations.

Open Scope list_scope.
Open Scope string_scope.

Set Implicit Arguments.

(** ** JavaScript strings *)

Module JsString.

(** [s.startsWith(p)] *)
Fixpoint startsWith (s p : string) {struct p} : bool :=
  match p, s with
  | EmptyString, _ => true
  | String c p', String d s' => Ascii.eqb c d && startsWith s' p'
  | String _ _, EmptyString => false
  end.

(** [s.endsWith(p)]: the last [length p] code units of [s] are [p]. *)
Definition endsWith (s p : string) : bool :=
  Nat.leb (String.length p) (String.length s) &&
  String.eqb (substring (String.length s - String.length p) (String.length p) s) p.

(** [s.includes(p)] *)
Fixpoint includes (s p : string) : bool :=
  startsWith s p ||
  match s with
  | EmptyString => false
  | String _ s' => includes s' p
  end.

(** [s.replace(/[:.]/g, '-')]: every colon and every dot becomes a dash. *)
Definition dash_colon_dot (c : ascii) : ascii :=
  if Ascii.eqb c ":" || Ascii.eqb c "." then "-"%char else c.

Fixpoint replace_colon_dot (s : string) : string :=
  match s with
  | EmptyString => EmptyString
  | String c s' => String (dash_colon_dot c) (replace_colon_dot s')
  end.

(** Canonicalisation of a code unit under the [i] flag of a regular
    expression without the [u] flag: the upper-case mapping, which on
    the ASCII range moves [a-z] to [A-Z] and never maps a code unit
    outside the ASCII range into it. *)
Definition canonicalize (c : ascii) : ascii :=
  let n := nat_of_ascii c in
  if Nat.leb 97 n && Nat.leb n 122 then ascii_of_nat (n - 32) else c.

(** What is left of [s] after the literal [p] matched at its start,
    ignoring case; [None] when it does not match. *)
Fixpoint strip_ci (s p : string) {struct p} : option string :=
  match p, s with
  | EmptyString, _ => Some s
  | String c p', String d s' =>
      if Ascii.eqb (canonicalize c) (canonicalize d) then strip_ci s' p' else None
  | String _ _, EmptyString => None
  end.

(** The value a template literal gives for a string that may be
    [undefined]. *)
Definition template (s : option string) : string :=
  match s with
  | Some s => s
  | None => "undefined"
  end.

(** Truthiness of a string that may be [undefined]. *)
Definition nonempty (s : option string) : bool :=
  match s with
  | Some (String _ _) => true
  | _ => false
  end.

(** [String(n)] for an integer [n]. *)
Definition of_Z (n : Z) : string := NilZero.string_of_int (Z.to_int n).

End JsString.

(** ** JSON documents as JavaScript values *)

Module Json.
Import JsString.

(** The values [JSON.parse] produces.  A number is the IEEE 754 datum;
    an object keeps its properties in order. *)
#[local] Unset Elimination Schemes.
Inductive json : Type :=
| JNull
| JBool (b : bool)
| JNum (n : spec_float)
| JStr (s : string)
| JArr (items : list json)
| JObj (fields : list (string * json)).
#[local] Set Elimination Schemes.

(** [ToBoolean]; [None] stands for [undefined]. *)
Definition truthy (v : json) : bool :=
  match v with
  | JNull => false
  | JBool b => b
  | JNum (S754_zero _) => false
  | JNum S754_nan => false
  | JNum _ => true
  | JStr EmptyString => false
  | JStr _ => true
  | JArr _ => true
  | JObj _ => true
  end.

Definition truthy_opt (v : option json) : bool :=
  match v with
  | Some v => truthy v
  | None => false
  end.

Section ToString.
(** [Number.prototype.toString], a built-in of the engine. *)
Variable Number_toString : spec_float -> string.

(** [String(v)], as a template literal and [new URL(v)] apply it.
    An array joins its elements with commas, [null] elements giving
    the empty string. *)
Fixpoint ToString (v : json) : string :=
  match v with
  | JNull => "null"
  | JBool true => "true"
  | JBool false => "false"
  | JNum n => Number_toString n
  | JStr s => s
  | JArr items =>
      String.concat ","
        (map (fun x => match x with JNull => "" | _ => ToString x end) items)
  | JObj _ => "[object Object]"
  end.
End ToString.

(** Own properties of an object, by name. *)
Fixpoint obj_get (k : string) (fields : list (string * json)) : option json :=
  match fields with
  | [] => None
  | (k', v) :: rest => if String.eqb k k' then Some v else obj_get k rest
  end.

(** Assignment to a property: an existing property keeps its place, a
    new one is added last. *)
Fixpoint obj_set (k : string) (v : json) (fields : list (string * json))
  : list (string * json) :=
  match fields with
  | [] => [(k, v)]
  | (k', v') :: rest =>
      if String.eqb k k' then (k', v) :: rest else (k', v') :: obj_set k v rest
  end.

(** The value [JSON.parse] reads from the text that
    [JSON.stringify(v, null, 2)] writes, for a value [v] that came from
    [JSON.parse] and from assignments of strings: a number that is not
    finite (the text [1e999] is read as [Infinity]) is written [null],
    the negative zero is written [0], any other number is written with
    digits that are read back as the same datum, and strings, arrays
    and objects keep their content and their order. *)
Fixpoint stringify_parse (v : json) : json :=
  match v with
  | JNull => JNull
  | JBool b => JBool b
  | JNum (S754_zero _) => JNum (S754_zero false)
  | JNum (S754_infinity _) => JNull
  | JNum S754_nan => JNull
  | JNum n => JNum n
  | JStr s => JStr s
  | JArr items => JArr (map stringify_parse items)
  | JObj fields =>
      JObj (map (fun kv => (fst kv, stringify_parse (snd kv))) fields)
  end.

End Json.

(** ** The world the scripts run in *)

Module World.
Import JsString Json.

(** A thrown JavaScript error: its constructor and its [message]. *)
Inductive error_kind := PlainError | TypeError | SyntaxError | SystemError.

Record js_error := mk_error { kind : error_kind; message : string }.

(** What a buffer written to disk was made from. *)
Inductive buffer :=
| FromBase64 (b64 : string)      (* [Buffer.from(data, 'base64')] *)
| FromBytes (bytes : string).    (* [Buffer.from(arrayBuffer)] *)

(** The text of the manifest file, as [JSON.parse] reads it: either a
    syntax error or the document it gives.  The text itself (spacing,
    the digits of a number) is not kept. *)
Inductive manifest_text :=
| Malformed (syntax_error : string)
| Document (j : json).

(** The two places of the file system the scripts touch, relative to
    the working directory: the directory [public/images] ([None]: it
    does not exist) and the file [public/.well-known/farcaster.json]
    ([None]: it does not exist). *)
Record filesystem := mk_fs {
  images : option (list (string * buffer));
  manifest : option manifest_text
}.

(** System calls that the operating system refuses, with the message
    of the error they throw; [None]: the call goes through. *)
Record faults := mk_faults {
  readdir_fault : option string;
  unlink_fault : string -> option string;
  mkdir_fault : option string;
  write_image_fault : string -> option string;
  read_manifest_fault : option string;
  write_manifest_fault : option string
}.

Record viewport := mk_viewport { width : Z; height : Z }.

(** Body of the request to the screenshot service. *)
Record screenshot_body := mk_body {
  body_url : string;
  body_waitUntil : string;
  body_viewport : viewport;
  body_waitFn : string;
  body_waitTimeout : Z
}.

Record fetch_request := mk_fetch {
  fetch_url : string;
  fetch_method : string;
  fetch_headers : list (string * string);
  fetch_body : option screenshot_body
}.

Record http_response := mk_response {
  ok : bool;
  status : Z;
  statusText : string;
  content_type : option string;     (* [headers.get('content-type')] *)
  body : string                     (* [text()] and [arrayBuffer()] *)
}.

Inductive fetch_outcome :=
| FetchRejected (e : js_error)
| FetchResolved (r : http_response).

(** Request and response of the image-generation service. *)
Record images_request := mk_images_request {
  img_model : string;
  img_prompt : string;
  img_width : Z;
  img_height : Z;
  img_steps : Z;
  img_n : Z;
  img_seed : Z;
  img_response_format : string
}.

Record image_datum := mk_datum { b64_json : option string }.

Record images_response := mk_images_response {
  data : option (list image_datum)
}.

Inductive images_outcome :=
| ImagesRejected (e : js_error)
| ImagesResolved (r : images_response).

(** The client of the image-generation service. *)
Record Together := mk_together { apiKey : string }.

(** What a run does that is seen from outside, in order.  Lines of
    [console.log] (progress on standard output) are not recorded;
    [console.warn] and [console.error] are. *)
Inductive event :=
| ConsoleWarn (line : string)
| ConsoleError (line : string)
| Fetched (r : fetch_request)
| ImagesCreated (client : Together) (r : images_request)
| Slept (seconds : Z).

Record world := mk_world {
  env : string -> option string;              (* [process.env] *)
  argv : list string;                         (* [process.argv] *)
  fs : filesystem;
  os : faults;
  Number_toString : spec_float -> string;
  URL_origin : string -> option string;       (* [new URL(s).origin]; [None]: it throws *)
  clock : nat -> string;                      (* [toISOString()] of the n-th [new Date()] *)
  dates : nat;                                (* how many dates were taken *)
  random_million : Z;                         (* [Math.floor(Math.random() * 1000000)] *)
  network : fetch_request -> fetch_outcome;   (* [fetch] *)
  images_api : Together -> images_request -> images_outcome;
  cwd : string;                               (* [process.cwd()] *)
  path_join : string -> string -> string;     (* [join] of [path] *)
  trace : list event
}.

Definition with_fs (w : world) (f : filesystem) : world :=
  mk_world (env w) (argv w) f (os w) (Number_toString w) (URL_origin w)
    (clock w) (dates w) (random_million w) (network w) (images_api w)
    (cwd w) (path_join w) (trace w).

Definition with_dates (w : world) (n : nat) : world :=
  mk_world (env w) (argv w) (fs w) (os w) (Number_toString w) (URL_origin w)
    (clock w) n (random_million w) (network w) (images_api w)
    (cwd w) (path_join w) (trace w).

Definition with_trace (w : world) (t : list event) : world :=
  mk_world (env w) (argv w) (fs w) (os w) (Number_toString w) (URL_origin w)
    (clock w) (dates w) (random_million w) (network w) (images_api w)
    (cwd w) (path_join w) t.

(** *** Computations *)

Inductive outcome (A : Type) :=
| Returned (a : A)
| Thrown (e : js_error)
| Exited (code : Z).

Arguments Returned {A} a.
Arguments Thrown {A} e.
Arguments Exited {A} code.

Definition js (A : Type) : Type := world -> outcome A * world.

Definition ret {A} (a : A) : js A := fun w => (Returned a, w).

Definition bind {A B} (m : js A) (k : A -> js B) : js B :=
  fun w =>
    match m w with
    | (Returned a, w') => k a w'
    | (Thrown e, w') => (Thrown e, w')
    | (Exited c, w') => (Exited c, w')
    end.

Definition throw {A} (e : js_error) : js A := fun w => (Thrown e, w).

(** [process.exit(code)]: the process ends there; no handler runs. *)
Definition process_exit {A} (code : Z) : js A := fun w => (Exited code, w).

(** [try { body } catch (error) { handler }] *)
Definition try_catch {A} (body : js A) (handler : js_error -> js A) : js A :=
  fun w =>
    match body w with
    | (Thrown e, w') => handler e w'
    | r => r
    end.

Definition gets {A} (f : world -> A) : js A := fun w => (Returned (f w), w).

Definition emit (e : event) : js unit :=
  fun w => (Returned tt, with_trace w (trace w ++ [e])%list).

End World.

Declare Scope js_scope.
Delimit Scope js_scope with js.
Notation "x <- m ;; k" := (World.bind m (fun x => k))
  (at level 61, m at next level, right associativity) : js_scope.
Notation "m ;; k" := (World.bind m (fun _ => k))
  (at level 61, right associativity) : js_scope.

(** ** The Node.js and engine operations the scripts call *)

Module Node.
Import JsString Json World.
#[local] Open Scope js_scope.

Definition system_error {A} (msg : string) : js A :=
  throw (mk_error SystemError msg).

(** [console.warn(line)] and [console.error(a, b, ...)], the arguments
    of the latter separated by a space. *)
Definition console_warn (line : string) : js unit := emit (ConsoleWarn line).

Definition console_error (args : list string) : js unit :=
  emit (ConsoleError (String.concat " " args)).

(** *** [public/images] *)

Definition existsSync_images : js bool :=
  gets (fun w => match images (fs w) with Some _ => true | None => false end).

Definition mkdirSync_images : js unit :=
  fun w =>
    match mkdir_fault (os w) with
    | Some msg => system_error msg w
    | None =>
        match images (fs w) with
        | Some _ => (Returned tt, w)      (* [recursive: true]: no error when it exists *)
        | None => (Returned tt, with_fs w (mk_fs (Some []) (manifest (fs w))))
        end
    end.

Definition readdirSync_images : js (list string) :=
  fun w =>
    match readdir_fault (os w) with
    | Some msg => system_error msg w
    | None =>
        match images (fs w) with
        | Some entries => (Returned (map fst entries), w)
        | None => system_error "ENOENT: no such file or directory, scandir 'public/images'" w
        end
    end.

Definition has_entry (name : string) (entries : list (string * buffer)) : bool :=
  existsb (fun e => String.eqb (fst e) name) entries.

Definition remove_entry (name : string) (entries : list (string * buffer))
  : list (string * buffer) :=
  filter (fun e => negb (String.eqb (fst e) name)) entries.

Fixpoint put_entry (name : string) (b : buffer) (entries : list (string * buffer))
  : list (string * buffer) :=
  match entries with
  | [] => [(name, b)]
  | (n, b') :: rest =>
      if String.eqb n name then (n, b) :: rest else (n, b') :: put_entry name b rest
  end.

Definition unlinkSync_image (name : string) : js unit :=
  fun w =>
    match unlink_fault (os w) name with
    | Some msg => system_error msg w
    | None =>
        match images (fs w) with
        | Some entries =>
            if has_entry name entries
            then (Returned tt, with_fs w (mk_fs (Some (remove_entry name entries)) (manifest (fs w))))
            else system_error ("ENOENT: no such file or directory, unlink 'public/images/" ++ name ++ "'") w
        | None =>
            system_error ("ENOENT: no such file or directory, unlink 'public/images/" ++ name ++ "'") w
        end
    end.

Definition writeFileSync_image (name : string) (b : buffer) : js unit :=
  fun w =>
    match write_image_fault (os w) name with
    | Some msg => system_error msg w
    | None =>
        match images (fs w) with
        | Some entries =>
            (Returned tt, with_fs w (mk_fs (Some (put_entry name b entries)) (manifest (fs w))))
        | None =>
            system_error ("ENOENT: no such file or directory, open 'public/images/" ++ name ++ "'") w
        end
    end.

(** *** [public/.well-known/farcaster.json] *)

Definition existsSync_manifest : js bool :=
  gets (fun w => match manifest (fs w) with Some _ => true | None => false end).

Definition readFileSync_manifest : js manifest_text :=
  fun w =>
    match read_manifest_fault (os w) with
    | Some msg => system_error msg w
    | None =>
        match manifest (fs w) with
        | Some text => (Returned text, w)
        | None =>
            system_error "ENOENT: no such file or directory, open 'public/.well-known/farcaster.json'" w
        end
    end.

Definition writeFileSync_manifest (text : manifest_text) : js unit :=
  fun w =>
    match write_manifest_fault (os w) with
    | Some msg => system_error msg w
    | None => (Returned tt, with_fs w (mk_fs (images (fs w)) (Some text)))
    end.

(** *** JSON and property access *)

Definition JSON_parse (text : manifest_text) : js json :=
  match text with
  | Document j => ret j
  | Malformed msg => throw (mk_error SyntaxError msg)
  end.

(** [JSON.stringify(config, null, 2)]: a text that [JSON.parse] reads
    as [stringify_parse config]. *)
Definition JSON_stringify (config : json) : manifest_text :=
  Document (stringify_parse config).

(** [v.k] for the property names the scripts read ([miniapp], [name],
    [homeUrl], none of them a built-in property of a primitive or of an
    array): the own property of an object, [undefined] on any other
    value, a [TypeError] on [null]. *)
Definition member (v : json) (k : string) : js (option json) :=
  match v with
  | JNull => throw (mk_error TypeError ("Cannot read properties of null (reading '" ++ k ++ "')"))
  | JObj fields => ret (obj_get k fields)
  | _ => ret None
  end.

(** [v?.k] where [v] may be [undefined]. *)
Definition optional_member (v : option json) (k : string) : js (option json) :=
  match v with
  | None => ret None
  | Some JNull => ret None
  | Some v => member v k
  end.

(** [target.k = x] in module (strict) code, as it shows in the object
    afterwards: an object gets the property; an array gets a property
    that is not an index, which [JSON.stringify] does not write; a
    primitive refuses with a [TypeError]. *)
Definition assign (target : json) (k : string) (x : json) : js json :=
  match target with
  | JObj fields => ret (JObj (obj_set k x fields))
  | JArr items => ret (JArr items)
  | JNull => throw (mk_error TypeError ("Cannot set properties of null (setting '" ++ k ++ "')"))
  | _ => throw (mk_error TypeError ("Cannot create property '" ++ k ++ "'"))
  end.

(** [config.miniapp.k = x]: the object held by [config.miniapp] is
    changed in place, so [config] shows the change. *)
Definition assign_miniapp (config : json) (k : string) (x : json) : js json :=
  held <- member config "miniapp" ;;
  match held with
  | None => throw (mk_error TypeError ("Cannot set properties of undefined (setting '" ++ k ++ "')"))
  | Some target =>
      target' <- assign target k x ;;
      match config with
      | JObj fields => ret (JObj (obj_set "miniapp" target' fields))
      | _ => ret config
      end
  end.

(** *** Time, network *)

(** [new Date().toISOString()] *)
Definition now_toISOString : js string :=
  fun w => (Returned (clock w (dates w)), with_dates w (S (dates w))).

Definition fetch (r : fetch_request) : js http_response :=
  emit (Fetched r) ;;
  out <- gets (fun w => network w r) ;;
  match out with
  | FetchRejected e => throw e
  | FetchResolved resp => ret resp
  end.

(** [together.images.create(request)] *)
Definition images_create (together : Together) (r : images_request) : js images_response :=
  emit (ImagesCreated together r) ;;
  out <- gets (fun w => images_api w together r) ;;
  match out with
  | ImagesRejected e => throw e
  | ImagesResolved resp => ret resp
  end.

(** [await new Promise(resolve => setTimeout(resolve, seconds * 1000))] *)
Definition setTimeout_seconds (seconds : Z) : js unit := emit (Slept seconds).

(** [xs.forEach(f)] *)
Fixpoint forEach {A} (xs : list A) (f : A -> js unit) : js unit :=
  match xs with
  | [] => ret tt
  | x :: rest => f x ;; forEach rest f
  end.

End Node.

(** ** [scripts/generate-screenshots.js] *)

Module Screenshots.
Import JsString Json World Node.
#[local] Open Scope js_scope.

Definition newline : string := String (ascii_of_nat 10) EmptyString.

Definition GENERATION_DELAYS_betweenImages : Z := 2.

(** [SCREENSHOT_CONFIG.baseUrl], that is [process.env.BROWSERLESS_API_URL] *)
Definition SCREENSHOT_CONFIG_baseUrl : js (option string) :=
  gets (fun w => env w "BROWSERLESS_API_URL").

Definition sleep (seconds : Z) : js unit :=
  if (0 <? seconds)%Z then setTimeout_seconds seconds else ret tt.

(** [/^https?:\/\//i.test(url)]: at the start of the subject and in
    any letter case, [http], then an [s] if there is one (and, failing
    that, none), then [://]. *)
Definition protocol_test (url : string) : bool :=
  match strip_ci url "http" with
  | None => false
  | Some rest =>
      match strip_ci rest "s" with
      | Some rest' => startsWith rest' "://" || startsWith rest "://"
      | None => startsWith rest "://"
      end
  end.

Definition ensureProtocol (url : string) : string :=
  if negb (protocol_test url) then "https://" ++ url else url.

Definition SCREENSHOT_VIEWPORTS_embed : viewport := mk_viewport 768 512.
Definition SCREENSHOT_VIEWPORTS_splash : viewport := mk_viewport 424 695.

Definition image_content_type (contentType : option string) : bool :=
  match contentType with
  | Some ct => startsWith ct "image/"
  | None => false
  end.

Definition takeScreenshot (url : string) (vp : viewport) (filename : string)
  : js string :=
  try_catch
    (let fullUrl := ensureProtocol url in
     baseUrl <- SCREENSHOT_CONFIG_baseUrl ;;
     let requestBody :=
       mk_body fullUrl "networkidle2" vp
         "() => document.body && document.body.innerText.toLowerCase().includes('by uratmangun')"
         10000 in
     let apiUrl := template baseUrl ++ "/screenshot?token=dawdawdwa" in
     response <- fetch (mk_fetch apiUrl "POST"
                          [("Cache-Control", "no-cache");
                           ("Content-Type", "application/json")]
                          (Some requestBody)) ;;
     if negb (ok response) then
       throw (mk_error PlainError
                ("API request failed: " ++ of_Z (status response) ++ " "
                 ++ statusText response ++ newline ++ body response))
     else
       let contentType := content_type response in
       if negb (image_content_type contentType) then
         throw (mk_error PlainError
                  ("Expected image response, got "
                   ++ match contentType with Some ct => ct | None => "null" end
                   ++ newline ++ body response))
       else
         let imageBuffer := FromBytes (body response) in
         present <- existsSync_images ;;
         (if negb present then mkdirSync_images else ret tt) ;;
         writeFileSync_image filename imageBuffer ;;
         ret filename)
    (fun error =>
       console_error ["❌ Screenshot failed:"; message error] ;;
       throw error).

Definition generateFilename (type : string) (prefix : option string) : js string :=
  let prefix := match prefix with Some p => p | None => "screenshot" end in
  iso <- now_toISOString ;;
  let timestamp := replace_colon_dot iso in
  ret (prefix ++ "-" ++ type ++ "-" ++ timestamp ++ ".png").

Definition is_screenshot_file (file : string) : bool :=
  (startsWith file "screenshot-embed-" || startsWith file "screenshot-splash-")
  && endsWith file ".png".

Definition clearExistingScreenshots : js unit :=
  present <- existsSync_images ;;
  if negb present then ret tt
  else
    files <- readdirSync_images ;;
    let screenshotFiles := filter is_screenshot_file files in
    if Nat.ltb 0 (List.length screenshotFiles) then
      forEach screenshotFiles
        (fun file =>
           try_catch (unlinkSync_image file)
             (fun _ => console_warn ("   Failed to delete: " ++ file)))
    else ret tt.

Record screenshot_result := mk_result { filename : string }.

Definition generateSingleScreenshot (url : string) (vp : viewport) (type : string)
  : js screenshot_result :=
  try_catch
    (name <- generateFilename type (Some "screenshot") ;;
     takeScreenshot url vp name ;;
     ret (mk_result name))
    (fun error =>
       console_error ["❌ Failed to generate " ++ type ++ " screenshot:"; message error] ;;
       throw error).

(** The object [{ embed, splash }] the patcher receives. *)
Record screenshot_filenames := mk_filenames {
  embed : option string;
  splash : option string
}.

Definition updateFarcasterConfig (domain : option string)
           (screenshotFilenames : screenshot_filenames) : js unit :=
  try_catch
    (present <- existsSync_manifest ;;
     if negb present then
       console_warn "⚠️  Warning: farcaster.json file not found, skipping update"
     else
       configContent <- readFileSync_manifest ;;
       config <- JSON_parse configContent ;;
       let baseUrl := "https://" ++ template domain in
       miniapp <- member config "miniapp" ;;
       config <-
         (if truthy_opt miniapp then
            config <-
              (if nonempty (embed screenshotFilenames) then
                 assign_miniapp config "imageUrl"
                   (JStr (baseUrl ++ "/images/" ++ template (embed screenshotFilenames)))
               else ret config) ;;
            config <-
              (if nonempty (splash screenshotFilenames) then
                 assign_miniapp config "splashImageUrl"
                   (JStr (baseUrl ++ "/images/" ++ template (splash screenshotFilenames)))
               else ret config) ;;
            config <- assign_miniapp config "homeUrl" (JStr baseUrl) ;;
            assign_miniapp config "webhookUrl" (JStr (baseUrl ++ "/api/webhook"))
          else ret config) ;;
       writeFileSync_manifest (JSON_stringify config))
    (fun error =>
       console_error ["❌ Error updating farcaster.json:"; message error]).

Definition generateScreenshots : js unit :=
  try_catch
    (appDomain <- gets (fun w => env w "SCREENSHOT_URL") ;;
     (if negb (nonempty appDomain) then
        console_error ["❌ Error: SCREENSHOT_URL is not set."] ;;
        console_error ["   Please add your app domain to your .env file."] ;;
        console_error ["   Example: SCREENSHOT_URL=your-domain.ngrok.app"] ;;
        process_exit 1
      else ret tt) ;;
     baseUrl <- SCREENSHOT_CONFIG_baseUrl ;;
     (if negb (nonempty baseUrl) then
        console_error ["❌ Error: BROWSERLESS_API_URL is not set."] ;;
        console_error ["   Please add your browserless API URL to your .env file."] ;;
        process_exit 1
      else ret tt) ;;
     clearExistingScreenshots ;;
     embedResult <- generateSingleScreenshot (template appDomain)
                      SCREENSHOT_VIEWPORTS_embed "embed" ;;
     sleep GENERATION_DELAYS_betweenImages ;;
     splashResult <- generateSingleScreenshot (template appDomain)
                       SCREENSHOT_VIEWPORTS_splash "splash" ;;
     domain <- gets (fun w => env w "NEXT_PUBLIC_APP_DOMAIN") ;;
     updateFarcasterConfig domain
       (mk_filenames (Some (filename embedResult)) (Some (filename splashResult))))
    (fun error =>
       console_error [newline ++ "❌ Error generating screenshots:"] ;;
       console_error ["💥"; message error] ;;
       process_exit 1).

End Screenshots.

(** ** [scripts/generate-flux-icon.js] *)

Module FluxIcon.
Import JsString Json World Node.
#[local] Open Scope js_scope.

Definition newline : string := String (ascii_of_nat 10) EmptyString.

Definition FLUX_MODEL_id : string := "black-forest-labs/FLUX.1-schnell-Free".
Definition FLUX_MODEL_defaultSteps : Z := 4.

Definition ICON_DIMENSIONS : viewport := mk_viewport 208 208.

Definition generateFilename (type : string) (prefix : option string) : js string :=
  let prefix := match prefix with Some p => p | None => "flux" end in
  iso <- now_toISOString ;;
  let timestamp := replace_colon_dot iso in
  ret (prefix ++ "-" ++ type ++ "-" ++ timestamp ++ ".png").

Definition is_icon_file (file : string) : bool :=
  startsWith file "flux-icon-" && endsWith file ".png".

Definition clearExistingIcons : js unit :=
  present <- existsSync_images ;;
  if negb present then ret tt
  else
    files <- readdirSync_images ;;
    let iconFiles := filter is_icon_file files in
    forEach iconFiles
      (fun file =>
         try_catch (unlinkSync_image file)
           (fun _ => console_warn ("   Failed to delete: " ++ file))).

Record save_result := mk_saved { filename : string; filePath : string }.

Definition downloadAndSaveImage (base64Data : string) (name : string)
           (isBase64 : bool) : js save_result :=
  try_catch
    (buffer <-
       (if isBase64 then ret (FromBase64 base64Data)
        else
          response <- fetch (mk_fetch base64Data "GET" [] None) ;;
          if negb (ok response) then
            throw (mk_error PlainError
                     ("Failed to download image: " ++ of_Z (status response)
                      ++ " " ++ statusText response))
          else ret (FromBytes (body response))) ;;
     imagesDir <- gets (fun w => path_join w (cwd w) "public/images") ;;
     present <- existsSync_images ;;
     (if negb present then mkdirSync_images else ret tt) ;;
     filePath <- gets (fun w => path_join w imagesDir name) ;;
     writeFileSync_image name buffer ;;
     ret (mk_saved name filePath))
    (fun error =>
       console_error ["❌ Failed to save image: " ++ message error] ;;
       throw error).

(** [!response.data || response.data.length === 0] *)
Definition no_image_data (response : images_response) : bool :=
  match data response with
  | None => true
  | Some results => Nat.eqb (List.length results) 0
  end.

Definition generateIcon (together : Together) (prompt : string)
           (dimensions : option viewport) : js save_result :=
  let dimensions :=
    match dimensions with Some d => d | None => ICON_DIMENSIONS end in
  try_catch
    (seed <- gets random_million ;;
     response <- images_create together
                   (mk_images_request FLUX_MODEL_id prompt
                      (width dimensions) (height dimensions)
                      FLUX_MODEL_defaultSteps 1 seed "b64_json") ;;
     if no_image_data response then
       throw (mk_error PlainError "No image data received from API")
     else
       match data response with
       | Some (imageData :: _) =>
           if negb (nonempty (b64_json imageData)) then
             throw (mk_error PlainError "No base64 image data in response")
           else
             name <- generateFilename "icon" (Some "flux") ;;
             downloadAndSaveImage (template (b64_json imageData)) name true
       | _ =>
           throw (mk_error TypeError
                    "Cannot read properties of undefined (reading 'b64_json')")
       end)
    (fun error =>
       console_error ["❌ Failed to generate icon image:"; message error] ;;
       throw error).

Definition getAppNameFromConfig : js json :=
  try_catch
    (configContent <- readFileSync_manifest ;;
     config <- JSON_parse configContent ;;
     miniapp <- member config "miniapp" ;;
     name <- optional_member miniapp "name" ;;
     ret (match name with
          | Some v => if truthy v then v else JStr "Mini App"
          | None => JStr "Mini App"
          end))
    (fun _ =>
       console_warn "⚠️  Warning: Could not read app name from farcaster.json, using default" ;;
       ret (JStr "Mini App")).

(** The template literal of [generateIconPrompt] turns its argument
    into a string; the function is given here on that string, and its
    caller applies [ToString]. *)
Definition generateIconPrompt (appName : string) : string :=
  "Create a clean, minimalist app icon with the text '" ++ appName
  ++ "' in bold, modern typography. Square format, centered text, simple background, high contrast, professional design suitable for mobile app icon. Clean and readable at small sizes.".

(** [new URL(v).origin] *)
Definition new_URL_origin (v : json) : js string :=
  fun w =>
    match URL_origin w (ToString (Number_toString w) v) with
    | Some origin => (Returned origin, w)
    | None => (Thrown (mk_error TypeError "Invalid URL"), w)
    end.

Definition updateFarcasterConfigWithIcon (iconFilename : option string) : js unit :=
  try_catch
    (present <- existsSync_manifest ;;
     if negb present then
       console_warn "⚠️  Warning: farcaster.json file not found, skipping update"
     else
       configContent <- readFileSync_manifest ;;
       config <- JSON_parse configContent ;;
       miniapp <- member config "miniapp" ;;
       homeUrl <- optional_member miniapp "homeUrl" ;;
       domain <-
         (match homeUrl with
          | Some url =>
              if truthy url then new_URL_origin url
              else
                appDomain <- gets (fun w => env w "NEXT_PUBLIC_APP_DOMAIN") ;;
                ret ("https://" ++ template appDomain)
          | None =>
              appDomain <- gets (fun w => env w "NEXT_PUBLIC_APP_DOMAIN") ;;
              ret ("https://" ++ template appDomain)
          end) ;;
       config <-
         (if truthy_opt miniapp && nonempty iconFilename then
            assign_miniapp config "iconUrl"
              (JStr (domain ++ "/images/" ++ template iconFilename))
          else ret config) ;;
       writeFileSync_manifest (JSON_stringify config))
    (fun error =>
       console_error ["❌ Error updating farcaster.json:"; message error]).

Definition main : js unit :=
  try_catch
    (key <- gets (fun w => env w "TOGETHER_API_KEY") ;;
     (if negb (nonempty key) then
        console_error ["❌ Error: TOGETHER_API_KEY is not set."] ;;
        console_error ["   Please add your Together AI API key to your .env file."] ;;
        console_error ["   Get your API key from: https://api.together.xyz/settings/api-keys"] ;;
        process_exit 1
      else ret tt) ;;
     appName <- getAppNameFromConfig ;;
     customPrompt <- gets (fun w => nth_error (argv w) 2) ;;
     toString <- gets Number_toString ;;
     let prompt :=
       if nonempty customPrompt then template customPrompt
       else generateIconPrompt (ToString toString appName) in
     clearExistingIcons ;;
     let together := mk_together (template key) in
     iconResult <- generateIcon together prompt (Some ICON_DIMENSIONS) ;;
     updateFarcasterConfigWithIcon (Some (filename iconResult)))
    (fun error =>
       console_error [newline ++ "❌ Error generating icon:"] ;;
       console_error ["💥"; message error] ;;
       (if includes (message error) "429" || includes (message error) "rate limit"
        then console_error ["⏰ Rate Limit: Please wait before making another request"]
        else ret tt) ;;
       process_exit 1).

End FluxIcon.

(** * Vocabulary of the specification *)

Module Vocabulary.
Import JsString Json World Node.

(** ** Strings *)

Fixpoint canonical (s : string) : string :=
  match s with
  | EmptyString => EmptyString
  | String c s' => String (canonicalize c) (canonical s')
  end.

(** [u] begins with the text [p], in any letter case. *)
Definition begins_ci (u p : string) : Prop :=
  exists pre rest, u = pre ++ rest /\ canonical pre = canonical p.

(** [t] occurs in [s]. *)
Definition contains (s t : string) : Prop :=
  exists before after, s = before ++ t ++ after.

Definition matched (o : option string) : bool :=
  match o with Some _ => true | None => false end.

(** A code unit that only itself equals when case is ignored. *)
Definition caseless (c : ascii) : Prop :=
  forall d, canonicalize c = canonicalize d -> d = c.

Fixpoint all_caseless (p : string) : Prop :=
  match p with
  | EmptyString => True
  | String c p' => caseless c /\ all_caseless p'
  end.

(** [stamp] is [iso] with every colon and every dot replaced by a dash,
    and every other code unit kept. *)
Definition dashed (iso stamp : string) : Prop :=
  String.length stamp = String.length iso /\
  forall i c, String.get i iso = Some c ->
    String.get i stamp
    = Some (if Ascii.eqb c ":" || Ascii.eqb c "." then "-"%char else c).

(** The prefix a generator uses when it is given none. *)
Definition prefix_or (default : string) (prefix : option string) : string :=
  match prefix with
  | Some p => p
  | None => default
  end.

(** ** Stale assets *)

(** [name] is the name of an asset of a pipeline: it starts with the
    pipeline's [<prefix>-<type>-], for one of the pipeline's types, and
    it ends with [.png]. *)
Definition pipeline_asset (prefix : string) (types : list string) (name : string)
  : Prop :=
  (exists type rest, In type types /\ name = (prefix ++ "-" ++ type ++ "-") ++ rest)
  /\ (exists front, name = front ++ ".png").

(** [name] starts with the prefix of a pipeline, dash included, and ends
    with [.png]. *)
Definition prefixed_png (prefix : string) (name : string) : Prop :=
  (exists rest, name = (prefix ++ "-") ++ rest)
  /\ (exists front, name = front ++ ".png").

(** The operating system lets [name] be deleted. *)
Definition deletable (w : world) (name : string) : bool :=
  match unlink_fault (os w) name with
  | None => true
  | Some _ => false
  end.

Definition mem (name : string) (names : list string) : bool :=
  existsb (String.eqb name) names.

(** The loop both cleaners run over the names they selected. *)
Definition sweep (files : list string) : js unit :=
  forEach files
    (fun file =>
       try_catch (unlinkSync_image file)
         (fun _ => console_warn ("   Failed to delete: " ++ file))).

(** ** The manifest *)

(** The fields of [miniapp] the patchers write. *)
Definition patched_fields : list string :=
  ["imageUrl"; "splashImageUrl"; "iconUrl"; "homeUrl"; "webhookUrl"].

(** Two objects agree on every property but those named. *)
Definition agree_except (names : list string) (a b : list (string * json)) : Prop :=
  forall k, ~ In k names -> obj_get k b = obj_get k a.

(** What the assignments may have done to the value of [miniapp]: an
    object changed in the patched fields only; anything else left as
    it was. *)
Definition miniapp_frame (a b : option json) : Prop :=
  match a, b with
  | Some (JObj m), Some (JObj m') => agree_except patched_fields m m'
  | _, _ => a = b
  end.

(** What the assignments may have done to the document: it has the
    same top-level properties in the same order, all with the value
    they had but [miniapp], which is framed as above; a document that
    is not an object is left as it was. *)
Definition manifest_frame (j j' : json) : Prop :=
  match j, j' with
  | JObj fields, JObj fields' =>
      map fst fields' = map fst fields
      /\ agree_except ["miniapp"] fields fields'
      /\ miniapp_frame (obj_get "miniapp" fields) (obj_get "miniapp" fields')
  | _, _ => j = j'
  end.

(** A value that [JSON.stringify] writes so that it is read back as it
    was: it holds no number that is not finite and no negative zero. *)
Fixpoint plain (v : json) : bool :=
  match v with
  | JNum (S754_zero s) => negb s
  | JNum (S754_infinity _) => false
  | JNum S754_nan => false
  | JArr items => forallb plain items
  | JObj fields => forallb (fun kv => plain (snd kv)) fields
  | _ => true
  end.

(** Every property of [a] but those named is in [b] with the value that
    is read back from what [JSON.stringify] writes for it, and [b] has
    no property that [a] lacks but those named. *)
Definition kept_except (names : list string) (a b : list (string * json)) : Prop :=
  forall k, ~ In k names -> obj_get k b = option_map stringify_parse (obj_get k a).

(** The value of [miniapp] before, and in the file that was written: an
    object kept but for the patched fields; anything else written back
    as it was. *)
Definition miniapp_written (a b : option json) : Prop :=
  match a, b with
  | Some (JObj m), Some (JObj m') => kept_except patched_fields m m'
  | _, _ => b = option_map stringify_parse a
  end.

(** The document before, and the document of the file that was written:
    the same top-level properties in the same order, all written back
    as they were but [miniapp]; a document that is not an object is
    written back as it was. *)
Definition manifest_written (j j' : json) : Prop :=
  match j, j' with
  | JObj fields, JObj fields' =>
      map fst fields' = map fst fields
      /\ kept_except ["miniapp"] fields fields'
      /\ miniapp_written (obj_get "miniapp" fields) (obj_get "miniapp" fields')
  | _, _ => j' = stringify_parse j
  end.

(** What a patcher may do to the file system: nothing in [public/images];
    the manifest file stays as it is, or it held a document and holds
    that document written back within the frame above. *)
Definition patch_frame (before after : filesystem) : Prop :=
  images after = images before
  /\ (manifest after = manifest before
      \/ exists j j',
           manifest before = Some (Document j)
           /\ manifest after = Some (Document j')
           /\ manifest_written j j').

(** The value of [miniapp.k] in the manifest file, when the file holds a
    document that is an object whose [miniapp] is an object. *)
Definition miniapp_field (text : option manifest_text) (k : string) : option json :=
  match text with
  | Some (Document (JObj fields)) =>
      match obj_get "miniapp" fields with
      | Some (JObj m) => obj_get k m
      | _ => None
      end
  | _ => None
  end.

(** The patches as functions on the object held by [miniapp]. *)
Definition set_if (b : bool) (k : string) (v : json) (m : list (string * json))
  : list (string * json) :=
  if b then obj_set k v m else m.

Definition screenshot_patch (baseUrl : string) (embed splash : option string)
           (m : list (string * json)) : list (string * json) :=
  obj_set "webhookUrl" (JStr (baseUrl ++ "/api/webhook"))
    (obj_set "homeUrl" (JStr baseUrl)
       (set_if (nonempty splash) "splashImageUrl"
          (JStr (baseUrl ++ "/images/" ++ template splash))
          (set_if (nonempty embed) "imageUrl"
             (JStr (baseUrl ++ "/images/" ++ template embed)) m))).

Definition icon_patch (domain : string) (icon : option string)
           (m : list (string * json)) : list (string * json) :=
  set_if (nonempty icon) "iconUrl"
    (JStr (domain ++ "/images/" ++ template icon)) m.

(** The address the icon script takes for the site: the origin of
    [miniapp.homeUrl] when that field holds a truthy value, and
    otherwise [https://] followed by the domain of the environment.
    [None]: [miniapp.homeUrl] is truthy and is not an address. *)
Definition resolved_domain (w : world) (m : list (string * json)) : option string :=
  match obj_get "homeUrl" m with
  | Some url =>
      if truthy url then URL_origin w (ToString (Number_toString w) url)
      else Some ("https://" ++ template (env w "NEXT_PUBLIC_APP_DOMAIN"))
  | None => Some ("https://" ++ template (env w "NEXT_PUBLIC_APP_DOMAIN"))
  end.

(** The manifest file was written from the document [fields] with
    [miniapp] changed to the object [m']. *)
Definition with_miniapp (w : world) (fields m' : list (string * json)) : world :=
  with_fs w
    (mk_fs (images (fs w))
       (Some (JSON_stringify (JObj (obj_set "miniapp" (JObj m') fields))))).

(** ** Computations *)

(** A computation that never ends the process. *)
Definition never_exits {A} (m : js A) : Prop :=
  forall w c w', m w <> (Exited c, w').

(** A computation that always returns. *)
Definition always_returns {A} (m : js A) : Prop :=
  forall w, exists a w', m w = (Returned a, w').

(** A computation whose every run relates the world before to the world
    after by [R]. *)
Definition respects (R : world -> world -> Prop) {A} (m : js A) : Prop :=
  forall w, R w (snd (m w)).

(** The trace only grows. *)
Definition trace_grows (w w' : world) : Prop :=
  exists t, trace w' = (trace w ++ t)%list.

(** The trace grows by warnings only. *)
Definition warns_only (w w' : world) : Prop :=
  exists lines, trace w' = (trace w ++ map ConsoleWarn lines)%list.

(** A relation between the world before and the world after that holds
    when nothing happened, composes, and does not look at the file
    system or at the count of dates. *)
Class Stable (R : world -> world -> Prop) : Prop := {
  stable_refl : forall w, R w w;
  stable_trans : forall a b c, R a b -> R b c -> R a c;
  stable_fs : forall w f, R w (with_fs w f);
  stable_dates : forall w n, R w (with_dates w n)
}.

(** The run of [m] in [w] starts by the event [e], and what follows
    only adds to the trace. *)
Definition sends {A} (e : event) (m : js A) (w : world) : Prop :=
  exists rest : js A,
    respects trace_grows rest
    /\ m w = rest (with_trace w (trace w ++ [e])%list).

(** A computation on the document that leaves the world alone and
    either throws or returns a document framed from [j]. *)
Definition framed_step (j : json) (m : js json) : Prop :=
  forall w,
    match m w with
    | (Returned c, w') => w' = w /\ manifest_frame j c
    | (Thrown _, w') => w' = w
    | (Exited _, _) => False
    end.

(** ** The name of the app *)

(** The name the icon script takes for the app: the value of
    [miniapp.name] in the manifest when the manifest is read and the
    value is truthy, and the placeholder otherwise. *)
Definition app_name (w : world) : json :=
  match read_manifest_fault (os w) with
  | Some _ => JStr "Mini App"
  | None =>
      match miniapp_field (manifest (fs w)) "name" with
      | Some v => if truthy v then v else JStr "Mini App"
      | None => JStr "Mini App"
      end
  end.

(** ** The icon generator *)

(** The request [generateIcon] sends. *)
Definition icon_request (w : world) (prompt : string) (dimensions : option viewport)
  : images_request :=
  let d := match dimensions with Some d => d | None => FluxIcon.ICON_DIMENSIONS end in
  mk_images_request FluxIcon.FLUX_MODEL_id prompt (width d) (height d)
    FluxIcon.FLUX_MODEL_defaultSteps 1 (random_million w) "b64_json".

(** The response has no result list, or an empty one. *)
Definition lacks_results (r : images_response) : Prop :=
  data r = None \/ data r = Some [].

(** The first result of the response has no base64 text, or an empty
    one. *)
Definition lacks_base64 (r : images_response) : Prop :=
  exists d rest,
    data r = Some (d :: rest) /\ (b64_json d = None \/ b64_json d = Some "").

(** The name the icon gets in the world [w]. *)
Definition icon_name (w : world) : string :=
  "flux-icon-" ++ replace_colon_dot (clock w (dates w)) ++ ".png".

(** The path of the file [name] of [public/images]:
    [join(join(process.cwd(), 'public/images'), name)]. *)
Definition image_path (w : world) (name : string) : string :=
  path_join w (path_join w (cwd w) "public/images") name.

(** Saving [name] fails: the directory is missing and cannot be made, or
    the file cannot be written. *)
Definition save_fails (w : world) (name : string) : Prop :=
  (images (fs w) = None /\ mkdir_fault (os w) <> None)
  \/ write_image_fault (os w) name <> None.

(** The run ended with a thrown error. *)
Definition raises {A} (r : outcome A * world) : Prop :=
  exists e, fst r = Thrown e.

(** What [generateIcon] does, case by case. *)
Inductive icon_run (w : world) (together : Together) (prompt : string)
          (dimensions : option viewport)
  : outcome FluxIcon.save_result * world -> Prop :=
| run_rejected e w' :
    images_api w together (icon_request w prompt dimensions) = ImagesRejected e ->
    fs w' = fs w ->
    icon_run w together prompt dimensions (Thrown e, w')
| run_no_results r e w' :
    images_api w together (icon_request w prompt dimensions) = ImagesResolved r ->
    lacks_results r ->
    fs w' = fs w ->
    icon_run w together prompt dimensions (Thrown e, w')
| run_no_base64 r e w' :
    images_api w together (icon_request w prompt dimensions) = ImagesResolved r ->
    lacks_base64 r ->
    fs w' = fs w ->
    icon_run w together prompt dimensions (Thrown e, w')
| run_save_failed r e w' :
    images_api w together (icon_request w prompt dimensions) = ImagesResolved r ->
    ~ lacks_results r -> ~ lacks_base64 r ->
    save_fails w (icon_name w) ->
    icon_run w together prompt dimensions (Thrown e, w')
| run_saved r w' :
    images_api w together (icon_request w prompt dimensions) = ImagesResolved r ->
    ~ lacks_results r -> ~ lacks_base64 r ->
    ~ save_fails w (icon_name w) ->
    icon_run w together prompt dimensions
      (Returned (FluxIcon.mk_saved (icon_name w) (image_path w (icon_name w))), w').

(** ** Traces *)

(** The requests a run sent to the two services. *)
Definition is_request (e : event) : bool :=
  match e with
  | Fetched _ => true
  | ImagesCreated _ _ => true
  | _ => false
  end.

Definition requests (t : list event) : list event := filter is_request t.

(** Everything of the world that a run reads and never changes. *)
Definition same_setting (w w' : world) : Prop :=
  env w' = env w /\ argv w' = argv w /\ os w' = os w
  /\ Number_toString w' = Number_toString w /\ URL_origin w' = URL_origin w
  /\ clock w' = clock w /\ random_million w' = random_million w
  /\ network w' = network w /\ images_api w' = images_api w
  /\ cwd w' = cwd w /\ path_join w' = path_join w.

End Vocabulary.

(** ** A world to run the scripts in *)

Module Sample.
Import JsString Json World.

Definition no_faults : faults :=
  mk_faults None (fun _ => None) None (fun _ => None) None None.

(** Origins of the few addresses the sample uses. *)
Definition origin (s : string) : option string :=
  if startsWith s "https://old.example" then Some "https://old.example"
  else None.

Definition miniapp_object : list (string * json) :=
  [("version", JStr "1"); ("name", JStr "Foo");
   ("homeUrl", JStr "https://old.example/app");
   ("tags", JArr [JStr "a"; JNull])].

Definition document_fields : list (string * json) :=
  [("accountAssociation", JObj [("header", JStr "h")]);
   ("miniapp", JObj miniapp_object)].

Definition document : json := JObj document_fields.

Definition directory : list (string * buffer) :=
  [("screenshot-embed-A.png", FromBytes "a");
   ("unrelated.png", FromBytes "b");
   ("flux-icon-1.png", FromBytes "c")].

Definition variables (k : string) : option string :=
  if String.eqb k "SCREENSHOT_URL" then Some "app.example"
  else if String.eqb k "BROWSERLESS_API_URL" then Some "https://chrome.example"
  else if String.eqb k "NEXT_PUBLIC_APP_DOMAIN" then Some "app.example"
  else if String.eqb k "TOGETHER_API_KEY" then Some "key"
  else None.

Definition instants (n : nat) : string :=
  if Nat.eqb n 0 then "2024-01-02T03:04:05.678Z" else "2024-01-02T03:04:08.000Z".

(** [join] of [path] on the two arguments the sample gives it. *)
Definition join (a b : string) : string := a ++ "/" ++ b.

Definition run_in (variables : string -> option string) (f : filesystem)
           (api : images_outcome) : world :=
  mk_world variables ["node"; "script"] f no_faults (fun _ => "0") origin
    instants 0 42
    (fun _ => FetchResolved (mk_response true 200 "OK" (Some "image/png") "PNG"))
    (fun _ _ => api)
    "/app" join
    [].

(** The directory of the example of the specification. *)
Definition two_files : list (string * buffer) :=
  [("screenshot-embed-A.png", FromBytes "a"); ("unrelated.png", FromBytes "b")].

Definition one_image : images_outcome :=
  ImagesResolved (mk_images_response (Some [mk_datum (Some "QUJD")])).

Definition world0 : world :=
  run_in variables (mk_fs (Some directory) (Some (Document document))) one_image.

(** A manifest of the older layout, with [frame] where [miniapp] is
    today. *)
Definition frame_document : json :=
  JObj [("accountAssociation", JObj [("header", JStr "h")]);
        ("frame", JObj [("version", JStr "1"); ("name", JStr "Foo")])].

Definition world_frame : world :=
  run_in variables (mk_fs (Some directory) (Some (Document frame_document))) one_image.

(** A manifest whose [homeUrl] is there and empty, as a template leaves
    it. *)
Definition blank_miniapp : list (string * json) :=
  [("version", JStr "1"); ("name", JStr "Foo"); ("homeUrl", JStr "")].

Definition blank_fields : list (string * json) :=
  [("accountAssociation", JObj [("header", JStr "h")]);
   ("miniapp", JObj blank_miniapp)].

Definition world_blank : world :=
  run_in variables (mk_fs (Some directory) (Some (Document (JObj blank_fields))))
    one_image.

(** The image service refuses the request. *)
Definition rate_limited : images_outcome :=
  ImagesRejected (mk_error PlainError "429 Too Many Requests").

Definition world_rate_limited : world :=
  run_in variables (mk_fs (Some directory) (Some (Document document))) rate_limited.

(** A directory with files of the pipelines' prefixes and other types. *)
Definition other_types : list (string * buffer) :=
  [("screenshot-embed-A.png", FromBytes "a");
   ("screenshot-other-A.png", FromBytes "b");
   ("flux-icon-A.png", FromBytes "c");
   ("flux-banner-A.png", FromBytes "d")].

Definition world_other_types : world :=
  run_in variables (mk_fs (Some other_types) (Some (Document document))) one_image.

(** A manifest with a number beyond the range of the doubles, which
    [JSON.parse] reads as [Infinity], in a field no patcher writes. *)
Definition huge_fields : list (string * json) :=
  [("limit", JNum (S754_infinity false)); ("miniapp", JObj miniapp_object)].

Definition world_huge : world :=
  run_in variables (mk_fs (Some directory) (Some (Document (JObj huge_fields))))
    one_image.

Definition world_two_files : world :=
  run_in variables (mk_fs (Some two_files) (Some (Document document))) one_image.

End Sample.

(** * Vocabulary of the behaviour of the scripts *)

From Stdlib Require Import RelationClasses.

Module Behaviour.
Import JsString Json World Node Vocabulary.

(** The file [name] of [public/images], when there is one. *)
Definition file_at (f : filesystem) (name : string) : option buffer :=
  match images f with
  | Some entries =>
      option_map snd (find (fun e => String.eqb (fst e) name) entries)
  | None => None
  end.

(** The world after the events [events]. *)
Definition logged (w : world) (events : list event) : world :=
  with_trace w (trace w ++ events)%list.

(** The world with [public/images] holding [entries]. *)
Definition with_images (w : world) (entries : list (string * buffer)) : world :=
  with_fs w (mk_fs (Some entries) (manifest (fs w))).

(** A computation that ends the process with code 1 only. *)
Definition exits_only_1 {A} (m : js A) : Prop :=
  forall w c w', m w = (Exited c, w') -> c = 1%Z.

(** A run that returned, or ended the process with code 1. *)
Definition returned_or_exited_1 {A} (r : outcome A * world) : Prop :=
  (exists a, fst r = Returned a) \/ fst r = Exited 1.

(** No request was sent between [w] and [w']. *)
Definition quiet (w w' : world) : Prop :=
  requests (trace w') = requests (trace w).

(** The request [takeScreenshot] sends. *)
Definition screenshot_request (w : world) (url : string) (vp : viewport)
  : fetch_request :=
  mk_fetch (template (env w "BROWSERLESS_API_URL") ++ "/screenshot?token=dawdawdwa")
    "POST"
    [("Cache-Control", "no-cache"); ("Content-Type", "application/json")]
    (Some (mk_body (Screenshots.ensureProtocol url) "networkidle2" vp
             "() => document.body && document.body.innerText.toLowerCase().includes('by uratmangun')"
             10000)).

(** The object held by [miniapp] in the manifest file, when the file
    holds a document that is an object whose [miniapp] is an object. *)
Definition miniapp_object (text : option manifest_text)
  : option (list (string * json)) :=
  match text with
  | Some (Document (JObj fields)) =>
      match obj_get "miniapp" fields with
      | Some (JObj m) => Some m
      | _ => None
      end
  | _ => None
  end.

(** A computation on the document that leaves the world alone and
    either throws or returns a document whose [miniapp] fields are those
    of [j] but for the fields [names]. *)
Definition keeps_fields (names : list string) (j : json) (m : js json) : Prop :=
  forall w,
    match m w with
    | (Returned c, w') =>
        w' = w
        /\ forall k, ~ In k names ->
             miniapp_field (Some (Document c)) k = miniapp_field (Some (Document j)) k
    | (Thrown _, w') => w' = w
    | (Exited _, _) => False
    end.

(** The listing of [public/images], empty when the directory is
    missing. *)
Definition listing (w : world) : list (string * buffer) :=
  match images (fs w) with
  | Some entries => entries
  | None => []
  end.

(** From [w] to [w']: the setting is kept, the file system became [f],
    [d] dates were taken in all, and the events [events] happened. *)
Definition step (w w' : world) (f : filesystem) (d : nat) (events : list event)
  : Prop :=
  same_setting w w'
  /\ fs w' = f
  /\ dates w' = d
  /\ trace w' = (trace w ++ events)%list.

(** The line [takeScreenshot] prints for the error [e]. *)
Definition screenshot_failed_line (e : js_error) : string :=
  String.concat " " ["❌ Screenshot failed:"; message e].

(** The errors [takeScreenshot] raises on an answer that is not a
    success, and on an answer that is not an image. *)
Definition request_failed (r : http_response) : js_error :=
  mk_error PlainError
    ("API request failed: " ++ of_Z (status r) ++ " " ++ statusText r
     ++ Screenshots.newline ++ body r).

Definition not_an_image (r : http_response) : js_error :=
  mk_error PlainError
    ("Expected image response, got "
     ++ match content_type r with Some ct => ct | None => "null" end
     ++ Screenshots.newline ++ body r).

(** The directory can receive the file [name]: it is there or can be
    made, and the file can be written. *)
Definition can_save (w : world) (name : string) : Prop :=
  (images (fs w) = None -> mkdir_fault (os w) = None)
  /\ write_image_fault (os w) name = None.

(** The document [c] has the [miniapp] fields of [j] but for the fields
    [names]. *)
Definition same_but (names : list string) (j c : json) : Prop :=
  forall k, ~ In k names ->
    miniapp_field (Some (Document c)) k = miniapp_field (Some (Document j)) k.

(** A computation on the document that leaves the world alone and
    either throws or returns the document [j] itself. *)
Definition fixed_step (j : json) (m : js json) : Prop :=
  forall w,
    match m w with
    | (Returned c, w') => w' = w /\ c = j
    | (Thrown _, w') => w' = w
    | (Exited _, _) => False
    end.

(** The fields of [miniapp] the screenshot script writes. *)
Definition screenshot_fields : list string :=
  ["imageUrl"; "splashImageUrl"; "homeUrl"; "webhookUrl"].

(** Relations between the world before and the world after. *)
Definition same_dates (w w' : world) : Prop := dates w' = dates w.

Definition images_kept (w w' : world) : Prop := images (fs w') = images (fs w).

Definition manifest_kept (w w' : world) : Prop :=
  manifest (fs w') = manifest (fs w).

(** A computation that leaves the manifest file as it was unless it
    returns. *)
Definition patches_on_return {A} (m : js A) : Prop :=
  forall w,
    match m w with
    | (Returned _, _) => True
    | (_, w') => manifest_kept w w'
    end.

(** An answer of the screenshot service that [takeScreenshot] does not
    take: the request was rejected, or the answer is not a success, or
    it is not an image. *)
Definition bad_answer (a : fetch_outcome) : Prop :=
  match a with
  | FetchRejected _ => True
  | FetchResolved r =>
      ok r = false \/ Screenshots.image_content_type (content_type r) = false
  end.

(** An answer that [takeScreenshot] saves. *)
Definition image_answer (a : fetch_outcome) (r : http_response) : Prop :=
  a = FetchResolved r
  /\ ok r = true
  /\ Screenshots.image_content_type (content_type r) = true.

(** The name [generateSingleScreenshot] gives the file when the date it
    takes is the [n]-th. *)
Definition screenshot_name (w : world) (type : string) (n : nat) : string :=
  "screenshot" ++ "-" ++ type ++ "-" ++ replace_colon_dot (clock w n) ++ ".png".

(** The events of a trace that are no console lines. *)
Definition is_action (e : event) : bool :=
  match e with
  | ConsoleWarn _ => false
  | ConsoleError _ => false
  | _ => true
  end.

Definition actions (t : list event) : list event := filter is_action t.

(** Nothing but console lines between [w] and [w']. *)
Definition same_actions (w w' : world) : Prop :=
  actions (trace w') = actions (trace w).

(** What [clearExistingScreenshots] leaves of a listing. *)
Definition cleared (w : world) (entries : list (string * buffer))
  : list (string * buffer) :=
  filter (fun e => negb (Screenshots.is_screenshot_file (fst e)
                         && deletable w (fst e))) entries.

(** The directory can be listed when it is there. *)
Definition can_list (w : world) : Prop :=
  images (fs w) <> None -> readdir_fault (os w) = None.

(** The lines [generateSingleScreenshot] and [generateScreenshots] print
    for the error [e] of the screenshot of type [type]. *)
Definition failure_lines (type : string) (e : js_error) : list event :=
  [ConsoleError (screenshot_failed_line e);
   ConsoleError ("❌ Failed to generate " ++ type ++ " screenshot:" ++ " " ++ message e)].

Definition fatal_lines (e : js_error) : list event :=
  [ConsoleError (Screenshots.newline ++ "❌ Error generating screenshots:");
   ConsoleError ("💥" ++ " " ++ message e)].

End Behaviour.

(** ** Worlds to run the scripts in *)

Module Scene.
Import JsString Json World.

(** A world like [Sample.run_in], with its faults and its network given. *)
Definition run_with (variables : string -> option string) (f : filesystem)
           (refusals : faults) (net : fetch_request -> fetch_outcome)
           (api : images_outcome) : world :=
  mk_world variables ["node"; "script"] f refusals (fun _ => "0") Sample.origin
    Sample.instants 0 42 net (fun _ _ => api) "/app" Sample.join [].

Definition png : http_response :=
  mk_response true 200 "OK" (Some "image/png") "PNG".

Definition not_found : http_response :=
  mk_response false 404 "Not Found" (Some "text/html") "no such page".

Definition html : http_response :=
  mk_response true 200 "OK" (Some "text/html") "<html></html>".

Definition files : filesystem :=
  mk_fs (Some Sample.directory) (Some (Document Sample.document)).

(** The service answers every request with [r]. *)
Definition answering (r : http_response) : world :=
  run_with Sample.variables files Sample.no_faults (fun _ => FetchResolved r)
    Sample.one_image.

(** The service answers the first viewport with an image and nothing
    else. *)
Definition embed_only (req : fetch_request) : fetch_outcome :=
  match fetch_body req with
  | Some b =>
      if Z.eqb (width (body_viewport b)) 768 then FetchResolved png
      else FetchResolved not_found
  | None => FetchResolved not_found
  end.

Definition world_embed_only : world :=
  run_with Sample.variables files Sample.no_faults embed_only Sample.one_image.

(** No directory yet. *)
Definition world_fresh : world :=
  run_with Sample.variables (mk_fs None (Some (Document Sample.document)))
    Sample.no_faults (fun _ => FetchResolved png) Sample.one_image.

(** The manifest holds a list for [miniapp]. *)
Definition world_list_miniapp : world :=
  run_with Sample.variables
    (mk_fs (Some Sample.directory)
       (Some (Document (Json.JObj [("miniapp", Json.JArr [Json.JStr "x"])]))))
    Sample.no_faults (fun _ => FetchResolved png) Sample.one_image.

(** The manifest file holds no JSON. *)
Definition world_no_json : world :=
  run_with Sample.variables
    (mk_fs (Some Sample.directory) (Some (Malformed "Unexpected end of JSON input")))
    Sample.no_faults (fun _ => FetchResolved png) Sample.one_image.

(** [miniapp.homeUrl] is no address. *)
Definition world_bad_homeUrl : world :=
  run_with Sample.variables
    (mk_fs (Some Sample.directory)
       (Some (Document
                (Json.JObj
                   [("miniapp", Json.JObj [("homeUrl", Json.JStr "not an address")])]))))
    Sample.no_faults (fun _ => FetchResolved png) Sample.one_image.

End Scene.

(** * Properties *)

(** ** Computations *)

Module Run.
Import World.

Lemma bind_returned {A B} (m : js A) (k : A -> js B) w a w1 :
  m w = (Returned a, w1) -> bind m k w = k a w1.
Proof. unfold bind. now intros ->. Qed.

Lemma bind_thrown {A B} (m : js A) (k : A -> js B) w e w1 :
  m w = (Thrown e, w1) -> bind m k w = (Thrown e, w1).
Proof. unfold bind. now intros ->. Qed.

Lemma bind_exited {A B} (m : js A) (k : A -> js B) w c w1 :
  m w = (Exited c, w1) -> bind m k w = (Exited c, w1).
Proof. unfold bind. now intros ->. Qed.

Lemma try_catch_returned {A} (body : js A) handler w a w1 :
  body w = (Returned a, w1) -> try_catch body handler w = (Returned a, w1).
Proof. unfold try_catch. now intros ->. Qed.

Lemma try_catch_thrown {A} (body : js A) handler w e w1 :
  body w = (Thrown e, w1) -> try_catch body handler w = handler e w1.
Proof. unfold try_catch. now intros ->. Qed.

Lemma try_catch_exited {A} (body : js A) handler w c w1 :
  body w = (Exited c, w1) -> try_catch body handler w = (Exited c, w1).
Proof. unfold try_catch. now intros ->. Qed.

End Run.

(** ** Strings *)

Module StringFacts.
Import JsString Vocabulary.

Lemma canonical_length s : String.length (canonical s) = String.length s.
Proof. induction s; simpl; congruence. Qed.

Lemma strip_ci_sound p : forall u rest,
  strip_ci u p = Some rest ->
  exists pre, u = pre ++ rest /\ canonical pre = canonical p.
Proof.
  induction p as [|c p IH]; intros u rest H.
  - exists EmptyString. destruct u; inversion H; auto.
  - destruct u as [|d u]; cbn [strip_ci] in H; [discriminate|].
    destruct (Ascii.eqb (canonicalize c) (canonicalize d)) eqn:E; [|discriminate].
    apply Ascii.eqb_eq in E.
    destruct (IH _ _ H) as (pre & -> & Hc).
    exists (String d pre). simpl. split; [reflexivity|]. congruence.
Qed.

Lemma strip_ci_complete p : forall pre rest,
  canonical pre = canonical p -> strip_ci (pre ++ rest) p = Some rest.
Proof.
  induction p as [|c p IH]; intros pre rest H.
  - destruct pre; [|discriminate]. simpl. destruct rest; reflexivity.
  - destruct pre as [|d pre]; [discriminate|].
    cbn [canonical] in H. injection H as Hd Hp.
    cbn [append strip_ci]. rewrite <- Hd, Ascii.eqb_refl. auto.
Qed.

Lemma strip_ci_begins u p :
  (exists rest, strip_ci u p = Some rest) <-> begins_ci u p.
Proof.
  split.
  - intros [rest H]. destruct (strip_ci_sound _ _ H) as (pre & ? & ?).
    exists pre, rest. auto.
  - intros (pre & rest & -> & H). exists rest. now apply strip_ci_complete.
Qed.

Lemma strip_ci_app p q : forall u,
  strip_ci u (p ++ q) =
  match strip_ci u p with
  | Some r => strip_ci r q
  | None => None
  end.
Proof.
  induction p as [|c p IH]; intros u.
  - destruct u; reflexivity.
  - destruct u as [|d u]; cbn [append strip_ci]; [reflexivity|].
    destruct (Ascii.eqb (canonicalize c) (canonicalize d)); auto.
Qed.

Lemma startsWith_app s p : startsWith (p ++ s) p = true.
Proof. induction p; simpl; [reflexivity|]. now rewrite Ascii.eqb_refl. Qed.

Lemma startsWith_split p : forall s,
  startsWith s p = true -> exists rest, s = p ++ rest.
Proof.
  induction p as [|c p IH]; intros s H; simpl in H.
  - exists s. reflexivity.
  - destruct s as [|d s]; [discriminate|].
    apply andb_true_iff in H as [E H]. apply Ascii.eqb_eq in E. subst d.
    destruct (IH _ H) as [rest ->]. now exists rest.
Qed.

Lemma caseless_colon : caseless ":".
Proof.
  intros d. destruct d as [[] [] [] [] [] [] [] []]; vm_compute; intros H;
    first [reflexivity | discriminate H].
Qed.

Lemma caseless_slash : caseless "/".
Proof.
  intros d. destruct d as [[] [] [] [] [] [] [] []]; vm_compute; intros H;
    first [reflexivity | discriminate H].
Qed.

(** The separator [://] holds no letter: matching it ignoring case is
    matching it. *)
Lemma separator_caseless : all_caseless "://".
Proof. repeat split; auto using caseless_colon, caseless_slash. Qed.

Lemma strip_ci_caseless p :
  all_caseless p -> forall s, startsWith s p = matched (strip_ci s p).
Proof.
  induction p as [|c p IH]; intros Hp s; [reflexivity|].
  destruct Hp as [Hc Hp].
  destruct s as [|d s]; cbn [startsWith strip_ci]; [reflexivity|].
  destruct (Ascii.eqb (canonicalize c) (canonicalize d)) eqn:E.
  - apply Ascii.eqb_eq, Hc in E. subst d. rewrite Ascii.eqb_refl.
    apply (IH Hp).
  - destruct (Ascii.eqb c d) eqn:E2; [|reflexivity].
    apply Ascii.eqb_eq in E2. subst d.
    rewrite Ascii.eqb_refl in E. discriminate E.
Qed.

End StringFacts.

(** ** [ensureProtocol] *)

Module EnsureProtocol.
Import JsString Vocabulary StringFacts Screenshots.

(** The regular expression accepts exactly the strings that begin
    with [http://] or with [https://], ignoring case. *)
Lemma protocol_test_strip u :
  protocol_test u = matched (strip_ci u "http://") || matched (strip_ci u "https://").
Proof.
  unfold protocol_test.
  change "http://" with ("http" ++ "://").
  change "https://" with ("http" ++ "s" ++ "://").
  rewrite !strip_ci_app.
  destruct (strip_ci u "http") as [rest|]; [|reflexivity].
  rewrite strip_ci_app.
  rewrite (strip_ci_caseless _ separator_caseless rest).
  destruct (strip_ci rest "s") as [rest'|] eqn:Es.
  - rewrite (strip_ci_caseless _ separator_caseless rest'). apply orb_comm.
  - now rewrite orb_false_r.
Qed.

Lemma protocol_test_begins u :
  protocol_test u = true <-> begins_ci u "http://" \/ begins_ci u "https://".
Proof.
  rewrite protocol_test_strip, orb_true_iff, <- !strip_ci_begins.
  unfold matched. split.
  - intros [H|H]; [left|right];
      match type of H with context [strip_ci ?a ?b] =>
        destruct (strip_ci a b) as [r|]; [now exists r|discriminate] end.
  - intros [[r H]|[r H]]; rewrite H; auto.
Qed.

Lemma protocol_test_prefixed u : protocol_test ("https://" ++ u) = true.
Proof.
  apply protocol_test_begins. right. exists "https://", u. auto.
Qed.

End EnsureProtocol.

(** C10.  [ensureProtocol u] is [u] itself when [u] begins with
    [http://] or [https://] in any letter case, so that [HTTP://...] is
    left as it is, and is [https://] followed by [u] otherwise; applying
    it twice is applying it once. *)
Theorem ensureProtocol_cases_and_idempotent (u : string) :
  ((Vocabulary.begins_ci u "http://" \/ Vocabulary.begins_ci u "https://")
   /\ Screenshots.ensureProtocol u = u
   \/
   ~ (Vocabulary.begins_ci u "http://" \/ Vocabulary.begins_ci u "https://")
   /\ Screenshots.ensureProtocol u = "https://" ++ u)
  /\ Screenshots.ensureProtocol ("HTTP://" ++ u) = "HTTP://" ++ u
  /\ Screenshots.ensureProtocol (Screenshots.ensureProtocol u)
     = Screenshots.ensureProtocol u.
Proof.
  pose proof (EnsureProtocol.protocol_test_begins u) as Hb.
  unfold Screenshots.ensureProtocol.
  split; [|split].
  - destruct (Screenshots.protocol_test u) eqn:E; cbn [negb].
    + left. split; [now apply Hb | reflexivity].
    + right. split; [|reflexivity].
      intros H. apply Hb in H. discriminate.
  - assert (Screenshots.protocol_test ("HTTP://" ++ u) = true) as ->; [|reflexivity].
    apply EnsureProtocol.protocol_test_begins. left.
    exists "HTTP://", u. split; reflexivity.
  - destruct (Screenshots.protocol_test u) eqn:E; cbn [negb].
    + now rewrite E.
    + now rewrite EnsureProtocol.protocol_test_prefixed.
Qed.

(** ** [generateFilename] *)

Module Filename.
Import JsString Vocabulary StringFacts World Node.

Lemma replace_colon_dot_dashed iso : dashed iso (replace_colon_dot iso).
Proof.
  split.
  - induction iso; simpl; congruence.
  - induction iso as [|a iso IH]; intros i c H; [discriminate|].
    destruct i as [|i]; simpl in *.
    + injection H as ->. reflexivity.
    + now apply IH.
Qed.

Lemma substring_skip s : forall p,
  substring (String.length s) (String.length p) (s ++ p) = p.
Proof.
  induction s as [|a s IH]; intros p; simpl.
  - induction p as [|b p IHp]; simpl; [reflexivity|]. now rewrite IHp.
  - apply IH.
Qed.

Lemma length_append (s t : string) :
  String.length (s ++ t) = String.length s + String.length t.
Proof. induction s; simpl; congruence. Qed.

Lemma endsWith_app s p : endsWith (s ++ p) p = true.
Proof.
  unfold endsWith. rewrite length_append.
  replace (String.length s + String.length p - String.length p)
    with (String.length s) by lia.
  rewrite substring_skip, String.eqb_refl, andb_true_r.
  apply Nat.leb_le. lia.
Qed.

Lemma append_assoc (a b c : string) : (a ++ b) ++ c = a ++ b ++ c.
Proof. induction a; simpl; congruence. Qed.

(** A name built as the generators build it has the two marks the
    cleaners look for. *)
Lemma built_name_marks prefix type stamp :
  let name := prefix ++ "-" ++ type ++ "-" ++ stamp ++ ".png" in
  startsWith name (prefix ++ "-" ++ type ++ "-") = true
  /\ endsWith name ".png" = true.
Proof.
  cbv zeta. split.
  - replace (prefix ++ "-" ++ type ++ "-" ++ stamp ++ ".png")
      with ((prefix ++ "-" ++ type ++ "-") ++ stamp ++ ".png")
      by (now rewrite !append_assoc).
    apply startsWith_app.
  - replace (prefix ++ "-" ++ type ++ "-" ++ stamp ++ ".png")
      with ((prefix ++ "-" ++ type ++ "-" ++ stamp) ++ ".png")
      by (now rewrite !append_assoc).
    apply endsWith_app.
Qed.

End Filename.

(** C9.  Both [generateFilename] functions return
    [<prefix>-<type>-<timestamp>.png], where the timestamp is the ISO
    text of the current date with every colon and every dot replaced by
    a dash; the name starts with [<prefix>-<type>-] and ends with
    [.png].  The prefix is the one given, and [screenshot] (screenshot
    script) or [flux] (icon script) when none is given. *)
Theorem generateFilename_shape (type : string) (prefix : option string)
  (w : World.world) :
  let iso := World.clock w (World.dates w) in
  exists stamp,
    Vocabulary.dashed iso stamp
    /\ Screenshots.generateFilename type prefix w
       = (World.Returned
            (Vocabulary.prefix_or "screenshot" prefix ++ "-" ++ type ++ "-" ++ stamp ++ ".png"),
          World.with_dates w (S (World.dates w)))
    /\ FluxIcon.generateFilename type prefix w
       = (World.Returned
            (Vocabulary.prefix_or "flux" prefix ++ "-" ++ type ++ "-" ++ stamp ++ ".png"),
          World.with_dates w (S (World.dates w)))
    /\ (forall p,
          JsString.startsWith (p ++ "-" ++ type ++ "-" ++ stamp ++ ".png")
            (p ++ "-" ++ type ++ "-") = true
          /\ JsString.endsWith (p ++ "-" ++ type ++ "-" ++ stamp ++ ".png") ".png" = true).
Proof.
  cbv zeta. exists (JsString.replace_colon_dot (World.clock w (World.dates w))).
  split; [apply Filename.replace_colon_dot_dashed|].
  split; [destruct prefix; reflexivity|].
  split; [destruct prefix; reflexivity|].
  intros p. apply Filename.built_name_marks.
Qed.

(** ** The stale-asset cleaners *)

Module Cleaner.
Import JsString Json Vocabulary StringFacts World Node Run.

Lemma filter_all {A} (l : list A) : filter (fun _ => true) l = l.
Proof. induction l; simpl; congruence. Qed.

Lemma filter_filter {A} (f g : A -> bool) (l : list A) :
  filter f (filter g l) = filter (fun x => g x && f x) l.
Proof.
  induction l as [|a l IH]; simpl; [reflexivity|].
  destruct (g a); simpl; [destruct (f a)|]; congruence.
Qed.

Lemma has_entry_false name entries :
  has_entry name entries = false ->
  forall e, In e entries -> String.eqb (fst e) name = false.
Proof.
  unfold has_entry. intros H e He.
  destruct (String.eqb (fst e) name) eqn:E; [|reflexivity].
  assert (existsb (fun e => String.eqb (fst e) name) entries = true)
    by (apply existsb_exists; eauto).
  congruence.
Qed.

Lemma same_setting_refl w : same_setting w w.
Proof. repeat split. Qed.

Lemma same_setting_trans w1 w2 w3 :
  same_setting w1 w2 -> same_setting w2 w3 -> same_setting w1 w3.
Proof.
  unfold same_setting. intros H1 H2.
  repeat match goal with H : _ /\ _ |- _ => destruct H end.
  repeat split; congruence.
Qed.

Lemma remove_absent name cur :
  has_entry name cur = false -> remove_entry name cur = cur.
Proof.
  intros H. unfold remove_entry. rewrite <- (filter_all cur) at 2.
  apply filter_ext_in. intros e He.
  now rewrite (has_entry_false _ _ H e He).
Qed.

(** One turn of the loop. *)
Lemma unlink_step name w cur :
  images (fs w) = Some cur ->
  exists w1,
    try_catch (unlinkSync_image name)
      (fun _ => console_warn ("   Failed to delete: " ++ name)) w
    = (Returned tt, w1)
    /\ same_setting w w1
    /\ manifest (fs w1) = manifest (fs w)
    /\ images (fs w1)
       = Some (if deletable w name then remove_entry name cur else cur).
Proof.
  intros Hcur. unfold try_catch, unlinkSync_image, deletable.
  destruct (unlink_fault (os w) name) as [msg|].
  - eexists. split; [reflexivity|]. repeat split. exact Hcur.
  - rewrite Hcur. destruct (has_entry name cur) eqn:Eh.
    + eexists. split; [reflexivity|]. repeat split.
    + eexists. split; [reflexivity|]. repeat split.
      cbn. now rewrite remove_absent.
Qed.

(** The sweep removes the selected names that can be deleted, keeps
    everything else, and always goes to its end. *)
Lemma sweep_spec names : forall w cur,
  images (fs w) = Some cur ->
  exists w',
    sweep names w = (Returned tt, w')
    /\ same_setting w w'
    /\ manifest (fs w') = manifest (fs w)
    /\ images (fs w')
       = Some (filter (fun e => negb (mem (fst e) (filter (deletable w) names))) cur).
Proof.
  induction names as [|name rest IH]; intros w cur Hcur.
  - exists w. simpl. rewrite filter_all. auto using same_setting_refl.
  - destruct (unlink_step name w Hcur) as (w1 & Hstep & Hset1 & Hman1 & Himg1).
    destruct (IH w1 _ Himg1) as (w' & Hrun & Hset & Hman & Himg).
    exists w'. unfold sweep in *. cbn [forEach].
    rewrite (bind_returned _ _ _ Hstep), Hrun.
    split; [reflexivity|].
    split; [eapply same_setting_trans; eauto|].
    split; [congruence|].
    rewrite Himg.
    assert (Hdel : forall n, deletable w1 n = deletable w n).
    { intros n. unfold deletable.
      destruct Hset1 as (_ & _ & -> & _). reflexivity. }
    rewrite (filter_ext _ _ Hdel). cbn [filter].
    destruct (deletable w name).
    + unfold remove_entry. rewrite filter_filter. f_equal.
      apply filter_ext. intros e. unfold mem. cbn [existsb].
      now rewrite negb_orb.
    + reflexivity.
Qed.


Lemma mem_filter (f : string -> bool) x l :
  mem x (filter f l) = f x && mem x l.
Proof.
  unfold mem. induction l as [|a l IH]; cbn [filter existsb].
  - now rewrite andb_false_r.
  - destruct (String.eqb x a) eqn:E.
    + apply String.eqb_eq in E. subst a.
      destruct (f x); cbn [existsb orb andb]; [now rewrite String.eqb_refl|exact IH].
    + destruct (f a); cbn [existsb]; rewrite ?E; exact IH.
Qed.

Lemma mem_names e (cur : list (string * buffer)) :
  In e cur -> mem (fst e) (map fst cur) = true.
Proof.
  intros He. unfold mem. apply existsb_exists. exists (fst e).
  split; [now apply in_map | apply String.eqb_refl].
Qed.

Lemma guarded_sweep names :
  (if Nat.ltb 0 (List.length names) then sweep names else ret tt) = sweep names.
Proof. destruct names; reflexivity. Qed.

(** What is left of the directory after a cleaner that selects names
    by [select]. *)
Lemma selected_sweep_spec (select : string -> bool) w cur :
  images (fs w) = Some cur ->
  exists w',
    sweep (filter select (map fst cur)) w = (Returned tt, w')
    /\ same_setting w w'
    /\ manifest (fs w') = manifest (fs w)
    /\ images (fs w')
       = Some (filter (fun e => negb (select (fst e) && deletable w (fst e))) cur).
Proof.
  intros Hcur.
  destruct (sweep_spec (filter select (map fst cur)) w Hcur)
    as (w' & Hrun & Hset & Hman & Himg).
  exists w'. repeat split; try apply Hset; auto.
  rewrite Himg. f_equal. apply filter_ext_in. intros e He.
  rewrite !mem_filter, (mem_names _ _ He), andb_true_r.
  now rewrite andb_comm.
Qed.

Lemma clearExistingScreenshots_spec w cur :
  images (fs w) = Some cur ->
  readdir_fault (os w) = None ->
  exists w',
    Screenshots.clearExistingScreenshots w = (Returned tt, w')
    /\ same_setting w w'
    /\ manifest (fs w') = manifest (fs w)
    /\ images (fs w')
       = Some (filter (fun e => negb (Screenshots.is_screenshot_file (fst e)
                                      && deletable w (fst e))) cur).
Proof.
  intros Hcur Hdir.
  destruct (selected_sweep_spec Screenshots.is_screenshot_file w Hcur)
    as (w' & Hrun & Hrest).
  exists w'. split; [|exact Hrest].
  unfold Screenshots.clearExistingScreenshots.
  unfold bind at 1, existsSync_images, gets. rewrite Hcur. cbn [negb].
  unfold bind at 1, readdirSync_images. rewrite Hdir, Hcur.
  fold (sweep (filter Screenshots.is_screenshot_file (map fst cur))).
  now rewrite guarded_sweep.
Qed.

Lemma clearExistingIcons_spec w cur :
  images (fs w) = Some cur ->
  readdir_fault (os w) = None ->
  exists w',
    FluxIcon.clearExistingIcons w = (Returned tt, w')
    /\ same_setting w w'
    /\ manifest (fs w') = manifest (fs w)
    /\ images (fs w')
       = Some (filter (fun e => negb (FluxIcon.is_icon_file (fst e)
                                      && deletable w (fst e))) cur).
Proof.
  intros Hcur Hdir.
  destruct (selected_sweep_spec FluxIcon.is_icon_file w Hcur)
    as (w' & Hrun & Hrest).
  exists w'. split; [|exact Hrest].
  unfold FluxIcon.clearExistingIcons.
  unfold bind at 1, existsSync_images, gets. rewrite Hcur. cbn [negb].
  unfold bind at 1, readdirSync_images. rewrite Hdir, Hcur.
  exact Hrun.
Qed.

(** When the directory does not exist the cleaners do nothing. *)
Lemma cleaners_without_directory w :
  images (fs w) = None ->
  Screenshots.clearExistingScreenshots w = (Returned tt, w)
  /\ FluxIcon.clearExistingIcons w = (Returned tt, w).
Proof.
  intros H.
  unfold Screenshots.clearExistingScreenshots, FluxIcon.clearExistingIcons.
  unfold bind, existsSync_images, gets. now rewrite H.
Qed.

Lemma substring_whole s : substring 0 (String.length s) s = s.
Proof. induction s; simpl; congruence. Qed.

Lemma substring_split s : forall n,
  n <= String.length s ->
  s = substring 0 n s ++ substring n (String.length s - n) s.
Proof.
  induction s as [|a s IH]; intros n Hn.
  - destruct n; [reflexivity | simpl in Hn; lia].
  - destruct n as [|n].
    + cbn [substring append]. rewrite Nat.sub_0_r.
      cbn [String.length substring]. now rewrite substring_whole.
    + cbn [String.length] in *. cbn [substring append Nat.sub].
      f_equal. apply IH. lia.
Qed.

Lemma endsWith_split s p :
  endsWith s p = true -> exists front, s = front ++ p.
Proof.
  unfold endsWith. intros H. apply andb_true_iff in H as [Hle Heq].
  apply Nat.leb_le in Hle. apply String.eqb_eq in Heq.
  exists (substring 0 (String.length s - String.length p) s).
  assert (Hn : String.length s - String.length p <= String.length s) by lia.
  pose proof (substring_split s Hn) as Hs.
  replace (String.length s - (String.length s - String.length p))
    with (String.length p) in Hs by lia.
  now rewrite Heq in Hs.
Qed.

Lemma startsWith_iff s p :
  startsWith s p = true <-> exists rest, s = p ++ rest.
Proof.
  split; [apply startsWith_split|]. intros [rest ->]. apply startsWith_app.
Qed.

Lemma endsWith_iff s p :
  endsWith s p = true <-> exists front, s = front ++ p.
Proof.
  split; [apply endsWith_split|]. intros [front ->].
  apply Filename.endsWith_app.
Qed.

(** The names the screenshot cleaner selects are the assets of the
    screenshot pipeline. *)
Lemma is_screenshot_file_asset name :
  Screenshots.is_screenshot_file name = true
  <-> pipeline_asset "screenshot" ["embed"; "splash"] name.
Proof.
  unfold Screenshots.is_screenshot_file, pipeline_asset.
  rewrite andb_true_iff, orb_true_iff, endsWith_iff, !startsWith_iff.
  split.
  - intros [[[rest ->]|[rest ->]] Hpng]; (split; [|exact Hpng]).
    + exists "embed", rest. split; [now left | reflexivity].
    + exists "splash", rest. split; [now right; left | reflexivity].
  - intros [(type & rest & Hin & ->) Hpng]. split; [|exact Hpng].
    destruct Hin as [<-|[<-|[]]]; [left|right]; now exists rest.
Qed.

(** The names the icon cleaner selects are the assets of the icon
    pipeline. *)
Lemma is_icon_file_asset name :
  FluxIcon.is_icon_file name = true <-> pipeline_asset "flux" ["icon"] name.
Proof.
  unfold FluxIcon.is_icon_file, pipeline_asset.
  rewrite andb_true_iff, endsWith_iff, startsWith_iff.
  split.
  - intros [[rest ->] Hpng]. split; [|exact Hpng].
    exists "icon", rest. split; [now left | reflexivity].
  - intros [(type & rest & Hin & ->) Hpng]. split; [|exact Hpng].
    destruct Hin as [<-|[]]. now exists rest.
Qed.

Lemma filter_idem {A} (f : A -> bool) (l : list A) :
  filter f (filter f l) = filter f l.
Proof.
  rewrite filter_filter. apply filter_ext. intros a. now destruct (f a).
Qed.

End Cleaner.

(** C2, as the code has it.  For every listing of [public/images], each
    cleaner removes the assets of its pipeline and keeps every other
    file, the manifest included; a second run on the directory that is
    left removes nothing.  The assets of a pipeline are not all the
    names with its prefix: they are the names that start with its
    [<prefix>-<type>-], for one of its types, and end with [.png]:
    [screenshot-embed-] and [screenshot-splash-] for the screenshot
    script, [flux-icon-] for the icon script.  A deletion that the
    operating system refuses is skipped with a warning: in general the
    files removed are the assets that it lets the cleaner delete, and
    they are all the assets when it refuses none. *)
Theorem cleaners_delete_exactly_stale_assets
  (w : World.world) (entries : list (string * World.buffer)) :
  World.images (World.fs w) = Some entries ->
  World.readdir_fault (World.os w) = None ->
  (exists w1,
     Screenshots.clearExistingScreenshots w = (World.Returned tt, w1)
     /\ World.fs w1
        = World.mk_fs
            (Some (filter (fun e => negb (Screenshots.is_screenshot_file (fst e)
                                          && Vocabulary.deletable w (fst e)))
                     entries))
            (World.manifest (World.fs w))
     /\ ((forall name, World.unlink_fault (World.os w) name = None) ->
         World.fs w1
         = World.mk_fs
             (Some (filter (fun e => negb (Screenshots.is_screenshot_file (fst e)))
                      entries))
             (World.manifest (World.fs w))
         /\ exists w2,
              Screenshots.clearExistingScreenshots w1 = (World.Returned tt, w2)
              /\ World.fs w2 = World.fs w1))
  /\ (exists w1,
     FluxIcon.clearExistingIcons w = (World.Returned tt, w1)
     /\ World.fs w1
        = World.mk_fs
            (Some (filter (fun e => negb (FluxIcon.is_icon_file (fst e)
                                          && Vocabulary.deletable w (fst e)))
                     entries))
            (World.manifest (World.fs w))
     /\ ((forall name, World.unlink_fault (World.os w) name = None) ->
         World.fs w1
         = World.mk_fs
             (Some (filter (fun e => negb (FluxIcon.is_icon_file (fst e))) entries))
             (World.manifest (World.fs w))
         /\ exists w2,
              FluxIcon.clearExistingIcons w1 = (World.Returned tt, w2)
              /\ World.fs w2 = World.fs w1))
  /\ (forall name,
        Screenshots.is_screenshot_file name = true
        <-> Vocabulary.pipeline_asset "screenshot" ["embed"; "splash"] name)
  /\ (forall name,
        FluxIcon.is_icon_file name = true
        <-> Vocabulary.pipeline_asset "flux" ["icon"] name).
Proof.
  intros Hdir Hread.
  assert (Hdel : forall (select : string -> bool) w',
             World.os w' = World.os w ->
             (forall name, World.unlink_fault (World.os w) name = None) ->
             forall l : list (string * World.buffer),
               filter (fun e => negb (select (fst e) && Vocabulary.deletable w' (fst e))) l
               = filter (fun e => negb (select (fst e))) l).
  { intros select w' Hos Hunlink l. apply filter_ext. intros e.
    unfold Vocabulary.deletable. rewrite Hos, Hunlink. now rewrite andb_true_r. }
  assert (Hfs : forall (f : World.filesystem) i m,
             World.images f = i -> World.manifest f = m -> f = World.mk_fs i m).
  { intros [i0 m0] i m. cbn. congruence. }
  split; [|split; [|split]].
  - destruct (Cleaner.clearExistingScreenshots_spec w Hdir Hread)
      as (w1 & Hrun1 & Hset1 & Hman1 & Himg1).
    exists w1. split; [exact Hrun1|]. split; [now apply Hfs|].
    intros Hunlink. rewrite (Hdel _ w eq_refl Hunlink) in Himg1.
    split; [now apply Hfs|].
    assert (Hos1 : World.os w1 = World.os w) by apply Hset1.
    assert (Hread1 : World.readdir_fault (World.os w1) = None) by congruence.
    destruct (Cleaner.clearExistingScreenshots_spec w1 Himg1 Hread1)
      as (w2 & Hrun2 & Hset2 & Hman2 & Himg2).
    rewrite (Hdel _ w1 Hos1 Hunlink), Cleaner.filter_idem in Himg2.
    exists w2. split; [exact Hrun2|].
    rewrite (Hfs (World.fs w2) _ _ Himg2 Hman2).
    symmetry. now apply Hfs.
  - destruct (Cleaner.clearExistingIcons_spec w Hdir Hread)
      as (w1 & Hrun1 & Hset1 & Hman1 & Himg1).
    exists w1. split; [exact Hrun1|]. split; [now apply Hfs|].
    intros Hunlink. rewrite (Hdel _ w eq_refl Hunlink) in Himg1.
    split; [now apply Hfs|].
    assert (Hos1 : World.os w1 = World.os w) by apply Hset1.
    assert (Hread1 : World.readdir_fault (World.os w1) = None) by congruence.
    destruct (Cleaner.clearExistingIcons_spec w1 Himg1 Hread1)
      as (w2 & Hrun2 & Hset2 & Hman2 & Himg2).
    rewrite (Hdel _ w1 Hos1 Hunlink), Cleaner.filter_idem in Himg2.
    exists w2. split; [exact Hrun2|].
    rewrite (Hfs (World.fs w2) _ _ Himg2 Hman2).
    symmetry. now apply Hfs.
  - apply Cleaner.is_screenshot_file_asset.
  - apply Cleaner.is_icon_file_asset.
Qed.

(** The example of the specification: of [screenshot-embed-A.png] and
    [unrelated.png] the screenshot cleaner removes the former only, and
    a second run removes nothing. *)
Lemma cleaners_delete_exactly_stale_assets_witness :
  World.images (World.fs Sample.world_two_files) = Some Sample.two_files
  /\ World.readdir_fault (World.os Sample.world_two_files) = None
  /\ (forall name, World.unlink_fault (World.os Sample.world_two_files) name = None)
  /\ exists w1 w2,
       Screenshots.clearExistingScreenshots Sample.world_two_files
       = (World.Returned tt, w1)
       /\ World.images (World.fs w1) = Some [("unrelated.png", World.FromBytes "b")]
       /\ Screenshots.clearExistingScreenshots w1 = (World.Returned tt, w2)
       /\ World.fs w2 = World.fs w1.
Proof.
  split; [reflexivity|]. split; [reflexivity|]. split; [reflexivity|].
  destruct (cleaners_delete_exactly_stale_assets
              Sample.world_two_files (entries := Sample.two_files)
              eq_refl eq_refl)
    as [(w1 & Hrun1 & _ & Hexact) _].
  destruct (Hexact (fun _ => eq_refl)) as (Hfs1 & w2 & Hrun2 & Hfs2).
  exists w1, w2. repeat split; auto.
  rewrite Hfs1. reflexivity.
Defined.

(** C2 as it is stated fails on a file that has the prefix of the
    pipeline and the suffix [.png] and none of the types of the
    pipeline: it is kept, as [screenshot-other-A.png] is by the
    screenshot cleaner and [flux-banner-A.png] by the icon cleaner,
    although the operating system refuses no deletion. *)
Lemma cleaners_keep_other_types :
  let kept_by_screenshots :=
    World.images
      (World.fs (snd (Screenshots.clearExistingScreenshots Sample.world_other_types))) in
  let kept_by_icons :=
    World.images
      (World.fs (snd (FluxIcon.clearExistingIcons Sample.world_other_types))) in
  Vocabulary.prefixed_png "screenshot" "screenshot-other-A.png"
  /\ Vocabulary.prefixed_png "flux" "flux-banner-A.png"
  /\ (forall name, World.unlink_fault (World.os Sample.world_other_types) name = None)
  /\ World.images (World.fs Sample.world_other_types) = Some Sample.other_types
  /\ kept_by_screenshots
     = Some [("screenshot-other-A.png", World.FromBytes "b");
             ("flux-icon-A.png", World.FromBytes "c");
             ("flux-banner-A.png", World.FromBytes "d")]
  /\ kept_by_icons
     = Some [("screenshot-embed-A.png", World.FromBytes "a");
             ("screenshot-other-A.png", World.FromBytes "b");
             ("flux-banner-A.png", World.FromBytes "d")].
Proof.
  cbv zeta. split; [|split; [|repeat split]].
  - split; [now exists "other-A.png" | now exists "screenshot-other-A"].
  - split; [now exists "banner-A.png" | now exists "flux-banner-A"].
Qed.

(** ** Configuration checks of [generateScreenshots] *)

Module Configuration.
Import JsString Json Vocabulary World Node Run.

Lemma requests_console t lines :
  requests (t ++ map ConsoleError lines) = requests t.
Proof.
  unfold requests. rewrite filter_app.
  replace (filter is_request (map ConsoleError lines)) with (@nil event).
  - apply app_nil_r.
  - induction lines; simpl; auto.
Qed.

Lemma exit_after_three_lines {A} a b c (w : world) :
  (console_error [a] ;; console_error [b] ;; console_error [c] ;;
   process_exit (A := A) 1)%js w
  = (Exited 1, with_trace w (trace w ++ map ConsoleError [a; b; c])).
Proof.
  unfold console_error, emit, bind, process_exit, with_trace. cbn.
  now rewrite <- !app_assoc.
Qed.

Lemma exit_after_two_lines {A} a b (w : world) :
  (console_error [a] ;; console_error [b] ;; process_exit (A := A) 1)%js w
  = (Exited 1, with_trace w (trace w ++ map ConsoleError [a; b])).
Proof.
  unfold console_error, emit, bind, process_exit, with_trace. cbn.
  now rewrite <- !app_assoc.
Qed.

End Configuration.

(** C4.  When [SCREENSHOT_URL] or [BROWSERLESS_API_URL] is not set,
    [generateScreenshots] ends the process with code 1 having done
    nothing but print error lines: no request was sent, no file and no
    manifest was touched. *)
Theorem generateScreenshots_requires_configuration (w : World.world) :
  World.env w "SCREENSHOT_URL" = None
  \/ World.env w "BROWSERLESS_API_URL" = None ->
  exists lines,
    let w' := World.with_trace w (World.trace w ++ map World.ConsoleError lines) in
    Screenshots.generateScreenshots w = (World.Exited 1, w')
    /\ World.fs w' = World.fs w
    /\ Vocabulary.requests (World.trace w') = Vocabulary.requests (World.trace w).
Proof.
  intros H. unfold Screenshots.generateScreenshots.
  assert (Hfirst : JsString.nonempty (World.env w "SCREENSHOT_URL") = false
                   \/ JsString.nonempty (World.env w "SCREENSHOT_URL") = true
                      /\ World.env w "BROWSERLESS_API_URL" = None).
  { destruct (JsString.nonempty (World.env w "SCREENSHOT_URL")) eqn:E; auto.
    right. split; [reflexivity|]. destruct H as [H|H]; [|exact H].
    rewrite H in E. discriminate. }
  destruct Hfirst as [Hurl | [Hurl Hbase]].
  - eexists. cbv zeta. split; [|split].
    + apply Run.try_catch_exited.
      unfold World.bind at 1, World.gets at 1. rewrite Hurl. cbn [negb].
      apply Run.bind_exited. apply Configuration.exit_after_three_lines.
    + reflexivity.
    + apply Configuration.requests_console.
  - eexists. cbv zeta. split; [|split].
    + apply Run.try_catch_exited.
      unfold World.bind at 1, World.gets at 1. rewrite Hurl. cbn [negb].
      unfold World.bind at 1, World.ret at 1.
      unfold World.bind at 1, Screenshots.SCREENSHOT_CONFIG_baseUrl, World.gets at 1.
      rewrite Hbase. cbn [JsString.nonempty negb].
      apply Run.bind_exited. apply Configuration.exit_after_two_lines.
    + reflexivity.
    + apply Configuration.requests_console.
Qed.

Lemma generateScreenshots_requires_configuration_witness :
  let w := Sample.run_in (fun _ => None)
             (World.mk_fs (Some Sample.directory) (Some (World.Document Sample.document)))
             Sample.one_image in
  (World.env w "SCREENSHOT_URL" = None \/ World.env w "BROWSERLESS_API_URL" = None)
  /\ exists lines,
       let w' := World.with_trace w (World.trace w ++ map World.ConsoleError lines) in
       Screenshots.generateScreenshots w = (World.Exited 1, w')
       /\ World.fs w' = World.fs w
       /\ Vocabulary.requests (World.trace w') = Vocabulary.requests (World.trace w).
Proof.
  cbv zeta. split; [left; reflexivity|].
  apply generateScreenshots_requires_configuration. left. reflexivity.
Defined.

(** ** Computations that never end the process *)

Module Exits.
Import JsString Json Vocabulary World Node Run.

Lemma never_exits_ret {A} (a : A) : never_exits (ret a).
Proof. intros w c w'. discriminate. Qed.

Lemma never_exits_throw {A} e : never_exits (throw (A := A) e).
Proof. intros w c w'. discriminate. Qed.

Lemma never_exits_gets {A} (f : world -> A) : never_exits (gets f).
Proof. intros w c w'. discriminate. Qed.

Lemma never_exits_emit e : never_exits (emit e).
Proof. intros w c w'. discriminate. Qed.

Lemma never_exits_bind {A B} (m : js A) (k : A -> js B) :
  never_exits m -> (forall a, never_exits (k a)) -> never_exits (bind m k).
Proof.
  intros Hm Hk w c w'. unfold bind.
  destruct (m w) as [[a|e|c0] w1] eqn:E.
  - apply Hk.
  - discriminate.
  - exfalso. exact (Hm _ _ _ E).
Qed.

Lemma never_exits_try_catch {A} (body : js A) handler :
  never_exits body -> (forall e, never_exits (handler e)) ->
  never_exits (try_catch body handler).
Proof.
  intros Hb Hh w c w'. unfold try_catch.
  destruct (body w) as [[a|e|c0] w1] eqn:E.
  - discriminate.
  - apply Hh.
  - exfalso. exact (Hb _ _ _ E).
Qed.

Ltac primitive_never_exits :=
  intros w c w';
  repeat match goal with
         | |- context [match ?x with _ => _ end] => destruct x
         end;
  discriminate.

Lemma never_exits_mkdirSync_images : never_exits mkdirSync_images.
Proof. unfold mkdirSync_images, system_error, throw. primitive_never_exits. Qed.

Lemma never_exits_readdirSync_images : never_exits readdirSync_images.
Proof. unfold readdirSync_images, system_error, throw. primitive_never_exits. Qed.

Lemma never_exits_unlinkSync_image name : never_exits (unlinkSync_image name).
Proof. unfold unlinkSync_image, system_error, throw. primitive_never_exits. Qed.

Lemma never_exits_writeFileSync_image name b :
  never_exits (writeFileSync_image name b).
Proof. unfold writeFileSync_image, system_error, throw. primitive_never_exits. Qed.

Lemma never_exits_readFileSync_manifest : never_exits readFileSync_manifest.
Proof. unfold readFileSync_manifest, system_error, throw. primitive_never_exits. Qed.

Lemma never_exits_writeFileSync_manifest text :
  never_exits (writeFileSync_manifest text).
Proof. unfold writeFileSync_manifest, system_error, throw. primitive_never_exits. Qed.

Lemma never_exits_now_toISOString : never_exits now_toISOString.
Proof. intros w c w'. discriminate. Qed.

Lemma never_exits_new_URL_origin v : never_exits (FluxIcon.new_URL_origin v).
Proof. unfold FluxIcon.new_URL_origin. primitive_never_exits. Qed.

Create HintDb never_exits.

#[export] Hint Resolve never_exits_ret never_exits_throw never_exits_gets
  never_exits_emit never_exits_mkdirSync_images never_exits_readdirSync_images
  never_exits_unlinkSync_image never_exits_writeFileSync_image
  never_exits_readFileSync_manifest never_exits_writeFileSync_manifest
  never_exits_now_toISOString never_exits_new_URL_origin : never_exits.

(** Goes through a computation built from the operations above. *)
Ltac never_exits_step :=
  first
    [ solve [auto with never_exits]
    | apply never_exits_bind; [|intros ?]
    | apply never_exits_try_catch; [|intros ?]
    | match goal with
      | |- never_exits (if ?b then _ else _) => destruct b
      | |- never_exits (match ?x with _ => _ end) => destruct x
      | |- never_exits (let _ := _ in _) => cbv zeta
      end
    | progress unfold existsSync_images, existsSync_manifest, console_warn,
        console_error, JSON_parse, member, optional_member, assign,
        assign_miniapp, fetch, images_create, setTimeout_seconds ].

Ltac never_exits_tac := repeat never_exits_step.

(** [try { body } catch (error) { handler }] always returns when the
    body cannot end the process and the handler always returns. *)
Lemma try_catch_always_returns {A} (body : js A) handler :
  never_exits body -> (forall e, always_returns (handler e)) ->
  always_returns (try_catch body handler).
Proof.
  intros Hb Hh w. unfold try_catch.
  destruct (body w) as [[a|e|c] w1] eqn:E.
  - now exists a, w1.
  - apply Hh.
  - exfalso. exact (Hb _ _ _ E).
Qed.

Lemma always_returns_console_error args : always_returns (console_error args).
Proof. intros w. eexists _, _. reflexivity. Qed.

Lemma updateFarcasterConfig_always_returns domain names :
  always_returns (Screenshots.updateFarcasterConfig domain names).
Proof.
  apply try_catch_always_returns.
  - never_exits_tac.
  - intros e. apply always_returns_console_error.
Qed.

Lemma updateFarcasterConfigWithIcon_always_returns icon :
  always_returns (FluxIcon.updateFarcasterConfigWithIcon icon).
Proof.
  apply try_catch_always_returns.
  - never_exits_tac.
  - intros e. apply always_returns_console_error.
Qed.

End Exits.

(** ** Objects and the frame of a patch *)

Module Frame.
Import JsString Json Vocabulary World Node Run.

Lemma obj_get_set_same k v fields : obj_get k (obj_set k v fields) = Some v.
Proof.
  induction fields as [|[k' v'] rest IH]; cbn [obj_set obj_get].
  - now rewrite String.eqb_refl.
  - destruct (String.eqb k k') eqn:E; cbn [obj_get]; rewrite E; auto.
Qed.

Lemma obj_get_set_other k k' v fields :
  k <> k' -> obj_get k (obj_set k' v fields) = obj_get k fields.
Proof.
  intros Hk. apply String.eqb_neq in Hk.
  induction fields as [|[k0 v0] rest IH]; cbn [obj_set obj_get].
  - now rewrite Hk.
  - destruct (String.eqb k' k0) eqn:E; cbn [obj_get].
    + apply String.eqb_eq in E. subst k0. now rewrite Hk.
    + destruct (String.eqb k k0); auto.
Qed.

Lemma obj_set_keys k v fields x :
  obj_get k fields = Some x -> map fst (obj_set k v fields) = map fst fields.
Proof.
  induction fields as [|[k' v'] rest IH]; cbn [obj_set obj_get]; [discriminate|].
  destruct (String.eqb k k'); cbn [map fst]; [reflexivity|].
  intros H. now rewrite IH.
Qed.

Lemma agree_except_refl names a : agree_except names a a.
Proof. intros k _. reflexivity. Qed.

Lemma agree_except_trans names a b c :
  agree_except names a b -> agree_except names b c -> agree_except names a c.
Proof. intros Hab Hbc k Hk. now rewrite (Hbc k Hk), (Hab k Hk). Qed.

Lemma agree_except_set names k v a :
  In k names -> agree_except names a (obj_set k v a).
Proof.
  intros Hin k0 Hk0. apply obj_get_set_other. intros ->. now apply Hk0.
Qed.

Lemma miniapp_frame_refl a : miniapp_frame a a.
Proof. destruct a as [[]|]; cbn; auto using agree_except_refl. Qed.

Lemma miniapp_frame_trans a b c :
  miniapp_frame a b -> miniapp_frame b c -> miniapp_frame a c.
Proof.
  destruct a as [[]|], b as [[]|]; cbn; intros Hab; try discriminate Hab;
    try (injection Hab as <-); destruct c as [[]|]; cbn; intros Hbc;
    try discriminate Hbc; try (injection Hbc as <-); try reflexivity;
    eauto using agree_except_trans.
Qed.

Lemma manifest_frame_refl j : manifest_frame j j.
Proof.
  destruct j; cbn; auto using agree_except_refl, miniapp_frame_refl.
Qed.

Lemma manifest_frame_trans j1 j2 j3 :
  manifest_frame j1 j2 -> manifest_frame j2 j3 -> manifest_frame j1 j3.
Proof.
  destruct j1, j2; cbn; intros H12; try discriminate H12;
    try (injection H12 as <-); destruct j3; cbn; intros H23;
    try discriminate H23; try (injection H23 as <-); try reflexivity.
  destruct H12 as (K12 & A12 & M12), H23 as (K23 & A23 & M23).
  split; [congruence|].
  split; eauto using agree_except_trans, miniapp_frame_trans.
Qed.

Lemma framed_ret j c : manifest_frame j c -> framed_step j (ret c).
Proof. intros H w. cbn. auto. Qed.

Lemma framed_bind j (m : js json) (k : json -> js json) :
  framed_step j m ->
  (forall c, manifest_frame j c -> framed_step j (k c)) ->
  framed_step j (bind m k).
Proof.
  intros Hm Hk w. unfold bind. specialize (Hm w).
  destruct (m w) as [[c|e|code] w1].
  - destruct Hm as [-> Hc]. apply (Hk c Hc).
  - exact Hm.
  - exact Hm.
Qed.

(** An assignment to a patched field of [miniapp] stays in the frame. *)
Lemma assign_miniapp_frame config k x :
  In k patched_fields -> framed_step config (assign_miniapp config k x).
Proof.
  intros Hk w. unfold assign_miniapp, member, assign.
  destruct config as [| | | | |fields]; try (cbn; reflexivity).
  unfold bind at 1, ret at 1.
  destruct (obj_get "miniapp" fields) as [target|] eqn:Em; [|reflexivity].
  destruct target as [| | | |items|m]; try (cbn; reflexivity); cbn.
  - split; [reflexivity|].
    split; [now apply (obj_set_keys _ _ _ Em)|].
    split; [apply agree_except_set; now left|].
    rewrite obj_get_set_same, Em. reflexivity.
  - split; [reflexivity|].
    split; [now apply (obj_set_keys _ _ _ Em)|].
    split; [apply agree_except_set; now left|].
    rewrite obj_get_set_same, Em. cbn. now apply agree_except_set.
Qed.

Lemma framed_assign j config k x :
  manifest_frame j config -> In k patched_fields ->
  framed_step j (assign_miniapp config k x).
Proof.
  intros Hj Hk w. pose proof (assign_miniapp_frame config x Hk w) as H.
  destruct (assign_miniapp config k x w) as [[c|e|code] w1]; auto.
  destruct H as [-> Hc]. eauto using manifest_frame_trans.
Qed.

Lemma framed_if j (b : bool) (m1 m2 : js json) :
  framed_step j m1 -> framed_step j m2 -> framed_step j (if b then m1 else m2).
Proof. now destruct b. Qed.

(** What [JSON.stringify] and [JSON.parse] make of an object. *)
Lemma obj_get_written k (fields : list (string * json)) :
  obj_get k (map (fun kv => (fst kv, stringify_parse (snd kv))) fields)
  = option_map stringify_parse (obj_get k fields).
Proof.
  induction fields as [|[k' v'] rest IH]; cbn [map obj_get fst snd];
    [reflexivity|].
  destruct (String.eqb k k'); [reflexivity | exact IH].
Qed.

Lemma keys_written (fields : list (string * json)) :
  map fst (map (fun kv => (fst kv, stringify_parse (snd kv))) fields)
  = map fst fields.
Proof. rewrite map_map. reflexivity. Qed.

Lemma stringify_parse_object (fields : list (string * json)) :
  stringify_parse (JObj fields)
  = JObj (map (fun kv => (fst kv, stringify_parse (snd kv))) fields).
Proof. reflexivity. Qed.

(** A plain value is read back as it was. *)
Lemma stringify_parse_plain : forall v, plain v = true -> stringify_parse v = v.
Proof.
  fix IH 1. intros [| b | n | s | items | fields];
    cbn [plain stringify_parse]; intros H; try reflexivity.
  - destruct n as [[|]|s| |s m e]; cbn in H; try discriminate H; reflexivity.
  - f_equal. induction items as [|x xs IHxs]; [reflexivity|].
    cbn [forallb map] in *. apply andb_true_iff in H as [Hx Hxs].
    now rewrite (IH x Hx), (IHxs Hxs).
  - f_equal. induction fields as [|[k x] xs IHxs]; [reflexivity|].
    cbn [forallb map fst snd] in *. apply andb_true_iff in H as [Hx Hxs].
    now rewrite (IH x Hx), (IHxs Hxs).
Qed.

Lemma miniapp_frame_written a b :
  miniapp_frame a b -> miniapp_written a (option_map stringify_parse b).
Proof.
  assert (Hsame : forall a, miniapp_written a (option_map stringify_parse a)).
  { intros [v|]; [|reflexivity].
    destruct v as [| |n| | |m]; try reflexivity.
    cbn [option_map]. rewrite stringify_parse_object. cbn [miniapp_written].
    intros k _. apply obj_get_written. }
  destruct a as [[| |n| | |m]|], b as [[| |n'| | |m']|]; cbn [miniapp_frame];
    intros H; try (rewrite <- H; apply Hsame); try apply Hsame.
  cbn [option_map]. rewrite stringify_parse_object. cbn [miniapp_written].
  intros k Hk. rewrite obj_get_written. now rewrite (H k Hk).
Qed.

(** A document changed within the frame is written back within the
    frame. *)
Lemma manifest_frame_written j c :
  manifest_frame j c -> manifest_written j (stringify_parse c).
Proof.
  assert (Hsame : forall j, (forall m, j <> JObj m) ->
                            manifest_written j (stringify_parse j)).
  { intros j0 Hj0. destruct j0 as [| |n| | |m]; try reflexivity.
    now elim (Hj0 m). }
  destruct j as [| |n| | |fields]; cbn [manifest_frame];
    try (intros <-; apply Hsame; discriminate).
  destruct c as [| |n'| | |fields']; try discriminate.
  intros (Hkeys & Hrest & Hmini).
  rewrite stringify_parse_object. cbn [manifest_written].
  split; [now rewrite keys_written|].
  split.
  - intros k Hk. rewrite obj_get_written. now rewrite (Hrest k Hk).
  - rewrite obj_get_written. now apply miniapp_frame_written.
Qed.

(** Writing back a framed document is a patch within the frame. *)
Lemma write_framed j (m : js json) w :
  framed_step j m ->
  manifest (fs w) = Some (Document j) ->
  patch_frame (fs w)
    (fs (snd (bind m (fun config => writeFileSync_manifest (JSON_stringify config)) w))).
Proof.
  intros Hm Hj. unfold bind. specialize (Hm w).
  destruct (m w) as [[c|e|code] w1].
  - destruct Hm as [-> Hc]. unfold writeFileSync_manifest.
    destruct (write_manifest_fault (os w)); cbn.
    + split; [reflexivity|]. now left.
    + split; [reflexivity|]. right. exists j, (stringify_parse c).
      split; [exact Hj|]. split; [reflexivity|].
      now apply manifest_frame_written.
  - subst w1. cbn. split; [reflexivity|]. now left.
  - destruct Hm.
Qed.

Lemma patched_field k :
  k = "imageUrl" \/ k = "splashImageUrl" \/ k = "iconUrl"
  \/ k = "homeUrl" \/ k = "webhookUrl" ->
  In k patched_fields.
Proof. unfold patched_fields. cbn. intuition auto. Qed.

Ltac framed_tac :=
  repeat first
    [ apply framed_ret; first [assumption | apply manifest_frame_refl]
    | apply framed_assign;
      [first [assumption | apply manifest_frame_refl]
      | apply patched_field; auto 6]
    | apply framed_if
    | apply framed_bind; [|intros ? ?]
    | match goal with
      | |- framed_step _ (match ?x with _ => _ end) => destruct x
      end ].

(** [member] and [v?.k] leave the world alone. *)
Lemma member_run v k w :
  (exists x, member v k w = (Returned x, w))
  \/ (exists e, member v k w = (Thrown e, w)).
Proof.
  destruct v; cbn;
    first [left; eexists; reflexivity | right; eexists; reflexivity].
Qed.

Lemma optional_member_run v k w :
  (exists x, optional_member v k w = (Returned x, w))
  \/ (exists e, optional_member v k w = (Thrown e, w)).
Proof.
  destruct v as [v|]; [destruct v|]; cbn;
    first [left; eexists; reflexivity | right; eexists; reflexivity].
Qed.

Lemma patch_frame_refl f : patch_frame f f.
Proof. split; [reflexivity | now left]. Qed.

(** The handler of the patchers prints a line: the file system is as the
    body left it. *)
Lemma fs_try_catch_console (body : js unit) (line : js_error -> list string) w :
  fs (snd (try_catch body (fun e => console_error (line e)) w)) = fs (snd (body w)).
Proof.
  unfold try_catch. destruct (body w) as [[a|e|c] w1]; reflexivity.
Qed.

End Frame.

(** C1, as the code has it.  Whatever the manifest file holds, each
    patcher leaves [public/images] alone and either leaves the manifest
    file as it is or writes back the document with the same top-level
    properties in the same order, every one but [miniapp] with the
    value that is read back from what [JSON.stringify] writes for it,
    and, inside [miniapp], every field but [imageUrl],
    [splashImageUrl], [iconUrl], [homeUrl] and [webhookUrl] with the
    value that is read back from what [JSON.stringify] writes for it.
    That value is the value the field had when this one is plain: when
    it holds no number that is not finite and no negative zero. *)
Theorem patchers_keep_unrelated_fields
  (w : World.world) (domain : option string)
  (screenshotFilenames : Screenshots.screenshot_filenames)
  (iconFilename : option string) :
  Vocabulary.patch_frame (World.fs w)
    (World.fs (snd (Screenshots.updateFarcasterConfig domain screenshotFilenames w)))
  /\ Vocabulary.patch_frame (World.fs w)
       (World.fs (snd (FluxIcon.updateFarcasterConfigWithIcon iconFilename w)))
  /\ (forall v, Vocabulary.plain v = true -> Json.stringify_parse v = v).
Proof.
  split; [|split; [|exact Frame.stringify_parse_plain]].
  - unfold Screenshots.updateFarcasterConfig.
    rewrite Frame.fs_try_catch_console.
    unfold World.bind at 1, Node.existsSync_manifest, World.gets.
    destruct (World.manifest (World.fs w)) as [text|] eqn:Eman; cbn [negb];
      [|apply Frame.patch_frame_refl].
    unfold World.bind at 1, Node.readFileSync_manifest. rewrite Eman.
    destruct (World.read_manifest_fault (World.os w));
      [apply Frame.patch_frame_refl|].
    destruct text as [msg|j]; [apply Frame.patch_frame_refl|].
    unfold World.bind at 1, Node.JSON_parse, World.ret at 1.
    unfold World.bind at 1.
    destruct (Frame.member_run j "miniapp" w) as [[miniapp ->]|[e ->]];
      [|apply Frame.patch_frame_refl].
    apply Frame.write_framed with (j := j); [|exact Eman].
    Frame.framed_tac.
  - unfold FluxIcon.updateFarcasterConfigWithIcon.
    rewrite Frame.fs_try_catch_console.
    unfold World.bind at 1, Node.existsSync_manifest, World.gets.
    destruct (World.manifest (World.fs w)) as [text|] eqn:Eman; cbn [negb];
      [|apply Frame.patch_frame_refl].
    unfold World.bind at 1, Node.readFileSync_manifest. rewrite Eman.
    destruct (World.read_manifest_fault (World.os w));
      [apply Frame.patch_frame_refl|].
    destruct text as [msg|j]; [apply Frame.patch_frame_refl|].
    unfold World.bind at 1, Node.JSON_parse, World.ret at 1.
    unfold World.bind at 1.
    destruct (Frame.member_run j "miniapp" w) as [[miniapp ->]|[e ->]];
      [|apply Frame.patch_frame_refl].
    unfold World.bind at 1.
    destruct (Frame.optional_member_run miniapp "homeUrl" w) as [[homeUrl ->]|[e ->]];
      [|apply Frame.patch_frame_refl].
    unfold World.bind at 1.
    assert (Hdomain :
              forall m : World.js string,
                (exists d, m w = (World.Returned d, w))
                \/ (exists e, m w = (World.Thrown e, w)) ->
                Vocabulary.patch_frame (World.fs w)
                  (World.fs
                     (snd
                        (let (o, w') := m w in
                         match o with
                         | World.Returned d =>
                             World.bind
                               (if Json.truthy_opt miniapp && JsString.nonempty iconFilename
                                then
                                  Node.assign_miniapp j "iconUrl"
                                    (Json.JStr
                                       (d ++ "/images/" ++ JsString.template iconFilename))
                                else World.ret j)
                               (fun config =>
                                  Node.writeFileSync_manifest (Node.JSON_stringify config))
                               w'
                         | World.Thrown e => (World.Thrown e, w')
                         | World.Exited c => (World.Exited c, w')
                         end)))).
    { intros m [[d ->]|[e ->]]; [|apply Frame.patch_frame_refl].
      apply Frame.write_framed with (j := j); [|exact Eman].
      Frame.framed_tac. }
    apply Hdomain.
    destruct homeUrl as [url|]; [destruct (Json.truthy url)|].
    + unfold FluxIcon.new_URL_origin.
      destruct (World.URL_origin w _); [left|right]; eexists; reflexivity.
    + left. eexists. reflexivity.
    + left. eexists. reflexivity.
Qed.

Lemma patchers_keep_unrelated_fields_witness :
  Vocabulary.plain Sample.document = true
  /\ Json.stringify_parse Sample.document = Sample.document
  /\ Vocabulary.patch_frame (World.fs Sample.world0)
       (World.fs (snd (Screenshots.updateFarcasterConfig (Some "app.example")
                         (Screenshots.mk_filenames (Some "e.png") (Some "s.png"))
                         Sample.world0)))
  /\ Vocabulary.patch_frame (World.fs Sample.world0)
       (World.fs (snd (FluxIcon.updateFarcasterConfigWithIcon (Some "i.png")
                         Sample.world0))).
Proof.
  destruct (patchers_keep_unrelated_fields Sample.world0 (Some "app.example")
              (Screenshots.mk_filenames (Some "e.png") (Some "s.png"))
              (Some "i.png")) as (Hscreenshots & Hicon & Hplain).
  split; [reflexivity|].
  split; [apply Hplain; reflexivity|].
  split; [exact Hscreenshots | exact Hicon].
Defined.

(** C1 as it is stated fails on a manifest that holds, in a field no
    patcher writes, a number beyond the range of the doubles:
    [JSON.parse] reads [1e999] as [Infinity] and [JSON.stringify]
    writes [null], so that the field [limit] is not written back with
    the value it had. *)
Lemma patchers_rewrite_a_huge_number :
  let names := Screenshots.mk_filenames (Some "e.png") (Some "s.png") in
  let after_screenshots :=
    World.manifest
      (World.fs (snd (Screenshots.updateFarcasterConfig (Some "app.example") names
                        Sample.world_huge))) in
  let after_icon :=
    World.manifest
      (World.fs (snd (FluxIcon.updateFarcasterConfigWithIcon (Some "i.png")
                        Sample.world_huge))) in
  World.manifest (World.fs Sample.world_huge)
  = Some (World.Document (Json.JObj Sample.huge_fields))
  /\ Json.obj_get "limit" Sample.huge_fields
     = Some (Json.JNum (S754_infinity false))
  /\ (exists fields,
        after_screenshots = Some (World.Document (Json.JObj fields))
        /\ Json.obj_get "limit" fields = Some Json.JNull)
  /\ (exists fields,
        after_icon = Some (World.Document (Json.JObj fields))
        /\ Json.obj_get "limit" fields = Some Json.JNull).
Proof.
  cbv zeta. split; [reflexivity|]. split; [reflexivity|].
  split; eexists; (split; [vm_compute; reflexivity | reflexivity]).
Qed.

(** ** Generators let errors through *)

Module Propagation.
Import JsString Json Vocabulary World Node Run.

(** An error of the image service leaves [generateIcon] as it came, and
    nothing was written. *)
Lemma generateIcon_rejected together prompt dimensions w e :
  (forall r, images_api w together r = ImagesRejected e) ->
  exists w',
    FluxIcon.generateIcon together prompt dimensions w = (Thrown e, w')
    /\ fs w' = fs w.
Proof.
  intros Hapi. unfold FluxIcon.generateIcon. cbv zeta.
  eexists. split.
  - erewrite try_catch_thrown with (e := e); [reflexivity|].
    unfold bind at 1, gets at 1.
    unfold bind at 1, images_create.
    unfold bind at 1, emit.
    unfold bind at 1, gets at 1. cbn [images_api with_trace].
    rewrite Hapi. reflexivity.
  - reflexivity.
Qed.

(** An error of [fetch] leaves [generateSingleScreenshot] as it came. *)
Lemma generateSingleScreenshot_rejected url vp type w e :
  (forall r, network w r = FetchRejected e) ->
  exists w',
    Screenshots.generateSingleScreenshot url vp type w = (Thrown e, w')
    /\ fs w' = fs w.
Proof.
  intros Hnet. unfold Screenshots.generateSingleScreenshot.
  eexists. split.
  - erewrite try_catch_thrown with (e := e); [reflexivity|].
    unfold bind at 1, Screenshots.generateFilename.
    cbv zeta. unfold bind at 1, now_toISOString, ret at 1.
    unfold bind at 1, Screenshots.takeScreenshot.
    erewrite try_catch_thrown with (e := e).
    + reflexivity.
    + unfold bind at 1, Screenshots.SCREENSHOT_CONFIG_baseUrl, gets at 1.
      cbv zeta. unfold bind at 1, fetch.
      unfold bind at 1, emit.
      unfold bind at 1, gets at 1. cbn [network with_trace with_dates].
      rewrite Hnet. reflexivity.
  - reflexivity.
Qed.

End Propagation.

(** C8.  The two manifest patchers always return: no error leaves
    them and they never end the process.  When the manifest file is
    absent they print a warning and touch nothing.  The generators are
    different: an error of the service they call leaves them as it
    came. *)
Theorem patchers_swallow_errors
  (w : World.world) (domain : option string)
  (screenshotFilenames : Screenshots.screenshot_filenames)
  (iconFilename : option string) :
  (exists w',
     Screenshots.updateFarcasterConfig domain screenshotFilenames w
     = (World.Returned tt, w'))
  /\ (exists w',
     FluxIcon.updateFarcasterConfigWithIcon iconFilename w
     = (World.Returned tt, w'))
  /\ (World.manifest (World.fs w) = None ->
      let warned :=
        World.with_trace w
          (World.trace w
           ++ [World.ConsoleWarn
                 "⚠️  Warning: farcaster.json file not found, skipping update"])%list in
      Screenshots.updateFarcasterConfig domain screenshotFilenames w
      = (World.Returned tt, warned)
      /\ FluxIcon.updateFarcasterConfigWithIcon iconFilename w
         = (World.Returned tt, warned)
      /\ World.fs warned = World.fs w)
  /\ (forall e together prompt dimensions,
        (forall r, World.images_api w together r = World.ImagesRejected e) ->
        fst (FluxIcon.generateIcon together prompt dimensions w) = World.Thrown e)
  /\ (forall e url vp type,
        (forall r, World.network w r = World.FetchRejected e) ->
        fst (Screenshots.generateSingleScreenshot url vp type w) = World.Thrown e).
Proof.
  split; [|split; [|split; [|split]]].
  - destruct (Exits.updateFarcasterConfig_always_returns
                domain screenshotFilenames w) as ([] & w' & H).
    now exists w'.
  - destruct (Exits.updateFarcasterConfigWithIcon_always_returns iconFilename w)
      as ([] & w' & H).
    now exists w'.
  - intros Hman. cbv zeta.
    unfold Screenshots.updateFarcasterConfig, FluxIcon.updateFarcasterConfigWithIcon.
    unfold World.try_catch, World.bind, Node.existsSync_manifest, World.gets.
    rewrite Hman. repeat split.
  - intros e together prompt dimensions Hapi.
    destruct (Propagation.generateIcon_rejected together prompt dimensions w Hapi)
      as (w' & -> & _).
    reflexivity.
  - intros e url vp type Hnet.
    destruct (Propagation.generateSingleScreenshot_rejected url vp type w Hnet)
      as (w' & -> & _).
    reflexivity.
Qed.

Lemma patchers_swallow_errors_witness :
  let w := Sample.run_in Sample.variables
             (World.mk_fs (Some Sample.directory) None) Sample.one_image in
  World.manifest (World.fs w) = None
  /\ (exists w',
        Screenshots.updateFarcasterConfig (Some "app.example")
          (Screenshots.mk_filenames (Some "e.png") (Some "s.png")) w
        = (World.Returned tt, w')
        /\ World.fs w' = World.fs w)
  /\ (exists w',
        FluxIcon.updateFarcasterConfigWithIcon (Some "i.png") w
        = (World.Returned tt, w')
        /\ World.fs w' = World.fs w).
Proof.
  cbv zeta. split; [reflexivity|].
  pose proof (patchers_swallow_errors
                (Sample.run_in Sample.variables
                   (World.mk_fs (Some Sample.directory) None) Sample.one_image)
                (Some "app.example")
                (Screenshots.mk_filenames (Some "e.png") (Some "s.png"))
                (Some "i.png")) as (_ & _ & H & _).
  destruct (H eq_refl) as (H1 & H2 & H3).
  split; eexists; (split; [eassumption|exact H3]).
Defined.

(** ** The patch of the screenshot script *)

Module ScreenshotPatch.
Import JsString Json Vocabulary World Node Run Frame.

Lemma obj_set_same k v fields :
  obj_get k fields = Some v -> obj_set k v fields = fields.
Proof.
  induction fields as [|[k' v'] rest IH]; cbn [obj_get obj_set]; [discriminate|].
  destruct (String.eqb k k'); intros H.
  - now injection H as ->.
  - now rewrite IH.
Qed.

Lemma obj_set_twice k v1 v2 fields :
  obj_set k v2 (obj_set k v1 fields) = obj_set k v2 fields.
Proof.
  induction fields as [|[k' v'] rest IH]; cbn [obj_set].
  - now rewrite String.eqb_refl.
  - destruct (String.eqb k k') eqn:E; cbn [obj_set]; rewrite E; congruence.
Qed.

(** An assignment to a field of [miniapp] when [miniapp] is an object. *)
Lemma assign_miniapp_object fields m k x w :
  assign_miniapp (JObj (obj_set "miniapp" (JObj m) fields)) k x w
  = (Returned (JObj (obj_set "miniapp" (JObj (obj_set k x m)) fields)), w).
Proof.
  unfold assign_miniapp, member, bind, ret, assign.
  rewrite obj_get_set_same. unfold ret.
  now rewrite obj_set_twice.
Qed.

Lemma assign_miniapp_if (b : bool) fields m k x w :
  (if b then assign_miniapp (JObj (obj_set "miniapp" (JObj m) fields)) k x
   else ret (JObj (obj_set "miniapp" (JObj m) fields))) w
  = (Returned (JObj (obj_set "miniapp" (JObj (set_if b k x m)) fields)), w).
Proof. destruct b; [apply assign_miniapp_object | reflexivity]. Qed.

(** On a manifest whose [miniapp] is an object, that is read and
    written without error, [updateFarcasterConfig] writes the patch. *)
Lemma updateFarcasterConfig_object w fields m domain names :
  manifest (fs w) = Some (Document (JObj fields)) ->
  obj_get "miniapp" fields = Some (JObj m) ->
  read_manifest_fault (os w) = None ->
  write_manifest_fault (os w) = None ->
  Screenshots.updateFarcasterConfig domain names w
  = (Returned tt,
     with_miniapp w fields
       (screenshot_patch ("https://" ++ template domain)
          (Screenshots.embed names) (Screenshots.splash names) m)).
Proof.
  intros Hman Hmini Hread Hwrite.
  unfold Screenshots.updateFarcasterConfig.
  apply try_catch_returned.
  unfold bind at 1, existsSync_manifest, gets. rewrite Hman. cbn [negb].
  unfold bind at 1, readFileSync_manifest. rewrite Hread, Hman.
  unfold bind at 1, JSON_parse, ret at 1.
  unfold bind at 1, member, ret at 1. rewrite Hmini. cbn [truthy_opt truthy].
  replace (JObj fields) with (JObj (obj_set "miniapp" (JObj m) fields))
    by (now rewrite (obj_set_same _ _ Hmini)).
  unfold bind at 1. unfold bind at 1. rewrite assign_miniapp_if.
  unfold bind at 1. rewrite assign_miniapp_if.
  unfold bind at 1. rewrite assign_miniapp_object.
  rewrite assign_miniapp_object.
  unfold writeFileSync_manifest. rewrite Hwrite. reflexivity.
Qed.

Lemma miniapp_field_written w fields m' k :
  miniapp_field (manifest (fs (with_miniapp w fields m'))) k
  = option_map stringify_parse (obj_get k m').
Proof.
  unfold with_miniapp, JSON_stringify. cbn [fs manifest with_fs].
  rewrite stringify_parse_object. cbn [miniapp_field].
  rewrite obj_get_written, obj_get_set_same. cbn [option_map].
  rewrite stringify_parse_object. apply obj_get_written.
Qed.

End ScreenshotPatch.

(** C5, as the code has it.  On a manifest whose [miniapp] is an
    object, read and written without error, [updateFarcasterConfig]
    sets [miniapp.homeUrl] to [https://<domain>] and
    [miniapp.webhookUrl] to [https://<domain>/api/webhook] whatever the
    file names are, and sets [miniapp.imageUrl] and
    [miniapp.splashImageUrl] to [https://<domain>/images/<file name>]
    for each file name that is given and not empty; otherwise the field
    is written back from the value it had, and is absent when it was
    absent. *)
Theorem updateFarcasterConfig_sets_urls
  (w : World.world) (fields m : list (string * Json.json))
  (domain : option string) (names : Screenshots.screenshot_filenames) :
  World.manifest (World.fs w) = Some (World.Document (Json.JObj fields)) ->
  Json.obj_get "miniapp" fields = Some (Json.JObj m) ->
  World.read_manifest_fault (World.os w) = None ->
  World.write_manifest_fault (World.os w) = None ->
  exists w',
    Screenshots.updateFarcasterConfig domain names w = (World.Returned tt, w')
    /\ let field := Vocabulary.miniapp_field (World.manifest (World.fs w')) in
       let baseUrl := "https://" ++ JsString.template domain in
       field "homeUrl" = Some (Json.JStr baseUrl)
       /\ field "webhookUrl" = Some (Json.JStr (baseUrl ++ "/api/webhook"))
       /\ field "imageUrl"
          = (if JsString.nonempty (Screenshots.embed names)
             then Some (Json.JStr (baseUrl ++ "/images/"
                                   ++ JsString.template (Screenshots.embed names)))
             else option_map Json.stringify_parse (Json.obj_get "imageUrl" m))
       /\ field "splashImageUrl"
          = (if JsString.nonempty (Screenshots.splash names)
             then Some (Json.JStr (baseUrl ++ "/images/"
                                   ++ JsString.template (Screenshots.splash names)))
             else option_map Json.stringify_parse (Json.obj_get "splashImageUrl" m)).
Proof.
  intros Hman Hmini Hread Hwrite.
  eexists. split.
  - eapply ScreenshotPatch.updateFarcasterConfig_object; eassumption.
  - cbv zeta. rewrite !ScreenshotPatch.miniapp_field_written.
    unfold Vocabulary.screenshot_patch, Vocabulary.set_if.
    repeat split.
    + rewrite Frame.obj_get_set_other by discriminate.
      now rewrite Frame.obj_get_set_same.
    + now rewrite Frame.obj_get_set_same.
    + rewrite !Frame.obj_get_set_other by discriminate.
      destruct (JsString.nonempty (Screenshots.splash names));
        [rewrite Frame.obj_get_set_other by discriminate|];
        (destruct (JsString.nonempty (Screenshots.embed names));
         [now rewrite Frame.obj_get_set_same | reflexivity]).
    + rewrite !Frame.obj_get_set_other by discriminate.
      destruct (JsString.nonempty (Screenshots.splash names));
        [now rewrite Frame.obj_get_set_same|].
      destruct (JsString.nonempty (Screenshots.embed names));
        [now rewrite Frame.obj_get_set_other by discriminate | reflexivity].
Qed.

Lemma updateFarcasterConfig_sets_urls_witness :
  World.manifest (World.fs Sample.world0)
  = Some (World.Document (Json.JObj Sample.document_fields))
  /\ Json.obj_get "miniapp" Sample.document_fields
     = Some (Json.JObj Sample.miniapp_object)
  /\ World.read_manifest_fault (World.os Sample.world0) = None
  /\ World.write_manifest_fault (World.os Sample.world0) = None
  /\ exists w',
       Screenshots.updateFarcasterConfig (Some "app.example")
         (Screenshots.mk_filenames (Some "e.png") None) Sample.world0
       = (World.Returned tt, w')
       /\ Vocabulary.miniapp_field (World.manifest (World.fs w')) "homeUrl"
          = Some (Json.JStr "https://app.example")
       /\ Vocabulary.miniapp_field (World.manifest (World.fs w')) "webhookUrl"
          = Some (Json.JStr "https://app.example/api/webhook")
       /\ Vocabulary.miniapp_field (World.manifest (World.fs w')) "imageUrl"
          = Some (Json.JStr "https://app.example/images/e.png")
       /\ Vocabulary.miniapp_field (World.manifest (World.fs w')) "splashImageUrl"
          = None.
Proof.
  split; [reflexivity|]. split; [reflexivity|].
  split; [reflexivity|]. split; [reflexivity|].
  destruct (updateFarcasterConfig_sets_urls Sample.world0
              (fields := Sample.document_fields) (m := Sample.miniapp_object)
              (Some "app.example")
              (Screenshots.mk_filenames (Some "e.png") None)
              eq_refl eq_refl eq_refl eq_refl)
    as (w' & Hrun & Hhome & Hhook & Himage & Hsplash).
  exists w'. repeat split; assumption.
Defined.

(** C5 as it is stated fails on a manifest that has no [miniapp] (here
    one of the older layout, with [frame]): the patcher writes the
    document back as it is, and no [miniapp] field holds an address of
    the domain. *)
Lemma updateFarcasterConfig_without_miniapp :
  let run :=
    Screenshots.updateFarcasterConfig (Some "app.example")
      (Screenshots.mk_filenames (Some "e.png") (Some "s.png")) Sample.world_frame in
  fst run = World.Returned tt
  /\ World.manifest (World.fs (snd run))
     = Some (World.Document Sample.frame_document)
  /\ Vocabulary.miniapp_field (World.manifest (World.fs (snd run))) "homeUrl"
     <> Some (Json.JStr "https://app.example")
  /\ Vocabulary.miniapp_field (World.manifest (World.fs (snd run))) "webhookUrl"
     <> Some (Json.JStr "https://app.example/api/webhook")
  /\ Vocabulary.miniapp_field (World.manifest (World.fs (snd run))) "imageUrl"
     <> Some (Json.JStr "https://app.example/images/e.png")
  /\ Vocabulary.miniapp_field (World.manifest (World.fs (snd run))) "splashImageUrl"
     <> Some (Json.JStr "https://app.example/images/s.png").
Proof.
  cbv zeta. repeat split; try reflexivity; vm_compute; discriminate.
Qed.

(** ** The patch of the icon script *)

Module IconPatch.
Import JsString Json Vocabulary World Node Run Frame ScreenshotPatch.

(** On a manifest whose [miniapp] is an object, that is read and
    written without error, and when the address of the site is found,
    [updateFarcasterConfigWithIcon] writes the patch. *)
Lemma updateFarcasterConfigWithIcon_object w fields m icon domain :
  manifest (fs w) = Some (Document (JObj fields)) ->
  obj_get "miniapp" fields = Some (JObj m) ->
  read_manifest_fault (os w) = None ->
  write_manifest_fault (os w) = None ->
  resolved_domain w m = Some domain ->
  FluxIcon.updateFarcasterConfigWithIcon icon w
  = (Returned tt, with_miniapp w fields (icon_patch domain icon m)).
Proof.
  intros Hman Hmini Hread Hwrite Hdomain.
  unfold FluxIcon.updateFarcasterConfigWithIcon.
  apply try_catch_returned.
  unfold bind at 1, existsSync_manifest, gets. rewrite Hman. cbn [negb].
  unfold bind at 1, readFileSync_manifest. rewrite Hread, Hman.
  unfold bind at 1, JSON_parse, ret at 1.
  unfold bind at 1, member, ret at 1. rewrite Hmini.
  unfold bind at 1, optional_member, member, ret at 1.
  cbn [truthy_opt truthy andb].
  replace (JObj fields) with (JObj (obj_set "miniapp" (JObj m) fields))
    by (now rewrite (obj_set_same _ _ Hmini)).
  assert (Hresolve :
            match obj_get "homeUrl" m with
            | Some url =>
                if truthy url then FluxIcon.new_URL_origin url
                else
                  bind (fun w0 => (Returned (env w0 "NEXT_PUBLIC_APP_DOMAIN"), w0))
                    (fun appDomain => ret ("https://" ++ template appDomain))
            | None =>
                bind (fun w0 => (Returned (env w0 "NEXT_PUBLIC_APP_DOMAIN"), w0))
                  (fun appDomain => ret ("https://" ++ template appDomain))
            end w = (Returned domain, w)).
  { unfold resolved_domain in Hdomain.
    destruct (obj_get "homeUrl" m) as [url|]; [destruct (truthy url)|].
    - unfold FluxIcon.new_URL_origin. now rewrite Hdomain.
    - injection Hdomain as <-. reflexivity.
    - injection Hdomain as <-. reflexivity. }
  rewrite (bind_returned _ _ _ Hresolve).
  unfold bind at 1. rewrite (assign_miniapp_if (nonempty icon)).
  unfold writeFileSync_manifest. rewrite Hwrite. reflexivity.
Qed.

End IconPatch.

(** C6, as the code has it.  On a manifest whose [miniapp] is an
    object, read and written without error, and for an icon file name
    that is not empty, [updateFarcasterConfigWithIcon] sets
    [miniapp.iconUrl] to [<domain>/images/<icon file name>], where
    [<domain>] is the origin of [miniapp.homeUrl] when that field holds
    a truthy value (a string that is not empty) whose origin exists,
    and [https://<NEXT_PUBLIC_APP_DOMAIN>] when the field is absent or
    holds a falsy value. *)
Theorem updateFarcasterConfigWithIcon_sets_iconUrl
  (w : World.world) (fields m : list (string * Json.json)) (icon : string) :
  World.manifest (World.fs w) = Some (World.Document (Json.JObj fields)) ->
  Json.obj_get "miniapp" fields = Some (Json.JObj m) ->
  World.read_manifest_fault (World.os w) = None ->
  World.write_manifest_fault (World.os w) = None ->
  icon <> "" ->
  let after :=
    World.manifest
      (World.fs (snd (FluxIcon.updateFarcasterConfigWithIcon (Some icon) w))) in
  (forall url origin,
      Json.obj_get "homeUrl" m = Some url ->
      Json.truthy url = true ->
      World.URL_origin w (Json.ToString (World.Number_toString w) url) = Some origin ->
      Vocabulary.miniapp_field after "iconUrl"
      = Some (Json.JStr (origin ++ "/images/" ++ icon)))
  /\ (Json.truthy_opt (Json.obj_get "homeUrl" m) = false ->
      Vocabulary.miniapp_field after "iconUrl"
      = Some (Json.JStr ("https://"
                         ++ JsString.template (World.env w "NEXT_PUBLIC_APP_DOMAIN")
                         ++ "/images/" ++ icon))).
Proof.
  intros Hman Hmini Hread Hwrite Hicon. cbv zeta.
  assert (Hrun : forall domain,
             Vocabulary.resolved_domain w m = Some domain ->
             Vocabulary.miniapp_field
               (World.manifest
                  (World.fs (snd (FluxIcon.updateFarcasterConfigWithIcon (Some icon) w))))
               "iconUrl"
             = Some (Json.JStr (domain ++ "/images/" ++ icon))).
  { intros domain Hdomain.
    rewrite (IconPatch.updateFarcasterConfigWithIcon_object
               w (Some icon) Hman Hmini Hread Hwrite Hdomain).
    cbn [snd]. rewrite ScreenshotPatch.miniapp_field_written.
    unfold Vocabulary.icon_patch, Vocabulary.set_if.
    destruct icon as [|c icon]; [now elim Hicon|].
    cbn [JsString.nonempty JsString.template].
    now rewrite Frame.obj_get_set_same. }
  split.
  - intros url origin Hurl Htruthy Horigin. apply Hrun.
    unfold Vocabulary.resolved_domain. now rewrite Hurl, Htruthy.
  - intros Hfalsy. 
    replace ("https://" ++ JsString.template (World.env w "NEXT_PUBLIC_APP_DOMAIN")
             ++ "/images/" ++ icon)
      with (("https://" ++ JsString.template (World.env w "NEXT_PUBLIC_APP_DOMAIN"))
            ++ "/images/" ++ icon) by reflexivity.
    apply Hrun.
    unfold Vocabulary.resolved_domain.
    destruct (Json.obj_get "homeUrl" m) as [url|]; [|reflexivity].
    cbn in Hfalsy. now rewrite Hfalsy.
Qed.

Lemma updateFarcasterConfigWithIcon_sets_iconUrl_witness :
  World.manifest (World.fs Sample.world0)
  = Some (World.Document (Json.JObj Sample.document_fields))
  /\ Json.obj_get "miniapp" Sample.document_fields
     = Some (Json.JObj Sample.miniapp_object)
  /\ World.read_manifest_fault (World.os Sample.world0) = None
  /\ World.write_manifest_fault (World.os Sample.world0) = None
  /\ "flux-icon-1.png" <> ""
  /\ Vocabulary.miniapp_field
       (World.manifest
          (World.fs (snd (FluxIcon.updateFarcasterConfigWithIcon
                            (Some "flux-icon-1.png") Sample.world0))))
       "iconUrl"
     = Some (Json.JStr "https://old.example/images/flux-icon-1.png").
Proof.
  split; [reflexivity|]. split; [reflexivity|].
  split; [reflexivity|]. split; [reflexivity|].
  split; [discriminate|].
  refine (proj1 (updateFarcasterConfigWithIcon_sets_iconUrl Sample.world0
                   (fields := Sample.document_fields) (m := Sample.miniapp_object)
                   (icon := "flux-icon-1.png")
                   eq_refl eq_refl eq_refl eq_refl _)
            (Json.JStr "https://old.example/app") "https://old.example"
            eq_refl eq_refl eq_refl).
  discriminate.
Defined.

(** C6 as it is stated fails on two manifests.  One has a [homeUrl]
    that is there and empty: the field is present, and the address is
    taken from the environment.  The other has no [miniapp]: no
    [iconUrl] is set. *)
Lemma updateFarcasterConfigWithIcon_blank_homeUrl :
  let blank :=
    snd (FluxIcon.updateFarcasterConfigWithIcon (Some "flux-icon-1.png")
           Sample.world_blank) in
  let frame :=
    snd (FluxIcon.updateFarcasterConfigWithIcon (Some "flux-icon-1.png")
           Sample.world_frame) in
  Vocabulary.miniapp_field (World.manifest (World.fs Sample.world_blank)) "homeUrl"
  = Some (Json.JStr "")
  /\ World.URL_origin Sample.world_blank "" = None
  /\ Vocabulary.miniapp_field (World.manifest (World.fs blank)) "iconUrl"
     = Some (Json.JStr "https://app.example/images/flux-icon-1.png")
  /\ World.manifest (World.fs frame) = Some (World.Document Sample.frame_document)
  /\ Vocabulary.miniapp_field (World.manifest (World.fs frame)) "iconUrl" = None.
Proof.
  cbv zeta. repeat split.
Qed.

(** ** [generateIcon] *)

Module Icon.
Import JsString Json Vocabulary World Node Run.

Lemma generateIcon_cases w together prompt dimensions :
  icon_run w together prompt dimensions
    (FluxIcon.generateIcon together prompt dimensions w).
Proof.
  unfold FluxIcon.generateIcon. cbv zeta.
  unfold try_catch, bind at 1, gets at 1.
  unfold bind at 1, images_create.
  unfold bind at 1, emit.
  unfold bind at 1, gets at 1. cbn [images_api with_trace].
  fold (icon_request w prompt dimensions).
  destruct (images_api w together (icon_request w prompt dimensions))
    as [e|r] eqn:Eapi.
  - cbn. now apply run_rejected.
  - unfold ret at 1.
    assert (Hnot_lacking : forall d rest c b64,
               data r = Some (d :: rest) -> b64_json d = Some (String c b64) ->
               ~ lacks_results r /\ ~ lacks_base64 r).
    { intros d rest c b64 Hdata Hb64. split.
      - intros [H|H]; congruence.
      - intros (d' & rest' & Hdata' & [H|H]); congruence. }
    destruct r as [[results|]]; unfold FluxIcon.no_image_data; cbn [data].
    + destruct results as [|d rest]; cbn [List.length Nat.eqb].
      * apply run_no_results with (r := mk_images_response (Some [])); auto.
        now right.
      * destruct d as [[b64|]]; cbn [b64_json nonempty negb].
        -- destruct b64 as [|c b64]; cbn [nonempty negb].
           ++ apply run_no_base64 with (r := mk_images_response (Some (mk_datum (Some "") :: rest)));
                auto.
              eexists _, _. split; [reflexivity|]. now right.
           ++ destruct (Hnot_lacking _ _ _ _ eq_refl eq_refl) as [Hres Hb64].
              unfold bind at 1, FluxIcon.generateFilename, bind at 1,
                now_toISOString, ret at 1.
              cbn [clock dates with_trace].
              change ("flux" ++ "-" ++ "icon" ++ "-"
                      ++ replace_colon_dot (clock w (dates w)) ++ ".png")
                with (icon_name w).
              unfold FluxIcon.downloadAndSaveImage, try_catch.
              unfold bind at 1, ret at 1.
              unfold bind at 1, gets at 1.
              unfold bind at 1, existsSync_images, gets at 1.
              cbn [fs cwd path_join with_dates with_trace].
              destruct (images (fs w)) as [entries|] eqn:Edir; cbn [negb].
              ** unfold bind at 1, ret at 1.
                 unfold bind at 1, gets at 1.
                 cbn [cwd path_join with_dates with_trace].
                 fold (image_path w (icon_name w)).
                 unfold bind at 1, writeFileSync_image.
                 cbn [os fs with_dates with_trace]. rewrite Edir.
                 destruct (write_image_fault (os w) (icon_name w)) as [msg|] eqn:Ew.
                 --- cbn. apply run_save_failed with (r := mk_images_response (Some (mk_datum (Some (String c b64)) :: rest)));
                       auto.
                     right. congruence.
                 --- cbn. apply run_saved with (r := mk_images_response (Some (mk_datum (Some (String c b64)) :: rest)));
                       auto.
                     intros [[H _]|H]; congruence.
              ** unfold bind at 1, mkdirSync_images.
                 cbn [os fs with_dates with_trace]. rewrite Edir.
                 destruct (mkdir_fault (os w)) as [msg|] eqn:Em.
                 --- cbn. apply run_save_failed with (r := mk_images_response (Some (mk_datum (Some (String c b64)) :: rest)));
                       auto.
                     left. split; congruence.
                 --- unfold bind at 1, gets at 1.
                     cbn [cwd path_join with_dates with_trace with_fs].
                     fold (image_path w (icon_name w)).
                     unfold bind at 1, writeFileSync_image.
                     cbn [os fs with_dates with_trace with_fs images].
                     destruct (write_image_fault (os w) (icon_name w)) as [msg|] eqn:Ew.
                     +++ cbn. apply run_save_failed with (r := mk_images_response (Some (mk_datum (Some (String c b64)) :: rest)));
                           auto.
                         right. congruence.
                     +++ cbn. apply run_saved with (r := mk_images_response (Some (mk_datum (Some (String c b64)) :: rest)));
                           auto.
                         intros [[_ H]|H]; congruence.
        -- apply run_no_base64 with (r := mk_images_response (Some (mk_datum None :: rest)));
             auto.
           eexists _, _. split; [reflexivity|]. now left.
    + apply run_no_results with (r := mk_images_response None); auto.
      now left.
Qed.

End Icon.

(** C3, as the code has it.  [generateIcon] raises exactly when the
    call of the image service is itself rejected, or its response has
    no result list or an empty one, or the first result has no base64
    text, or saving the file fails; in every other case it returns the
    saved name with its path under the working directory.  In the
    first three cases nothing was written: the file system is as it
    was. *)
Theorem generateIcon_raises_iff
  (w : World.world) (together : World.Together) (prompt : string)
  (dimensions : option World.viewport) :
  let answer :=
    World.images_api w together (Vocabulary.icon_request w prompt dimensions) in
  let run := FluxIcon.generateIcon together prompt dimensions w in
  (Vocabulary.raises run
   <-> (exists e, answer = World.ImagesRejected e)
       \/ (exists r, answer = World.ImagesResolved r
                     /\ (Vocabulary.lacks_results r
                         \/ Vocabulary.lacks_base64 r
                         \/ Vocabulary.save_fails w (Vocabulary.icon_name w))))
  /\ ((exists e, answer = World.ImagesRejected e)
      \/ (exists r, answer = World.ImagesResolved r
                    /\ (Vocabulary.lacks_results r \/ Vocabulary.lacks_base64 r)) ->
      World.fs (snd run) = World.fs w)
  /\ (Vocabulary.raises run
      \/ fst run
         = World.Returned
             (FluxIcon.mk_saved (Vocabulary.icon_name w)
                (Vocabulary.image_path w (Vocabulary.icon_name w)))).
Proof.
  cbv zeta. unfold Vocabulary.raises.
  destruct (Icon.generateIcon_cases w together prompt dimensions)
    as [e w' Hapi Hfs | r e w' Hapi Hres Hfs | r e w' Hapi Hb64 Hfs
        | r e w' Hapi Hres Hb64 Hsave | r w' Hapi Hres Hb64 Hsave];
    rewrite Hapi; cbn [fst snd].
  - split; [|split].
    + split; intros _; eauto.
    + intros _. exact Hfs.
    + left. eauto.
  - split; [|split].
    + split; intros _; [right; exists r; auto | eauto].
    + intros _. exact Hfs.
    + left. eauto.
  - split; [|split].
    + split; intros _; [right; exists r; auto | eauto].
    + intros _. exact Hfs.
    + left. eauto.
  - split; [|split].
    + split; intros _; [right; exists r; auto | eauto].
    + intros [[e' H]|(r' & H & Hlack)]; [discriminate|].
      injection H as <-. tauto.
    + left. eauto.
  - split; [|split].
    + split.
      * intros [e H]. discriminate.
      * intros [[e' H]|(r' & H & Hlack)]; [discriminate|].
        injection H as <-. tauto.
    + intros [[e' H]|(r' & H & Hlack)]; [discriminate|].
      injection H as <-. tauto.
    + right. reflexivity.
Qed.

Lemma generateIcon_raises_iff_witness :
  let w := Sample.world_rate_limited in
  let together := World.mk_together "key" in
  let run := FluxIcon.generateIcon together "an icon" None w in
  (exists e,
      World.images_api w together (Vocabulary.icon_request w "an icon" None)
      = World.ImagesRejected e)
  /\ Vocabulary.raises run
  /\ World.fs (snd run) = World.fs w.
Proof.
  cbv zeta.
  pose proof (generateIcon_raises_iff Sample.world_rate_limited
                (World.mk_together "key") "an icon" None) as (Hiff & Hfs & _).
  assert (Hrejected :
            exists e,
              World.images_api Sample.world_rate_limited (World.mk_together "key")
                (Vocabulary.icon_request Sample.world_rate_limited "an icon" None)
              = World.ImagesRejected e)
    by (eexists; reflexivity).
  split; [exact Hrejected|].
  split; [apply Hiff; left; exact Hrejected | apply Hfs; left; exact Hrejected].
Defined.

(** C3 as it is stated fails when the image service refuses the request
    (a rate limit, say): [generateIcon] raises, and there is no
    response whose result list or base64 text could be missing. *)
Lemma generateIcon_raises_without_response :
  let w := Sample.world_rate_limited in
  let together := World.mk_together "key" in
  let run := FluxIcon.generateIcon together "an icon" None w in
  Vocabulary.raises run
  /\ ~ (exists r,
          World.images_api w together (Vocabulary.icon_request w "an icon" None)
          = World.ImagesResolved r
          /\ (Vocabulary.lacks_results r
              \/ Vocabulary.lacks_base64 r
              \/ Vocabulary.save_fails w (Vocabulary.icon_name w))).
Proof.
  cbv zeta. split.
  - eexists. reflexivity.
  - intros (r & H & _). discriminate H.
Qed.

(** ** What computations do to the trace *)

Module Traces.
Import JsString Json Vocabulary World Node Run.

Section Respects.
Context {R : world -> world -> Prop} `{Stable R}.

Lemma respects_ret {A} (a : A) : respects R (ret a).
Proof. intros w. apply stable_refl. Qed.

Lemma respects_throw {A} e : respects R (throw (A := A) e).
Proof. intros w. apply stable_refl. Qed.

Lemma respects_process_exit {A} c : respects R (process_exit (A := A) c).
Proof. intros w. apply stable_refl. Qed.

Lemma respects_gets {A} (f : world -> A) : respects R (gets f).
Proof. intros w. apply stable_refl. Qed.

Lemma respects_bind {A B} (m : js A) (k : A -> js B) :
  respects R m -> (forall a, respects R (k a)) -> respects R (bind m k).
Proof.
  intros Hm Hk w. unfold bind. specialize (Hm w).
  destruct (m w) as [[a|e|c] w1]; cbn [snd] in *; auto.
  eapply stable_trans; [exact Hm | apply Hk].
Qed.

Lemma respects_try_catch {A} (body : js A) handler :
  respects R body -> (forall e, respects R (handler e)) ->
  respects R (try_catch body handler).
Proof.
  intros Hb Hh w. unfold try_catch. specialize (Hb w).
  destruct (body w) as [[a|e|c] w1]; cbn [snd] in *; auto.
  eapply stable_trans; [exact Hb | apply Hh].
Qed.

Lemma respects_forEach {A} (xs : list A) (f : A -> js unit) :
  (forall x, respects R (f x)) -> respects R (forEach xs f).
Proof.
  intros Hf. induction xs as [|x xs IH]; cbn [forEach].
  - apply respects_ret.
  - apply respects_bind; auto.
Qed.

Ltac primitive_respects :=
  intros w;
  repeat match goal with
         | |- context [match ?x with _ => _ end] => destruct x
         end;
  cbn [snd];
  first [apply stable_refl | apply stable_fs | apply stable_dates].

Lemma respects_mkdirSync_images : respects R mkdirSync_images.
Proof. unfold mkdirSync_images, system_error, throw. primitive_respects. Qed.

Lemma respects_readdirSync_images : respects R readdirSync_images.
Proof. unfold readdirSync_images, system_error, throw. primitive_respects. Qed.

Lemma respects_unlinkSync_image name : respects R (unlinkSync_image name).
Proof. unfold unlinkSync_image, system_error, throw. primitive_respects. Qed.

Lemma respects_writeFileSync_image name b :
  respects R (writeFileSync_image name b).
Proof. unfold writeFileSync_image, system_error, throw. primitive_respects. Qed.

Lemma respects_readFileSync_manifest : respects R readFileSync_manifest.
Proof. unfold readFileSync_manifest, system_error, throw. primitive_respects. Qed.

Lemma respects_writeFileSync_manifest text :
  respects R (writeFileSync_manifest text).
Proof. unfold writeFileSync_manifest, system_error, throw. primitive_respects. Qed.

Lemma respects_now_toISOString : respects R now_toISOString.
Proof. intros w. apply stable_dates. Qed.

Lemma respects_new_URL_origin v : respects R (FluxIcon.new_URL_origin v).
Proof. unfold FluxIcon.new_URL_origin. primitive_respects. Qed.

End Respects.

#[export] Instance trace_grows_stable : Stable trace_grows.
Proof.
  split.
  - intros w. exists []. now rewrite app_nil_r.
  - intros a b c [t1 H1] [t2 H2]. exists (t1 ++ t2)%list.
    now rewrite H2, H1, app_assoc.
  - intros w f. exists []. cbn. now rewrite app_nil_r.
  - intros w n. exists []. cbn. now rewrite app_nil_r.
Qed.

#[export] Instance warns_only_stable : Stable warns_only.
Proof.
  split.
  - intros w. exists []. cbn. now rewrite app_nil_r.
  - intros a b c [t1 H1] [t2 H2]. exists (t1 ++ t2)%list.
    now rewrite H2, H1, map_app, app_assoc.
  - intros w f. exists []. cbn. now rewrite app_nil_r.
  - intros w n. exists []. cbn. now rewrite app_nil_r.
Qed.

Lemma trace_grows_emit e : respects trace_grows (emit e).
Proof. intros w. now exists [e]. Qed.

Lemma warns_only_console_warn line : respects warns_only (console_warn line).
Proof. intros w. now exists [line]. Qed.

Create HintDb respects.

#[export] Hint Resolve respects_ret respects_throw respects_process_exit
  respects_gets respects_mkdirSync_images respects_readdirSync_images
  respects_unlinkSync_image respects_writeFileSync_image
  respects_readFileSync_manifest respects_writeFileSync_manifest
  respects_now_toISOString respects_new_URL_origin
  trace_grows_emit warns_only_console_warn : respects.

(** Goes through a computation built from the operations above. *)
Ltac respects_step :=
  first
    [ solve [auto with respects typeclass_instances]
    | apply respects_bind; [|intros ?]
    | apply respects_try_catch; [|intros ?]
    | apply respects_forEach; intros ?
    | match goal with
      | |- respects _ (if ?b then _ else _) => destruct b
      | |- respects _ (match ?x with _ => _ end) => destruct x
      | |- respects _ (let _ := _ in _) => cbv zeta
      end
    | progress unfold existsSync_images, existsSync_manifest, JSON_parse,
        member, optional_member, assign, assign_miniapp, fetch, images_create,
        setTimeout_seconds
    | progress unfold console_warn, console_error ].

Ltac respects_tac := repeat respects_step.

Lemma sweep_warns names : respects warns_only (sweep names).
Proof. unfold sweep. respects_tac. Qed.

Lemma clearExistingIcons_warns : respects warns_only FluxIcon.clearExistingIcons.
Proof. unfold FluxIcon.clearExistingIcons. respects_tac. Qed.

Lemma getAppNameFromConfig_warns :
  respects warns_only FluxIcon.getAppNameFromConfig.
Proof. unfold FluxIcon.getAppNameFromConfig. respects_tac. Qed.

Lemma updateFarcasterConfigWithIcon_grows icon :
  respects trace_grows (FluxIcon.updateFarcasterConfigWithIcon icon).
Proof. unfold FluxIcon.updateFarcasterConfigWithIcon. respects_tac. Qed.

Lemma downloadAndSaveImage_grows data name isBase64 :
  respects trace_grows (FluxIcon.downloadAndSaveImage data name isBase64).
Proof. unfold FluxIcon.downloadAndSaveImage. respects_tac. Qed.

End Traces.

(** ** The name of the app and the prompt *)

Module Prompt.
Import JsString Json Vocabulary World Node Run Exits Traces.

Lemma getAppNameFromConfig_value w :
  fst (FluxIcon.getAppNameFromConfig w) = Returned (app_name w).
Proof.
  unfold FluxIcon.getAppNameFromConfig, app_name, miniapp_field.
  unfold try_catch, bind at 1, readFileSync_manifest.
  destruct (read_manifest_fault (os w)); [reflexivity|].
  destruct (manifest (fs w)) as [[msg|config]|]; try reflexivity.
  unfold bind at 1, JSON_parse, ret at 1.
  destruct config as [| | | | |fields]; try reflexivity.
  unfold bind at 1, member, ret at 1.
  destruct (obj_get "miniapp" fields) as [miniapp|]; [|reflexivity].
  destruct miniapp as [| | | | |m]; try reflexivity.
Qed.

Lemma getAppNameFromConfig_always_returns :
  always_returns FluxIcon.getAppNameFromConfig.
Proof.
  apply Exits.try_catch_always_returns.
  - Exits.never_exits_tac.
  - intros e w. eexists _, _. reflexivity.
Qed.

#[export] Instance same_setting_stable : Stable same_setting.
Proof.
  split.
  - apply Cleaner.same_setting_refl.
  - apply Cleaner.same_setting_trans.
  - intros w f. repeat split.
  - intros w n. repeat split.
Qed.

Lemma same_setting_emit e : respects same_setting (emit e).
Proof. intros w. repeat split. Qed.

Lemma getAppNameFromConfig_setting :
  respects same_setting FluxIcon.getAppNameFromConfig.
Proof.
  pose proof same_setting_emit.
  unfold FluxIcon.getAppNameFromConfig. Traces.respects_tac.
Qed.

Lemma clearExistingIcons_setting :
  respects same_setting FluxIcon.clearExistingIcons.
Proof.
  pose proof same_setting_emit.
  unfold FluxIcon.clearExistingIcons. Traces.respects_tac.
Qed.

(** The icon cleaner returns when the directory can be listed. *)
Lemma clearExistingIcons_returns w :
  readdir_fault (os w) = None ->
  exists w', FluxIcon.clearExistingIcons w = (Returned tt, w').
Proof.
  intros Hdir. destruct (images (fs w)) as [cur|] eqn:Ecur.
  - destruct (Cleaner.clearExistingIcons_spec w Ecur Hdir) as (w' & H & _).
    now exists w'.
  - exists w. now apply Cleaner.cleaners_without_directory.
Qed.

(** The template holds the name between quotes. *)
Lemma generateIconPrompt_contains name :
  contains (FluxIcon.generateIconPrompt name) ("'" ++ name ++ "'").
Proof.
  exists "Create a clean, minimalist app icon with the text ",
    " in bold, modern typography. Square format, centered text, simple background, high contrast, professional design suitable for mobile app icon. Clean and readable at small sizes.".
  unfold FluxIcon.generateIconPrompt. cbn [append].
  now rewrite Filename.append_assoc.
Qed.

Lemma includes_contains s t : contains s t -> includes s t = true.
Proof.
  intros (before & after & ->).
  induction before as [|c before IH].
  - cbn [append]. destruct (t ++ after) eqn:E; cbn [includes];
      rewrite <- E, StringFacts.startsWith_app; reflexivity.
  - cbn [append includes]. rewrite IH. apply orb_true_r.
Qed.

End Prompt.

(** ** The request of the icon script *)

Module IconRequest.
Import JsString Json Vocabulary World Node Run Exits Traces Prompt.

Lemma sends_images_create together r w :
  sends (ImagesCreated together r) (images_create together r) w.
Proof.
  unfold sends, images_create. eexists. split; [|reflexivity].
  respects_tac.
Qed.

Lemma sends_bind {A B} e (m : js A) (k : A -> js B) w :
  sends e m w -> (forall a, respects trace_grows (k a)) -> sends e (bind m k) w.
Proof.
  intros (rest & Hrest & Hrun) Hk. exists (bind rest k). split.
  - now apply respects_bind.
  - unfold bind. now rewrite Hrun.
Qed.

Lemma sends_try_catch {A} e (body : js A) handler w :
  sends e body w -> (forall err, respects trace_grows (handler err)) ->
  sends e (try_catch body handler) w.
Proof.
  intros (rest & Hrest & Hrun) Hh. exists (try_catch rest handler). split.
  - now apply respects_try_catch.
  - unfold try_catch. now rewrite Hrun.
Qed.

Lemma sends_gets {A B} e (f : world -> A) (k : A -> js B) w :
  sends e (k (f w)) w -> sends e (bind (gets f) k) w.
Proof.
  intros (rest & Hrest & Hrun). exists rest. split; [exact Hrest|].
  unfold bind, gets. exact Hrun.
Qed.

Lemma sends_trace {A} e (m : js A) w :
  sends e m w -> exists after, trace (snd (m w)) = (trace w ++ e :: after)%list.
Proof.
  intros (rest & Hrest & ->).
  destruct (Hrest (with_trace w (trace w ++ [e])%list)) as [after Hafter].
  exists after. rewrite Hafter. cbn [trace with_trace].
  now rewrite <- app_assoc.
Qed.

(** [generateIcon] starts by its request. *)
Lemma generateIcon_sends together prompt dimensions w :
  sends (ImagesCreated together (icon_request w prompt dimensions))
    (FluxIcon.generateIcon together prompt dimensions) w.
Proof.
  unfold FluxIcon.generateIcon. cbv zeta.
  apply sends_try_catch; [|intros err; respects_tac].
  apply sends_gets. apply sends_bind.
  - apply sends_images_create.
  - intros response. pose proof downloadAndSaveImage_grows.
    unfold FluxIcon.generateFilename. respects_tac.
Qed.

Lemma try_catch_from {A} (body body' : js A) handler w w' :
  body w = body' w' -> try_catch body handler w = try_catch body' handler w'.
Proof. unfold try_catch. now intros ->. Qed.

(** With a key, no prompt on the command line and a directory that can
    be listed, [main] gets to its request: after warnings at most, it
    asks for an image with the prompt made from the name of the app. *)
Lemma main_sends_prompt w key :
  env w "TOGETHER_API_KEY" = Some key ->
  nonempty (Some key) = true ->
  nth_error (argv w) 2 = None ->
  readdir_fault (os w) = None ->
  exists warnings after,
    trace (snd (FluxIcon.main w))
    = (trace w ++ map ConsoleWarn warnings
       ++ ImagesCreated (mk_together key)
            (icon_request w
               (FluxIcon.generateIconPrompt
                  (ToString (Number_toString w) (app_name w)))
               (Some FluxIcon.ICON_DIMENSIONS))
          :: after)%list.
Proof.
  intros Hkey Hnonempty Hargv Hdir.
  destruct (getAppNameFromConfig_always_returns w) as (appName & w1 & Hget).
  pose proof (getAppNameFromConfig_value w) as Hval.
  pose proof (getAppNameFromConfig_setting w) as Hset1.
  pose proof (getAppNameFromConfig_warns w) as [lines1 Hwarn1].
  rewrite Hget in Hval, Hset1, Hwarn1. cbn [fst snd] in *.
  injection Hval as ->.
  destruct Hset1 as (Henv1 & Hargv1 & Hos1 & Hnum1 & _ & _ & Hrand1 & _).
  assert (Hdir1 : readdir_fault (os w1) = None) by congruence.
  destruct (clearExistingIcons_returns w1 Hdir1) as (w2 & Hclean).
  pose proof (clearExistingIcons_setting w1) as Hset2.
  pose proof (clearExistingIcons_warns w1) as [lines2 Hwarn2].
  rewrite Hclean in Hset2, Hwarn2. cbn [snd] in *.
  destruct Hset2 as (_ & _ & _ & _ & _ & _ & Hrand2 & _).
  unfold FluxIcon.main.
  erewrite try_catch_from with (w' := w2).
  2: { unfold bind at 1, gets at 1. rewrite Hkey, Hnonempty. cbn [negb].
       unfold bind at 1, ret at 1.
       rewrite (bind_returned _ _ _ Hget).
       unfold bind at 1, gets at 1. rewrite Hargv1, Hargv.
       unfold bind at 1, gets at 1. rewrite Hnum1.
       cbv zeta. cbn [nonempty template].
       rewrite (bind_returned _ _ _ Hclean).
       reflexivity. }
  match goal with |- context [try_catch ?body ?handler w2] =>
    assert (Hsends :
              sends (ImagesCreated (mk_together key)
                       (icon_request w2
                          (FluxIcon.generateIconPrompt
                             (ToString (Number_toString w) (app_name w)))
                          (Some FluxIcon.ICON_DIMENSIONS)))
                (try_catch body handler) w2)
  end.
  { apply sends_try_catch.
    - apply sends_bind; [apply generateIcon_sends|].
      intros iconResult. apply updateFarcasterConfigWithIcon_grows.
    - intros err. respects_tac. }
  destruct (sends_trace Hsends) as [after Hafter].
  exists (lines1 ++ lines2)%list, after.
  rewrite Hafter, Hwarn2, Hwarn1, map_app, <- !app_assoc.
  unfold icon_request. now rewrite Hrand2, Hrand1.
Qed.

End IconRequest.

Module AppName.
Import JsString Json Vocabulary World Node Run.

Lemma getAppNameFromConfig_fs w :
  fs (snd (FluxIcon.getAppNameFromConfig w)) = fs w.
Proof.
  unfold FluxIcon.getAppNameFromConfig.
  unfold try_catch, bind at 1, readFileSync_manifest.
  destruct (read_manifest_fault (os w)); [reflexivity|].
  destruct (manifest (fs w)) as [[msg|config]|]; try reflexivity.
  unfold bind at 1, JSON_parse, ret at 1.
  destruct config as [| | | | |fields]; try reflexivity.
  unfold bind at 1, member, ret at 1.
  destruct (obj_get "miniapp" fields) as [miniapp|]; [|reflexivity].
  destruct miniapp as [| | | | |m]; try reflexivity.
Qed.

Lemma app_name_read w name :
  read_manifest_fault (os w) = None ->
  miniapp_field (manifest (fs w)) "name" = Some name ->
  truthy name = true ->
  app_name w = name.
Proof.
  intros Hread Hname Htruthy. unfold app_name.
  now rewrite Hread, Hname, Htruthy.
Qed.

Lemma app_name_placeholder w :
  manifest (fs w) = None
  \/ read_manifest_fault (os w) <> None
  \/ (exists msg, manifest (fs w) = Some (Malformed msg))
  \/ miniapp_field (manifest (fs w)) "name" = None
  \/ (exists name,
        miniapp_field (manifest (fs w)) "name" = Some name /\ truthy name = false) ->
  app_name w = JStr "Mini App".
Proof.
  unfold app_name.
  destruct (read_manifest_fault (os w)) as [msg|]; [reflexivity|].
  intros [H|[H|[[msg H]|[H|(name & H & Hfalsy)]]]].
  - now rewrite H.
  - now elim H.
  - now rewrite H.
  - now rewrite H.
  - now rewrite H, Hfalsy.
Qed.

End AppName.

(** C7.  [getAppNameFromConfig] always returns a name: the value of
    [miniapp.name] when the manifest is read and holds a truthy one (a
    text that is not empty), and [Mini App] when the manifest is
    missing, cannot be read, is not JSON, has no [miniapp.name], or has
    a falsy one.  The prompt made from a name holds that name between
    quotes.  With no prompt on the command line the request [main]
    sends carries the prompt made from that name. *)
Theorem icon_prompt_names_the_app (w : World.world) :
  exists appName w1,
    FluxIcon.getAppNameFromConfig w = (World.Returned appName, w1)
    /\ World.fs w1 = World.fs w
    /\ (forall name,
          World.read_manifest_fault (World.os w) = None ->
          Vocabulary.miniapp_field (World.manifest (World.fs w)) "name" = Some name ->
          Json.truthy name = true ->
          appName = name)
    /\ (World.manifest (World.fs w) = None
        \/ World.read_manifest_fault (World.os w) <> None
        \/ (exists msg, World.manifest (World.fs w) = Some (World.Malformed msg))
        \/ Vocabulary.miniapp_field (World.manifest (World.fs w)) "name" = None
        \/ (exists name,
              Vocabulary.miniapp_field (World.manifest (World.fs w)) "name" = Some name
              /\ Json.truthy name = false) ->
        appName = Json.JStr "Mini App")
    /\ (forall name,
          Vocabulary.contains (FluxIcon.generateIconPrompt name) ("'" ++ name ++ "'")
          /\ JsString.includes (FluxIcon.generateIconPrompt name) ("'" ++ name ++ "'")
             = true)
    /\ (forall key,
          World.env w "TOGETHER_API_KEY" = Some key ->
          JsString.nonempty (Some key) = true ->
          nth_error (World.argv w) 2 = None ->
          World.readdir_fault (World.os w) = None ->
          exists warnings after,
            World.trace (snd (FluxIcon.main w))
            = (World.trace w ++ map World.ConsoleWarn warnings
               ++ World.ImagesCreated (World.mk_together key)
                    (Vocabulary.icon_request w
                       (FluxIcon.generateIconPrompt
                          (Json.ToString (World.Number_toString w) appName))
                       (Some FluxIcon.ICON_DIMENSIONS))
                  :: after)%list).
Proof.
  destruct (Prompt.getAppNameFromConfig_always_returns w) as (appName & w1 & Hget).
  pose proof (Prompt.getAppNameFromConfig_value w) as Hval.
  pose proof (AppName.getAppNameFromConfig_fs w) as Hfs.
  rewrite Hget in Hval, Hfs. cbn [fst snd] in *. injection Hval as ->.
  exists (Vocabulary.app_name w), w1.
  split; [exact Hget|]. split; [exact Hfs|].
  split; [apply AppName.app_name_read|].
  split; [apply AppName.app_name_placeholder|].
  split.
  - intros name. split.
    + apply Prompt.generateIconPrompt_contains.
    + apply Prompt.includes_contains, Prompt.generateIconPrompt_contains.
  - intros key. apply IconRequest.main_sends_prompt.
Qed.

(** The example of the specification: with [miniapp.name] holding
    [Foo] the prompt [main] sends holds ['Foo']. *)
Lemma icon_prompt_names_the_app_witness :
  World.read_manifest_fault (World.os Sample.world0) = None
  /\ Vocabulary.miniapp_field (World.manifest (World.fs Sample.world0)) "name"
     = Some (Json.JStr "Foo")
  /\ Json.truthy (Json.JStr "Foo") = true
  /\ World.env Sample.world0 "TOGETHER_API_KEY" = Some "key"
  /\ nth_error (World.argv Sample.world0) 2 = None
  /\ JsString.includes (FluxIcon.generateIconPrompt "Foo") "'Foo'" = true
  /\ exists w1 warnings after,
       FluxIcon.getAppNameFromConfig Sample.world0
       = (World.Returned (Json.JStr "Foo"), w1)
       /\ World.trace (snd (FluxIcon.main Sample.world0))
          = (World.trace Sample.world0 ++ map World.ConsoleWarn warnings
             ++ World.ImagesCreated (World.mk_together "key")
                  (Vocabulary.icon_request Sample.world0
                     (FluxIcon.generateIconPrompt "Foo")
                     (Some FluxIcon.ICON_DIMENSIONS))
                :: after)%list.
Proof.
  split; [reflexivity|]. split; [reflexivity|]. split; [reflexivity|].
  split; [reflexivity|]. split; [reflexivity|].
  destruct (icon_prompt_names_the_app Sample.world0)
    as (appName & w1 & Hget & _ & Hname & _ & Hprompt & Hmain).
  assert (HFoo : appName = Json.JStr "Foo").
  { apply Hname; reflexivity. }
  subst appName.
  split; [apply (Hprompt "Foo")|].
  destruct (Hmain "key" eq_refl eq_refl eq_refl eq_refl) as (warnings & after & Htrace).
  exists w1, warnings, after. split; [exact Hget | exact Htrace].
Defined.

(** * Further properties of the scripts *)

Unset Implicit Arguments.

(** ** The names of the two pipelines *)

Module Names.
Import JsString Json Vocabulary Behaviour World Node Run.

Lemma startsWith_first s c p :
  startsWith s (String c p) = true -> exists s', s = String c s'.
Proof.
  destruct s as [|d s]; cbn [startsWith]; [discriminate|].
  intros H. apply andb_true_iff in H as [E _].
  apply Ascii.eqb_eq in E. subst d. now exists s.
Qed.

(** No name is an asset of both pipelines. *)
Lemma assets_apart name :
  Screenshots.is_screenshot_file name && FluxIcon.is_icon_file name = false.
Proof.
  unfold Screenshots.is_screenshot_file, FluxIcon.is_icon_file.
  destruct (startsWith name "flux-icon-") eqn:Ei; [|now rewrite andb_false_r].
  destruct (startsWith_first _ _ _ Ei) as [s' ->]. reflexivity.
Qed.

Lemma screenshot_name_selected type stamp :
  type = "embed" \/ type = "splash" ->
  Screenshots.is_screenshot_file ("screenshot" ++ "-" ++ type ++ "-" ++ stamp ++ ".png")
  = true.
Proof.
  intros Htype. unfold Screenshots.is_screenshot_file.
  destruct (Filename.built_name_marks "screenshot" type stamp) as [_ ->].
  rewrite andb_true_r. destruct Htype as [-> | ->]; reflexivity.
Qed.

Lemma icon_name_selected stamp :
  FluxIcon.is_icon_file ("flux" ++ "-" ++ "icon" ++ "-" ++ stamp ++ ".png") = true.
Proof.
  unfold FluxIcon.is_icon_file.
  destruct (Filename.built_name_marks "flux" "icon" stamp) as [_ ->].
  reflexivity.
Qed.

End Names.

(** The names the screenshot script gives its files are selected by its
    own cleaner and never by the cleaner of the icon script; the name
    the icon script gives its file is selected by its own cleaner and
    never by the cleaner of the screenshot script.  No name at all is
    selected by both cleaners. *)
Theorem generated_names_stay_in_their_pipeline (w : World.world) :
  (exists name w',
      Screenshots.generateFilename "embed" (Some "screenshot") w
      = (World.Returned name, w')
      /\ Screenshots.is_screenshot_file name = true
      /\ FluxIcon.is_icon_file name = false)
  /\ (exists name w',
      Screenshots.generateFilename "splash" (Some "screenshot") w
      = (World.Returned name, w')
      /\ Screenshots.is_screenshot_file name = true
      /\ FluxIcon.is_icon_file name = false)
  /\ (exists name w',
      FluxIcon.generateFilename "icon" (Some "flux") w = (World.Returned name, w')
      /\ FluxIcon.is_icon_file name = true
      /\ Screenshots.is_screenshot_file name = false)
  /\ forall name,
       Screenshots.is_screenshot_file name && FluxIcon.is_icon_file name = false.
Proof.
  assert (Hapart : forall name,
             Screenshots.is_screenshot_file name = true ->
             FluxIcon.is_icon_file name = false).
  { intros name H. pose proof (Names.assets_apart name) as Ha.
    now rewrite H in Ha. }
  assert (Hapart' : forall name,
             FluxIcon.is_icon_file name = true ->
             Screenshots.is_screenshot_file name = false).
  { intros name H. pose proof (Names.assets_apart name) as Ha.
    rewrite H, andb_true_r in Ha. exact Ha. }
  split; [|split; [|split]].
  - eexists _, _. split; [reflexivity|].
    pose proof (Names.screenshot_name_selected "embed"
                  (JsString.replace_colon_dot (World.clock w (World.dates w)))
                  (or_introl eq_refl)) as H.
    split; [exact H | exact (Hapart _ H)].
  - eexists _, _. split; [reflexivity|].
    pose proof (Names.screenshot_name_selected "splash"
                  (JsString.replace_colon_dot (World.clock w (World.dates w)))
                  (or_intror eq_refl)) as H.
    split; [exact H | exact (Hapart _ H)].
  - eexists _, _. split; [reflexivity|].
    pose proof (Names.icon_name_selected
                  (JsString.replace_colon_dot (World.clock w (World.dates w)))) as H.
    split; [exact H | exact (Hapart' _ H)].
  - apply Names.assets_apart.
Qed.

(** ** [takeScreenshot] *)

Module Shot.
Import JsString Json Vocabulary Behaviour World Node Run.

Lemma step_refl w : step w w (fs w) (dates w) [].
Proof.
  split; [apply Cleaner.same_setting_refl|].
  repeat split. now rewrite app_nil_r.
Qed.

Lemma step_trans w w1 w2 f1 d1 e1 f2 d2 e2 :
  step w w1 f1 d1 e1 -> step w1 w2 f2 d2 e2 -> step w w2 f2 d2 (e1 ++ e2).
Proof.
  intros (S1 & _ & _ & T1) (S2 & F2 & D2 & T2).
  split; [eapply Cleaner.same_setting_trans; eauto|].
  repeat split; auto. now rewrite T2, T1, app_assoc.
Qed.

(** What [fetch] does. *)
Lemma fetch_run req w :
  fetch req w
  = match network w req with
    | FetchRejected e => (Thrown e, logged w [Fetched req])
    | FetchResolved r => (Returned r, logged w [Fetched req])
    end.
Proof.
  unfold fetch, bind, emit, gets. cbn [network with_trace].
  destruct (network w req); reflexivity.
Qed.

Lemma takeScreenshot_rejected url vp filename w e :
  network w (screenshot_request w url vp) = FetchRejected e ->
  exists w',
    Screenshots.takeScreenshot url vp filename w = (Thrown e, w')
    /\ step w w' (fs w) (dates w)
         [Fetched (screenshot_request w url vp);
          ConsoleError (screenshot_failed_line e)].
Proof.
  intros Hnet. unfold Screenshots.takeScreenshot. cbv zeta.
  eexists. split.
  - erewrite try_catch_thrown; [reflexivity|].
    unfold bind at 1, Screenshots.SCREENSHOT_CONFIG_baseUrl, gets at 1.
    fold (screenshot_request w url vp).
    unfold bind at 1. rewrite fetch_run, Hnet. reflexivity.
  - split; [repeat split|]. repeat split.
    cbn. now rewrite <- app_assoc.
Qed.

Lemma takeScreenshot_refused url vp filename w r :
  network w (screenshot_request w url vp) = FetchResolved r ->
  ok r = false ->
  exists w',
    Screenshots.takeScreenshot url vp filename w = (Thrown (request_failed r), w')
    /\ step w w' (fs w) (dates w)
         [Fetched (screenshot_request w url vp);
          ConsoleError (screenshot_failed_line (request_failed r))].
Proof.
  intros Hnet Hok. unfold Screenshots.takeScreenshot. cbv zeta.
  eexists. split.
  - erewrite try_catch_thrown; [reflexivity|].
    unfold bind at 1, Screenshots.SCREENSHOT_CONFIG_baseUrl, gets at 1.
    fold (screenshot_request w url vp).
    unfold bind at 1. rewrite fetch_run, Hnet, Hok. reflexivity.
  - split; [repeat split|]. repeat split.
    cbn. now rewrite <- app_assoc.
Qed.

Lemma takeScreenshot_not_image url vp filename w r :
  network w (screenshot_request w url vp) = FetchResolved r ->
  ok r = true ->
  Screenshots.image_content_type (content_type r) = false ->
  exists w',
    Screenshots.takeScreenshot url vp filename w = (Thrown (not_an_image r), w')
    /\ step w w' (fs w) (dates w)
         [Fetched (screenshot_request w url vp);
          ConsoleError (screenshot_failed_line (not_an_image r))].
Proof.
  intros Hnet Hok Himage. unfold Screenshots.takeScreenshot. cbv zeta.
  eexists. split.
  - erewrite try_catch_thrown; [reflexivity|].
    unfold bind at 1, Screenshots.SCREENSHOT_CONFIG_baseUrl, gets at 1.
    fold (screenshot_request w url vp).
    unfold bind at 1. rewrite fetch_run, Hnet, Hok, Himage. reflexivity.
  - split; [repeat split|]. repeat split.
    cbn. now rewrite <- app_assoc.
Qed.

Lemma takeScreenshot_saved url vp filename w r :
  network w (screenshot_request w url vp) = FetchResolved r ->
  ok r = true ->
  Screenshots.image_content_type (content_type r) = true ->
  can_save w filename ->
  exists w',
    Screenshots.takeScreenshot url vp filename w = (Returned filename, w')
    /\ step w w'
         (mk_fs (Some (put_entry filename (FromBytes (body r)) (listing w)))
            (manifest (fs w)))
         (dates w)
         [Fetched (screenshot_request w url vp)].
Proof.
  intros Hnet Hok Himage [Hmkdir Hwrite].
  unfold Screenshots.takeScreenshot. cbv zeta.
  exists (with_images (logged w [Fetched (screenshot_request w url vp)])
            (put_entry filename (FromBytes (body r)) (listing w))).
  split.
  - apply try_catch_returned.
    unfold bind at 1, Screenshots.SCREENSHOT_CONFIG_baseUrl, gets at 1.
    fold (screenshot_request w url vp).
    unfold bind at 1. rewrite fetch_run, Hnet, Hok, Himage. cbn [negb].
    unfold bind at 1, existsSync_images, gets at 1, logged.
    cbn [fs with_trace]. unfold listing.
    destruct (images (fs w)) as [entries|] eqn:Edir; cbn [negb].
    + unfold bind at 1, ret at 1.
      unfold bind at 1, writeFileSync_image. cbn [os fs with_trace].
      rewrite Hwrite, Edir. reflexivity.
    + unfold bind at 1, mkdirSync_images. cbn [os fs with_trace].
      rewrite (Hmkdir eq_refl), Edir.
      unfold bind at 1, writeFileSync_image. cbn [os fs with_trace with_fs images].
      rewrite Hwrite. reflexivity.
  - repeat split.
Qed.

(** Whatever happens, [takeScreenshot] sends its request, prints error
    lines at most, and leaves the manifest alone. *)
Lemma takeScreenshot_shape url vp filename w :
  exists o w' lines,
    Screenshots.takeScreenshot url vp filename w = (o, w')
    /\ (forall c, o <> Exited c)
    /\ same_setting w w'
    /\ dates w' = dates w
    /\ manifest (fs w') = manifest (fs w)
    /\ trace w'
       = (trace w ++ Fetched (screenshot_request w url vp) :: map ConsoleError lines)%list.
Proof.
  destruct (network w (screenshot_request w url vp)) as [e|r] eqn:Hnet.
  { destruct (takeScreenshot_rejected url vp filename w e Hnet)
      as (w' & Hrun & Hset & Hfs & Hd & Ht).
    exists (Thrown e), w', [screenshot_failed_line e].
    repeat split; try apply Hset; auto; try discriminate. now rewrite Hfs. }
  destruct (ok r) eqn:Hok.
  2:{ destruct (takeScreenshot_refused url vp filename w r Hnet Hok)
        as (w' & Hrun & Hset & Hfs & Hd & Ht).
      exists (Thrown (request_failed r)), w', [screenshot_failed_line (request_failed r)].
      repeat split; try apply Hset; auto; try discriminate. now rewrite Hfs. }
  destruct (Screenshots.image_content_type (content_type r)) eqn:Himage.
  2:{ destruct (takeScreenshot_not_image url vp filename w r Hnet Hok Himage)
        as (w' & Hrun & Hset & Hfs & Hd & Ht).
      exists (Thrown (not_an_image r)), w', [screenshot_failed_line (not_an_image r)].
      repeat split; try apply Hset; auto; try discriminate. now rewrite Hfs. }
  unfold Screenshots.takeScreenshot. cbv zeta.
  unfold try_catch, bind at 1, Screenshots.SCREENSHOT_CONFIG_baseUrl, gets at 1.
  fold (screenshot_request w url vp).
  unfold bind at 1. rewrite fetch_run, Hnet, Hok, Himage. cbn [negb].
  unfold bind at 1, existsSync_images, gets at 1, logged.
  cbn [fs with_trace].
  destruct (images (fs w)) as [entries|] eqn:Edir; cbn [negb].
  - unfold bind at 1, ret at 1.
    unfold bind at 1, writeFileSync_image. cbn [os fs with_trace].
    rewrite Edir.
    destruct (write_image_fault (os w) filename) as [msg|].
    + eexists _, _, [_]. split; [reflexivity|].
      repeat split; try discriminate. cbn. now rewrite <- app_assoc.
    + eexists _, _, []. split; [reflexivity|].
      repeat split; discriminate.
  - unfold bind at 1, mkdirSync_images. cbn [os fs with_trace].
    rewrite Edir.
    destruct (mkdir_fault (os w)) as [msg|].
    + eexists _, _, [_]. split; [reflexivity|].
      repeat split; try discriminate. cbn. now rewrite <- app_assoc.
    + unfold bind at 1, writeFileSync_image. cbn [os fs with_trace with_fs images].
      destruct (write_image_fault (os w) filename) as [msg|].
      * eexists _, _, [_]. split; [reflexivity|].
        repeat split; try discriminate. cbn. now rewrite <- app_assoc.
      * eexists _, _, []. split; [reflexivity|].
        repeat split; discriminate.
Qed.

Lemma find_put_same name b entries :
  option_map snd (find (fun e => String.eqb (fst e) name) (put_entry name b entries))
  = Some b.
Proof.
  induction entries as [|[n b'] rest IH]; cbn [put_entry find fst].
  - now rewrite String.eqb_refl.
  - destruct (String.eqb n name) eqn:E; cbn [find fst]; rewrite E; auto.
Qed.

Lemma find_put_other name other b entries :
  other <> name ->
  find (fun e => String.eqb (fst e) other) (put_entry name b entries)
  = find (fun e => String.eqb (fst e) other) entries.
Proof.
  intros Hother.
  induction entries as [|[n b'] rest IH]; cbn [put_entry find fst].
  - assert (String.eqb name other = false) as ->; [|reflexivity].
    apply String.eqb_neq. congruence.
  - destruct (String.eqb n name) eqn:E; cbn [find fst].
    + apply String.eqb_eq in E. subst n.
      assert (String.eqb name other = false) as ->; [|reflexivity].
      apply String.eqb_neq. congruence.
    + now rewrite IH.
Qed.

Lemma requests_console_lines t lines :
  requests (t ++ map ConsoleError lines) = requests t.
Proof. apply Configuration.requests_console. Qed.

Lemma requests_app a b : requests (a ++ b) = (requests a ++ requests b)%list.
Proof. apply filter_app. Qed.

End Shot.

(** [takeScreenshot] sends one request and no other, whatever the
    answer: a POST to the screenshot service whose target address
    carries a protocol.  It never ends the process and never touches the
    manifest. *)
Theorem takeScreenshot_sends_one_request
  (w : World.world) (url : string) (vp : World.viewport) (filename : string) :
  let run := Screenshots.takeScreenshot url vp filename w in
  Vocabulary.requests (World.trace (snd run))
  = (Vocabulary.requests (World.trace w)
     ++ [World.Fetched (Behaviour.screenshot_request w url vp)])%list
  /\ World.fetch_method (Behaviour.screenshot_request w url vp) = "POST"
  /\ (exists b,
        World.fetch_body (Behaviour.screenshot_request w url vp) = Some b
        /\ World.body_url b = Screenshots.ensureProtocol url
        /\ Screenshots.protocol_test (World.body_url b) = true)
  /\ World.manifest (World.fs (snd run)) = World.manifest (World.fs w)
  /\ (forall code, fst run <> World.Exited code).
Proof.
  cbv zeta.
  destruct (Shot.takeScreenshot_shape url vp filename w)
    as (o & w' & lines & -> & Hexit & _ & _ & Hman & Htrace).
  cbn [fst snd]. split; [|split; [reflexivity|split; [|split; assumption]]].
  - rewrite Htrace.
    change (World.Fetched (Behaviour.screenshot_request w url vp)
            :: map World.ConsoleError lines)
      with ([World.Fetched (Behaviour.screenshot_request w url vp)]
            ++ map World.ConsoleError lines)%list.
    now rewrite app_assoc, Shot.requests_console_lines, Shot.requests_app.
  - eexists. split; [reflexivity|]. split; [reflexivity|].
    cbn [World.body_url]. unfold Screenshots.ensureProtocol.
    destruct (Screenshots.protocol_test url) eqn:E; cbn [negb];
      [exact E | apply EnsureProtocol.protocol_test_prefixed].
Qed.

(** [takeScreenshot] raises, having written nothing, when the request is
    rejected, when the answer is not a success (the error names the
    status and its text), and when the answer is a success whose content
    type does not start with [image/] or is missing. *)
Theorem takeScreenshot_raises_without_writing
  (w : World.world) (url : string) (vp : World.viewport) (filename : string) :
  let run := Screenshots.takeScreenshot url vp filename w in
  match World.network w (Behaviour.screenshot_request w url vp) with
  | World.FetchRejected e =>
      fst run = World.Thrown e /\ World.fs (snd run) = World.fs w
  | World.FetchResolved r =>
      (World.ok r = false ->
       fst run = World.Thrown (Behaviour.request_failed r)
       /\ World.fs (snd run) = World.fs w)
      /\ (World.ok r = true ->
          Screenshots.image_content_type (World.content_type r) = false ->
          fst run = World.Thrown (Behaviour.not_an_image r)
          /\ World.fs (snd run) = World.fs w)
  end.
Proof.
  cbv zeta.
  destruct (World.network w (Behaviour.screenshot_request w url vp))
    as [e|r] eqn:Hnet.
  - destruct (Shot.takeScreenshot_rejected url vp filename w e Hnet)
      as (w' & -> & _ & Hfs & _).
    now split.
  - split.
    + intros Hok.
      destruct (Shot.takeScreenshot_refused url vp filename w r Hnet Hok)
        as (w' & -> & _ & Hfs & _).
      now split.
    + intros Hok Himage.
      destruct (Shot.takeScreenshot_not_image url vp filename w r Hnet Hok Himage)
        as (w' & -> & _ & Hfs & _).
      now split.
Qed.

Lemma takeScreenshot_raises_without_writing_witness :
  let w := Scene.answering Scene.not_found in
  let run :=
    Screenshots.takeScreenshot "app.example" Screenshots.SCREENSHOT_VIEWPORTS_embed
      "screenshot-embed-A.png" w in
  World.ok Scene.not_found = false
  /\ fst run = World.Thrown (Behaviour.request_failed Scene.not_found)
  /\ World.message (Behaviour.request_failed Scene.not_found)
     = "API request failed: 404 Not Found" ++ Screenshots.newline ++ "no such page"
  /\ World.fs (snd run) = World.fs w.
Proof.
  cbv zeta. split; [reflexivity|].
  pose proof (takeScreenshot_raises_without_writing
                (Scene.answering Scene.not_found) "app.example"
                Screenshots.SCREENSHOT_VIEWPORTS_embed "screenshot-embed-A.png") as H.
  cbv zeta in H.
  change (World.network (Scene.answering Scene.not_found)
            (Behaviour.screenshot_request (Scene.answering Scene.not_found)
               "app.example" Screenshots.SCREENSHOT_VIEWPORTS_embed))
    with (World.FetchResolved Scene.not_found) in H.
  destruct H as [H _]. destruct (H eq_refl) as [Hrun Hfs].
  split; [exact Hrun|]. split; [reflexivity | exact Hfs].
Defined.

(** On an answer that is a success and an image, with a directory that
    is there or can be made and a file that can be written,
    [takeScreenshot] returns the file name; the file then holds the
    bytes of the answer, every other file of the directory is as it was,
    and so is the manifest. *)
Theorem takeScreenshot_saves_answer
  (w : World.world) (url : string) (vp : World.viewport) (filename : string)
  (r : World.http_response) :
  World.network w (Behaviour.screenshot_request w url vp) = World.FetchResolved r ->
  World.ok r = true ->
  Screenshots.image_content_type (World.content_type r) = true ->
  Behaviour.can_save w filename ->
  exists w',
    Screenshots.takeScreenshot url vp filename w = (World.Returned filename, w')
    /\ Behaviour.file_at (World.fs w') filename = Some (World.FromBytes (World.body r))
    /\ (forall other, other <> filename ->
          Behaviour.file_at (World.fs w') other = Behaviour.file_at (World.fs w) other)
    /\ World.manifest (World.fs w') = World.manifest (World.fs w).
Proof.
  intros Hnet Hok Himage Hsave.
  destruct (Shot.takeScreenshot_saved url vp filename w r Hnet Hok Himage Hsave)
    as (w' & Hrun & _ & Hfs & _).
  exists w'. split; [exact Hrun|]. rewrite Hfs. unfold Behaviour.file_at.
  cbn [World.images World.manifest]. split; [|split; [|reflexivity]].
  - apply Shot.find_put_same.
  - intros other Hother. rewrite (Shot.find_put_other _ _ _ _ Hother).
    unfold Behaviour.listing. now destruct (World.images (World.fs w)).
Qed.

Lemma takeScreenshot_saves_answer_witness :
  let w := Scene.world_fresh in
  World.network w
    (Behaviour.screenshot_request w "app.example" Screenshots.SCREENSHOT_VIEWPORTS_embed)
  = World.FetchResolved Scene.png
  /\ World.ok Scene.png = true
  /\ Screenshots.image_content_type (World.content_type Scene.png) = true
  /\ Behaviour.can_save w "screenshot-embed-A.png"
  /\ World.images (World.fs w) = None
  /\ exists w',
       Screenshots.takeScreenshot "app.example" Screenshots.SCREENSHOT_VIEWPORTS_embed
         "screenshot-embed-A.png" w
       = (World.Returned "screenshot-embed-A.png", w')
       /\ Behaviour.file_at (World.fs w') "screenshot-embed-A.png"
          = Some (World.FromBytes "PNG").
Proof.
  cbv zeta.
  assert (Hsave : Behaviour.can_save Scene.world_fresh "screenshot-embed-A.png")
    by (split; reflexivity).
  split; [reflexivity|]. split; [reflexivity|]. split; [reflexivity|].
  split; [exact Hsave|]. split; [reflexivity|].
  destruct (takeScreenshot_saves_answer Scene.world_fresh "app.example"
              Screenshots.SCREENSHOT_VIEWPORTS_embed "screenshot-embed-A.png"
              Scene.png eq_refl eq_refl eq_refl Hsave)
    as (w' & Hrun & Hfile & _).
  exists w'. split; [exact Hrun | exact Hfile].
Defined.

(** ** What computations keep *)

Module Keeps.
Import JsString Json Vocabulary Behaviour World Node Run.

Section Generic.
Context {R : world -> world -> Prop} `{PreOrder world R}.

Lemma keeps_ret {A} (a : A) : respects R (ret a).
Proof. intros w. reflexivity. Qed.

Lemma keeps_throw {A} e : respects R (throw (A := A) e).
Proof. intros w. reflexivity. Qed.

Lemma keeps_process_exit {A} c : respects R (process_exit (A := A) c).
Proof. intros w. reflexivity. Qed.

Lemma keeps_gets {A} (f : world -> A) : respects R (gets f).
Proof. intros w. reflexivity. Qed.

Lemma keeps_bind {A B} (m : js A) (k : A -> js B) :
  respects R m -> (forall a, respects R (k a)) -> respects R (bind m k).
Proof.
  intros Hm Hk w. unfold bind. specialize (Hm w).
  destruct (m w) as [[a|e|c] w1]; cbn [snd] in *; auto.
  etransitivity; [exact Hm | apply Hk].
Qed.

Lemma keeps_try_catch {A} (body : js A) handler :
  respects R body -> (forall e, respects R (handler e)) ->
  respects R (try_catch body handler).
Proof.
  intros Hb Hh w. unfold try_catch. specialize (Hb w).
  destruct (body w) as [[a|e|c] w1]; cbn [snd] in *; auto.
  etransitivity; [exact Hb | apply Hh].
Qed.

Lemma keeps_forEach {A} (xs : list A) (f : A -> js unit) :
  (forall x, respects R (f x)) -> respects R (forEach xs f).
Proof.
  intros Hf. induction xs as [|x xs IH]; cbn [forEach].
  - apply keeps_ret.
  - apply keeps_bind; auto.
Qed.

End Generic.

#[export] Instance same_dates_preorder : PreOrder same_dates.
Proof. split; unfold same_dates; [intros w | intros a b c]; congruence. Qed.

#[export] Instance images_kept_preorder : PreOrder images_kept.
Proof. split; unfold images_kept; [intros w | intros a b c]; congruence. Qed.

#[export] Instance manifest_kept_preorder : PreOrder manifest_kept.
Proof. split; unfold manifest_kept; [intros w | intros a b c]; congruence. Qed.

Ltac primitive_keeps :=
  intros w;
  repeat match goal with
         | |- context [match ?x with _ => _ end] => destruct x eqn:?
         end;
  cbn; first [reflexivity | congruence].

Lemma same_dates_emit e : respects same_dates (emit e).
Proof. intros w. reflexivity. Qed.
Lemma same_dates_mkdir : respects same_dates mkdirSync_images.
Proof. unfold respects, same_dates, mkdirSync_images, system_error, throw. primitive_keeps. Qed.
Lemma same_dates_readdir : respects same_dates readdirSync_images.
Proof. unfold respects, same_dates, readdirSync_images, system_error, throw. primitive_keeps. Qed.
Lemma same_dates_unlink name : respects same_dates (unlinkSync_image name).
Proof. unfold respects, same_dates, unlinkSync_image, system_error, throw. primitive_keeps. Qed.
Lemma same_dates_write_image name b : respects same_dates (writeFileSync_image name b).
Proof. unfold respects, same_dates, writeFileSync_image, system_error, throw. primitive_keeps. Qed.
Lemma same_dates_read_manifest : respects same_dates readFileSync_manifest.
Proof. unfold respects, same_dates, readFileSync_manifest, system_error, throw. primitive_keeps. Qed.
Lemma same_dates_write_manifest text : respects same_dates (writeFileSync_manifest text).
Proof. unfold respects, same_dates, writeFileSync_manifest, system_error, throw. primitive_keeps. Qed.
Lemma same_dates_new_URL v : respects same_dates (FluxIcon.new_URL_origin v).
Proof. unfold respects, same_dates, FluxIcon.new_URL_origin. primitive_keeps. Qed.

Lemma images_kept_emit e : respects images_kept (emit e).
Proof. intros w. reflexivity. Qed.
Lemma images_kept_readdir : respects images_kept readdirSync_images.
Proof. unfold respects, images_kept, readdirSync_images, system_error, throw. primitive_keeps. Qed.
Lemma images_kept_read_manifest : respects images_kept readFileSync_manifest.
Proof. unfold respects, images_kept, readFileSync_manifest, system_error, throw. primitive_keeps. Qed.
Lemma images_kept_write_manifest text : respects images_kept (writeFileSync_manifest text).
Proof. unfold respects, images_kept, writeFileSync_manifest, system_error, throw. primitive_keeps. Qed.
Lemma images_kept_now : respects images_kept now_toISOString.
Proof. intros w. reflexivity. Qed.
Lemma images_kept_new_URL v : respects images_kept (FluxIcon.new_URL_origin v).
Proof. unfold respects, images_kept, FluxIcon.new_URL_origin. primitive_keeps. Qed.

Lemma manifest_kept_emit e : respects manifest_kept (emit e).
Proof. intros w. reflexivity. Qed.
Lemma manifest_kept_mkdir : respects manifest_kept mkdirSync_images.
Proof. unfold respects, manifest_kept, mkdirSync_images, system_error, throw. primitive_keeps. Qed.
Lemma manifest_kept_readdir : respects manifest_kept readdirSync_images.
Proof. unfold respects, manifest_kept, readdirSync_images, system_error, throw. primitive_keeps. Qed.
Lemma manifest_kept_unlink name : respects manifest_kept (unlinkSync_image name).
Proof. unfold respects, manifest_kept, unlinkSync_image, system_error, throw. primitive_keeps. Qed.
Lemma manifest_kept_write_image name b : respects manifest_kept (writeFileSync_image name b).
Proof. unfold respects, manifest_kept, writeFileSync_image, system_error, throw. primitive_keeps. Qed.
Lemma manifest_kept_read_manifest : respects manifest_kept readFileSync_manifest.
Proof. unfold respects, manifest_kept, readFileSync_manifest, system_error, throw. primitive_keeps. Qed.
Lemma manifest_kept_now : respects manifest_kept now_toISOString.
Proof. intros w. reflexivity. Qed.
Lemma manifest_kept_new_URL v : respects manifest_kept (FluxIcon.new_URL_origin v).
Proof. unfold respects, manifest_kept, FluxIcon.new_URL_origin. primitive_keeps. Qed.

Create HintDb keeps.

#[export] Hint Resolve keeps_ret keeps_throw keeps_process_exit keeps_gets
  same_dates_emit same_dates_mkdir same_dates_readdir same_dates_unlink
  same_dates_write_image same_dates_read_manifest same_dates_write_manifest
  same_dates_new_URL
  images_kept_emit images_kept_readdir images_kept_read_manifest
  images_kept_write_manifest images_kept_now images_kept_new_URL
  manifest_kept_emit manifest_kept_mkdir manifest_kept_readdir
  manifest_kept_unlink manifest_kept_write_image manifest_kept_read_manifest
  manifest_kept_now manifest_kept_new_URL : keeps.

(** Goes through a computation built from the operations above. *)
Ltac keeps_step :=
  first
    [ solve [auto with keeps typeclass_instances]
    | apply keeps_bind; [|intros ?]
    | apply keeps_try_catch; [|intros ?]
    | apply keeps_forEach; intros ?
    | match goal with
      | |- respects _ (if ?b then _ else _) => destruct b
      | |- respects _ (match ?x with _ => _ end) => destruct x
      | |- respects _ (let _ := _ in _) => cbv zeta
      end
    | progress unfold existsSync_images, existsSync_manifest, JSON_parse,
        member, optional_member, assign, assign_miniapp, fetch, images_create,
        setTimeout_seconds, console_warn, console_error ].

Ltac keeps_tac := repeat keeps_step.

Lemma cleaners_keep_dates :
  respects same_dates Screenshots.clearExistingScreenshots
  /\ respects same_dates FluxIcon.clearExistingIcons.
Proof.
  split; [unfold Screenshots.clearExistingScreenshots
         | unfold FluxIcon.clearExistingIcons]; keeps_tac.
Qed.

Lemma cleaners_keep_manifest :
  respects manifest_kept Screenshots.clearExistingScreenshots
  /\ respects manifest_kept FluxIcon.clearExistingIcons.
Proof.
  split; [unfold Screenshots.clearExistingScreenshots
         | unfold FluxIcon.clearExistingIcons]; keeps_tac.
Qed.

Lemma patchers_keep_images domain names icon :
  respects images_kept (Screenshots.updateFarcasterConfig domain names)
  /\ respects images_kept (FluxIcon.updateFarcasterConfigWithIcon icon).
Proof.
  split; [unfold Screenshots.updateFarcasterConfig
         | unfold FluxIcon.updateFarcasterConfigWithIcon]; keeps_tac.
Qed.

Lemma patchers_keep_dates domain names icon :
  respects same_dates (Screenshots.updateFarcasterConfig domain names)
  /\ respects same_dates (FluxIcon.updateFarcasterConfigWithIcon icon).
Proof.
  split; [unfold Screenshots.updateFarcasterConfig
         | unfold FluxIcon.updateFarcasterConfigWithIcon]; keeps_tac.
Qed.

Lemma generators_keep_manifest :
  (forall url vp filename,
      respects manifest_kept (Screenshots.takeScreenshot url vp filename))
  /\ (forall url vp type,
      respects manifest_kept (Screenshots.generateSingleScreenshot url vp type))
  /\ (forall data name isBase64,
      respects manifest_kept (FluxIcon.downloadAndSaveImage data name isBase64))
  /\ (forall together prompt dimensions,
      respects manifest_kept (FluxIcon.generateIcon together prompt dimensions)).
Proof.
  assert (Hshot : forall url vp filename,
             respects manifest_kept (Screenshots.takeScreenshot url vp filename)).
  { intros. unfold Screenshots.takeScreenshot,
      Screenshots.SCREENSHOT_CONFIG_baseUrl. keeps_tac. }
  assert (Hdl : forall data name isBase64,
             respects manifest_kept (FluxIcon.downloadAndSaveImage data name isBase64)).
  { intros. unfold FluxIcon.downloadAndSaveImage. keeps_tac. }
  split; [exact Hshot|]. split; [|split; [exact Hdl|]].
  - intros. unfold Screenshots.generateSingleScreenshot,
      Screenshots.generateFilename. keeps_tac.
  - intros. unfold FluxIcon.generateIcon, FluxIcon.generateFilename.
    keeps_tac.
Qed.

End Keeps.

(** ** How the scripts end *)

Module Ends.
Import JsString Json Vocabulary Behaviour World Node Run Exits.

Lemma never_exits_forEach {A} (xs : list A) (f : A -> js unit) :
  (forall x, never_exits (f x)) -> never_exits (forEach xs f).
Proof.
  intros Hf. induction xs as [|x xs IH]; cbn [forEach].
  - apply never_exits_ret.
  - apply never_exits_bind; auto.
Qed.

Ltac never_exits_more :=
  repeat first
    [ never_exits_step
    | apply never_exits_forEach; intros ? ].

Lemma never_exits_cleaners :
  never_exits Screenshots.clearExistingScreenshots
  /\ never_exits FluxIcon.clearExistingIcons.
Proof.
  split; [unfold Screenshots.clearExistingScreenshots
         | unfold FluxIcon.clearExistingIcons]; never_exits_more.
Qed.

Lemma never_exits_takeScreenshot url vp filename :
  never_exits (Screenshots.takeScreenshot url vp filename).
Proof.
  unfold Screenshots.takeScreenshot, Screenshots.SCREENSHOT_CONFIG_baseUrl.
  never_exits_more.
Qed.

Lemma never_exits_generateSingleScreenshot url vp type :
  never_exits (Screenshots.generateSingleScreenshot url vp type).
Proof.
  pose proof never_exits_takeScreenshot.
  unfold Screenshots.generateSingleScreenshot, Screenshots.generateFilename.
  never_exits_more.
Qed.

Lemma never_exits_sleep seconds : never_exits (Screenshots.sleep seconds).
Proof. unfold Screenshots.sleep. never_exits_more. Qed.

Lemma never_exits_patchers domain names icon :
  never_exits (Screenshots.updateFarcasterConfig domain names)
  /\ never_exits (FluxIcon.updateFarcasterConfigWithIcon icon).
Proof.
  split; [unfold Screenshots.updateFarcasterConfig
         | unfold FluxIcon.updateFarcasterConfigWithIcon]; never_exits_more.
Qed.

Lemma never_exits_downloadAndSaveImage data name isBase64 :
  never_exits (FluxIcon.downloadAndSaveImage data name isBase64).
Proof. unfold FluxIcon.downloadAndSaveImage. never_exits_more. Qed.

Lemma never_exits_generateIcon together prompt dimensions :
  never_exits (FluxIcon.generateIcon together prompt dimensions).
Proof.
  pose proof never_exits_downloadAndSaveImage.
  unfold FluxIcon.generateIcon, FluxIcon.generateFilename. never_exits_more.
Qed.

Lemma never_exits_getAppNameFromConfig :
  never_exits FluxIcon.getAppNameFromConfig.
Proof. unfold FluxIcon.getAppNameFromConfig. never_exits_more. Qed.

Lemma exits_only_1_never {A} (m : js A) : never_exits m -> exits_only_1 m.
Proof. intros Hm w c w' E. now elim (Hm w c w'). Qed.

Lemma exits_only_1_exit {A} : exits_only_1 (process_exit (A := A) 1).
Proof. intros w c w' E. now injection E as <-. Qed.

Lemma exits_only_1_bind {A B} (m : js A) (k : A -> js B) :
  exits_only_1 m -> (forall a, exits_only_1 (k a)) -> exits_only_1 (bind m k).
Proof.
  intros Hm Hk w c w'. unfold bind.
  destruct (m w) as [[a|e|c0] w1] eqn:E.
  - apply Hk.
  - discriminate.
  - intros H. injection H as <- <-. exact (Hm _ _ _ E).
Qed.

Ltac exits_only_1_tac :=
  repeat first
    [ apply exits_only_1_exit
    | apply exits_only_1_never;
      solve [ never_exits_more
            | apply never_exits_cleaners
            | apply never_exits_generateSingleScreenshot
            | apply never_exits_sleep
            | apply never_exits_patchers
            | apply never_exits_generateIcon
            | apply never_exits_getAppNameFromConfig ]
    | apply exits_only_1_bind; [|intros ?]
    | match goal with
      | |- exits_only_1 (if ?b then _ else _) => destruct b
      | |- exits_only_1 (let _ := _ in _) => cbv zeta
      end ].

(** [try { body } catch { ...; process.exit(1) }] returns or ends the
    process with code 1 when the body ends it with no other code. *)
Lemma try_catch_returned_or_exited_1 {A} (body : js A) handler :
  exits_only_1 body ->
  (forall e w, fst (handler e w) = Exited 1) ->
  forall w, returned_or_exited_1 (try_catch body handler w).
Proof.
  intros Hb Hh w. unfold try_catch, returned_or_exited_1.
  destruct (body w) as [[a|e|c] w1] eqn:E.
  - left. now exists a.
  - right. apply Hh.
  - right. cbn. f_equal. exact (Hb _ _ _ E).
Qed.

End Ends.

(** Both scripts end by returning or by [process.exit(1)]: no error
    leaves [generateScreenshots] or [main], and the process never ends
    with another code. *)
